(** * validictory (Homeloc fork): schema validation engine

    A shallow embedding of [validictory/validator.py], [extended.py] and
    [coercer.py].  The code is Python 2 (metaclass attribute, [unicode],
    [basestring]); the embedding follows it method by method.

    - Python objects live in a store ([heap]): dicts, lists and tuples are
      reached through references, so in-place mutation ([data[k] = v],
      [value.append], [del value[k]]) and identity ([is]) are those of the
      source.  Objects are JSON objects: their keys are strings.  A dict is
      the list of its entries in the order a loop visits them; where a new
      key lands in that order is the business of CPython's hash table, the
      model puts it last, and a statement that depends on the order of a
      dict says so through the list of entries it quantifies over.
    - The validator instance is the mutable record [validator]; methods are
      functions in the state-and-exception monad [M].
    - Functions of the interpreter and of its library that the repository
      does not define ([re.match], float arithmetic, [strptime], ...) are the
      fields of [PyLib].
    - Recursive method calls go through the record [methods], indexed by the
      remaining recursion depth; running out of depth is Python's
      [RuntimeError].
    - An integer is an [int] when it lies within [sys.maxint] (a field of
      [PyLib]) and a [long] beyond it, as literals, [json] and [int()] make
      them; the index of a list element is an [int].  [str] and [unicode]
      are one type of strings; a [for] loop visits the elements its sequence
      has when the loop starts. *)

From Stdlib Require Import ZArith QArith Qround String Ascii List Bool DecimalString.
From stdpp Require Import base list.
Import ListNotations.
Set Warnings "-register-all".
Close Scope Q_scope.
Open Scope string_scope.
Open Scope list_scope.
Open Scope Z_scope.

(** ** Python values and the object store *)

Abbreviation loc := nat.

Inductive value : Type :=
| VNone
| VBool (b : bool)
| VInt (n : Z)
| VFloat (q : Q)
| VStr (s : string)
| VDatetime (t : Z)
| VRef (l : loc).

Inductive obj : Type :=
| ODict (items : list (string * value))
| OList (elems : list value)
| OTuple (elems : list value).

Abbreviation heap := (list obj).

(** Literals: the tree notation of a Python value, used to write inputs and
    to read results back. *)
Inductive lit : Type :=
| LNone
| LBool (b : bool)
| LInt (n : Z)
| LFloat (q : Q)
| LStr (s : string)
| LDatetime (t : Z)
| LList (l : list lit)
| LTuple (l : list lit)
| LDict (kvs : list (string * lit)).

Definition alloc (o : obj) (h : heap) : value * heap :=
  (VRef (length h), h ++ [o]).

Fixpoint build (t : lit) (h : heap) : value * heap :=
  match t with
  | LNone => (VNone, h)
  | LBool b => (VBool b, h)
  | LInt n => (VInt n, h)
  | LFloat q => (VFloat q, h)
  | LStr s => (VStr s, h)
  | LDatetime d => (VDatetime d, h)
  | LList l =>
      let '(vs, h1) :=
        (fix go (l : list lit) (h : heap) : list value * heap :=
           match l with
           | [] => ([], h)
           | t :: r => let '(v, h1) := build t h in
                       let '(vs, h2) := go r h1 in (v :: vs, h2)
           end) l h in
      alloc (OList vs) h1
  | LTuple l =>
      let '(vs, h1) :=
        (fix go (l : list lit) (h : heap) : list value * heap :=
           match l with
           | [] => ([], h)
           | t :: r => let '(v, h1) := build t h in
                       let '(vs, h2) := go r h1 in (v :: vs, h2)
           end) l h in
      alloc (OTuple vs) h1
  | LDict kvs =>
      let '(vs, h1) :=
        (fix go (l : list (string * lit)) (h : heap)
           : list (string * value) * heap :=
           match l with
           | [] => ([], h)
           | (k, t) :: r => let '(v, h1) := build t h in
                            let '(vs, h2) := go r h1 in ((k, v) :: vs, h2)
           end) kvs h in
      alloc (ODict vs) h1
  end.

Fixpoint read (fuel : nat) (h : heap) (v : value) : option lit :=
  match v with
  | VNone => Some LNone
  | VBool b => Some (LBool b)
  | VInt n => Some (LInt n)
  | VFloat q => Some (LFloat q)
  | VStr s => Some (LStr s)
  | VDatetime d => Some (LDatetime d)
  | VRef l =>
      match fuel with
      | O => None
      | S fuel =>
          let read_all :=
            fix go (vs : list value) : option (list lit) :=
              match vs with
              | [] => Some []
              | v :: r => match read fuel h v, go r with
                          | Some t, Some ts => Some (t :: ts)
                          | _, _ => None
                          end
              end in
          match h !! l with
          | Some (OList vs) => option_map LList (read_all vs)
          | Some (OTuple vs) => option_map LTuple (read_all vs)
          | Some (ODict kvs) =>
              option_map (fun ts => LDict (combine (map fst kvs) ts))
                         (read_all (map snd kvs))
          | None => None
          end
      end
  end.

(** ** Errors and exceptions *)

(** An entry of [error_list]: the tuple built by [_error], or the message a
    format validator appends. *)
Inductive entry : Type :=
| ErrorRecord (code : string) (field_path : value) (message : value)
              (suppl : value)
| FormatMessage (text : string) (v : value) (fieldname : value)
                (format_option : value).

Inductive exn : Type :=
| SchemaError (msg : string)
| ValidationError (errors : list entry)
| TypeError
| KeyError
| IndexError
| AttributeError
| RegexError
| OverflowError
| RuntimeError.

(** ** The validator instance *)

(** The mutable attributes of [self] and the store.  The three stacks are
    Python lists used with [append] and [pop]; the head of the Rocq list is
    the last element of the Python list. *)
Record validator : Type := Validator {
  error_list : list entry;
  error_stack : list (list entry);
  current_field : list value;
  current_object : list value;
  mem : heap
}.

Inductive result (A : Type) : Type :=
| Ok (a : A) (s : validator)
| Raise (e : exn).
Arguments Ok {A} a s.
Arguments Raise {A} e.

Definition M (A : Type) : Type := validator -> result A.

Definition ret {A} (a : A) : M A := fun s => Ok a s.
Definition raise {A} (e : exn) : M A := fun _ => Raise e.
Definition bind {A B} (m : M A) (k : A -> M B) : M B :=
  fun s => match m s with
           | Ok a s1 => k a s1
           | Raise e => Raise e
           end.

Declare Scope py_scope.
Delimit Scope py_scope with py.
Notation "'let*' x ':=' m 'in' k" := (bind m (fun x => k))
  (at level 10, x name, m at level 100, k at level 200) : py_scope.
Notation "m ';;' k" := (bind m (fun _ => k))
  (at level 100, k at level 200, right associativity) : py_scope.
Open Scope py_scope.

Definition when (b : bool) (m : M unit) : M unit := if b then m else ret tt.

(** The instance [s] over the store [h]. *)
Definition with_mem (s : validator) (h : heap) : validator :=
  Validator (error_list s) (error_stack s) (current_field s) (current_object s) h.

Definition get_state : M validator := fun s => Ok s s.
Definition get_mem : M heap := fun s => Ok (mem s) s.
Definition set_mem (h : heap) : M unit := fun s => Ok tt (with_mem s h).
Definition set_path (f o : list value) : M unit :=
  fun s => Ok tt (Validator (error_list s) (error_stack s) f o (mem s)).

Definition lift_opt {A} (e : exn) (o : option A) : M A :=
  match o with Some a => ret a | None => raise e end.

Definition new (o : obj) : M value :=
  fun s => let '(v, h) := alloc o (mem s) in Ok v (with_mem s h).

(** ** Interpreter and library primitives that the repository does not define *)

Record PyLib : Type := {
  (** [re.match(pattern, s) is not None]; [None] when the pattern does not
      compile ([re.error]). *)
  re_match : string -> string -> option bool;
  (** [a % b] on floats, [b] not zero. *)
  float_mod : Q -> Q -> Q;
  (** [float(s)] for a decimal literal [s]. *)
  float_of_string : string -> Q;
  (** [unicode(v)] for floats, datetimes and containers. *)
  unicode_of : heap -> value -> option string;
  (** [datetime.strptime(s, format)]; [None] is [ValueError]. *)
  strptime : string -> string -> option Z;
  (** [socket.inet_aton(s)] succeeds. *)
  inet_aton : string -> bool;
  (** Python 2 ordering of two values that are not both numbers; [None] when
      the comparison raises. *)
  default_cmp : heap -> value -> value -> option comparison;
  (** [sys.maxint]: the integers from [-maxint - 1] to [maxint] are of type
      [int], the others of type [long]. *)
  maxint : Z;
  (** [float(n)] for an integer [n], as arithmetic converts it; [None] when
      the integer is too large for a float ([OverflowError]). *)
  float_of_int : Z -> option Q
}.

(** ** Operations of the interpreter on values *)

Definition res (A : Type) : Type := exn + A.

Definition lift {A} (r : res A) : M A :=
  match r with inl e => raise e | inr a => ret a end.

Definition deref (h : heap) (v : value) : option obj :=
  match v with VRef l => h !! l | _ => None end.

Definition is_dict (h : heap) (v : value) : bool :=
  match deref h v with Some (ODict _) => true | _ => false end.
Definition is_list (h : heap) (v : value) : bool :=
  match deref h v with Some (OList _) => true | _ => false end.
Definition is_list_or_tuple (h : heap) (v : value) : bool :=
  match deref h v with Some (OList _) | Some (OTuple _) => true | _ => false end.
Definition is_str (v : value) : bool :=
  match v with VStr _ => true | _ => false end.
Definition is_bool (v : value) : bool :=
  match v with VBool _ => true | _ => false end.
Definition is_none (v : value) : bool :=
  match v with VNone => true | _ => false end.
Definition decimal (n : Z) : string := NilZero.string_of_int (Z.to_int n).

(** The integer an index denotes: [isinstance(v, int)] holds for integers
    and for booleans ([bool] is a subclass of [int]). *)
Definition as_index (v : value) : option Z :=
  match v with
  | VInt n => Some n
  | VBool b => Some (Z.b2z b)
  | _ => None
  end.

(** The position a Python index denotes in a sequence of length [len]. *)
Definition position (n : Z) (len : nat) : option nat :=
  if 0 <=? n then (if n <? Z.of_nat len then Some (Z.to_nat n) else None)
  else if - Z.of_nat len <=? n then Some (Z.to_nat (Z.of_nat len + n))
  else None.

Fixpoint assoc (k : string) (kvs : list (string * value)) : option value :=
  match kvs with
  | [] => None
  | (k', v) :: r => if String.eqb k k' then Some v else assoc k r
  end.

Fixpoint assoc_set (k : string) (v : value) (kvs : list (string * value))
  : list (string * value) :=
  match kvs with
  | [] => [(k, v)]
  | (k', v') :: r =>
      if String.eqb k k' then (k, v) :: r else (k', v') :: assoc_set k v r
  end.

Definition assoc_del (k : string) (kvs : list (string * value))
  : list (string * value) :=
  List.filter (fun kv => negb (String.eqb k (fst kv))) kvs.

Fixpoint hashable (fuel : nat) (h : heap) (v : value) : bool :=
  match v with
  | VRef l =>
      match h !! l with
      | Some (OTuple vs) =>
          match fuel with
          | O => false
          | S fuel => forallb (hashable fuel h) vs
          end
      | _ => false
      end
  | _ => true
  end.

Definition is_hashable (h : heap) (v : value) : bool :=
  hashable (length h) h v.

Inductive lookup_result : Type :=
| Found (v : value)
| NoKey
| NoIndex
| NotSubscriptable.

(** [x[field]] *)
Definition getitem (h : heap) (x field : value) : lookup_result :=
  match x with
  | VRef l =>
      match h !! l with
      | Some (ODict kvs) =>
          match field with
          | VStr k => match assoc k kvs with Some v => Found v | None => NoKey end
          | _ => if is_hashable h field then NoKey else NotSubscriptable
          end
      | Some (OList vs) | Some (OTuple vs) =>
          match as_index field with
          | Some n => match position n (length vs) with
                      | Some i => match vs !! i with
                                  | Some v => Found v
                                  | None => NoIndex
                                  end
                      | None => NoIndex
                      end
          | None => NotSubscriptable
          end
      | None => NotSubscriptable
      end
  | VStr s =>
      match as_index field with
      | Some n => match position n (String.length s) with
                  | Some i => match String.get i s with
                              | Some c => Found (VStr (String c EmptyString))
                              | None => NoIndex
                              end
                  | None => NoIndex
                  end
      | None => NotSubscriptable
      end
  | _ => NotSubscriptable
  end.

Definition truthy (h : heap) (v : value) : bool :=
  match v with
  | VNone => false
  | VBool b => b
  | VInt n => negb (n =? 0)
  | VFloat q => negb (Qeq_bool q 0)
  | VStr s => negb (String.eqb s "")
  | VDatetime _ => true
  | VRef l =>
      match h !! l with
      | Some (ODict kvs) => negb (Nat.eqb (length kvs) 0)
      | Some (OList vs) | Some (OTuple vs) => negb (Nat.eqb (length vs) 0)
      | None => true
      end
  end.

Definition num_of (v : value) : option Q :=
  match v with
  | VBool b => Some (inject_Z (Z.b2z b))
  | VInt n => Some (inject_Z n)
  | VFloat q => Some q
  | _ => None
  end.

(** [a == b]; [None] when the comparison of nested containers runs out of
    depth. *)
Fixpoint py_eq (fuel : nat) (h : heap) (a b : value) : option bool :=
  match num_of a, num_of b with
  | Some x, Some y => Some (Qeq_bool x y)
  | Some _, None | None, Some _ => Some false
  | None, None =>
      match a, b with
      | VNone, VNone => Some true
      | VStr s, VStr t => Some (String.eqb s t)
      | VDatetime s, VDatetime t => Some (s =? t)
      | VRef l1, VRef l2 =>
          if Nat.eqb l1 l2 then Some true else
          match fuel with
          | O => None
          | S fuel =>
              let eq_all :=
                fix go (xs ys : list value) : option bool :=
                  match xs, ys with
                  | [], [] => Some true
                  | x :: xs, y :: ys =>
                      match py_eq fuel h x y with
                      | Some true => go xs ys
                      | r => r
                      end
                  | _, _ => Some false
                  end in
              let eq_items (ky : list (string * value)) :=
                fix go (kx : list (string * value)) : option bool :=
                  match kx with
                  | [] => Some true
                  | (k, x) :: kx =>
                      match assoc k ky with
                      | Some y => match py_eq fuel h x y with
                                  | Some true => go kx
                                  | r => r
                                  end
                      | None => Some false
                      end
                  end in
              match h !! l1, h !! l2 with
              | Some (OList xs), Some (OList ys) => eq_all xs ys
              | Some (OTuple xs), Some (OTuple ys) => eq_all xs ys
              | Some (ODict kx), Some (ODict ky) =>
                  if Nat.eqb (length kx) (length ky) then eq_items ky kx
                  else Some false
              | _, _ => Some false
              end
          end
      | _, _ => Some false
      end
  end.

Definition equal (h : heap) (a b : value) : res bool :=
  match py_eq (length h) h a b with
  | Some r => inr r
  | None => inl RuntimeError
  end.

Fixpoint mem_seq (h : heap) (needle : value) (vs : list value) : res bool :=
  match vs with
  | [] => inr false
  | v :: r => match equal h needle v with
              | inr true => inr true
              | inr false => mem_seq h needle r
              | inl e => inl e
              end
  end.

Definition is_substring (t s : string) : bool :=
  match String.index 0 t s with Some _ => true | None => false end.

(** [needle in container] *)
Definition contains (h : heap) (needle container : value) : res bool :=
  match container with
  | VRef l =>
      match h !! l with
      | Some (ODict kvs) =>
          match needle with
          | VStr k => inr (match assoc k kvs with Some _ => true | None => false end)
          | _ => if is_hashable h needle then inr false else inl TypeError
          end
      | Some (OList vs) | Some (OTuple vs) => mem_seq h needle vs
      | None => inl TypeError
      end
  | VStr s =>
      match needle with
      | VStr t => inr (is_substring t s)
      | _ => inl TypeError
      end
  | _ => inl TypeError
  end.

(** [len(v)] *)
Definition len (h : heap) (v : value) : res Z :=
  match v with
  | VStr s => inr (Z.of_nat (String.length s))
  | VRef l =>
      match h !! l with
      | Some (ODict kvs) => inr (Z.of_nat (length kvs))
      | Some (OList vs) | Some (OTuple vs) => inr (Z.of_nat (length vs))
      | None => inl TypeError
      end
  | _ => inl TypeError
  end.

(** The values a [for] loop over [v] visits. *)
Definition iterate (h : heap) (v : value) : res (list value) :=
  match v with
  | VStr s => inr (map (fun c => VStr (String c EmptyString))
                       (list_ascii_of_string s))
  | VRef l =>
      match h !! l with
      | Some (ODict kvs) => inr (map (fun kv => VStr (fst kv)) kvs)
      | Some (OList vs) | Some (OTuple vs) => inr vs
      | None => inl TypeError
      end
  | _ => inl TypeError
  end.

(** [d.items()] *)
Definition dict_items (h : heap) (v : value) : res (list (string * value)) :=
  match deref h v with
  | Some (ODict kvs) => inr kvs
  | _ => inl AttributeError
  end.

(** [d.get(k, default)] for a dict [d] *)
Definition dict_get (h : heap) (d : value) (k : string) (default : value)
  : res value :=
  match deref h d with
  | Some (ODict kvs) =>
      inr (match assoc k kvs with Some v => v | None => default end)
  | _ => inl AttributeError
  end.

Section Ordering.
Context (lib : PyLib).

Definition compare_values (h : heap) (a b : value) : res comparison :=
  match num_of a, num_of b with
  | Some x, Some y => inr (Qcompare x y)
  | _, _ => match default_cmp lib h a b with
            | Some c => inr c
            | None => inl TypeError
            end
  end.

Definition lt h a b : res bool :=
  match compare_values h a b with
  | inr Lt => inr true | inr _ => inr false | inl e => inl e end.
Definition le h a b : res bool :=
  match compare_values h a b with
  | inr Gt => inr false | inr _ => inr true | inl e => inl e end.
Definition gt h a b : res bool :=
  match compare_values h a b with
  | inr Gt => inr true | inr _ => inr false | inl e => inl e end.
Definition ge h a b : res bool :=
  match compare_values h a b with
  | inr Lt => inr false | inr _ => inr true | inl e => inl e end.
End Ordering.

(** ** Text conversions used by the coercer *)

Definition is_space (c : ascii) : bool :=
  match nat_of_ascii c with
  | 9%nat | 10%nat | 11%nat | 12%nat | 13%nat | 32%nat => true
  | _ => false
  end.

Definition is_digit (c : ascii) : bool :=
  let n := nat_of_ascii c in (Nat.leb 48 n && Nat.leb n 57)%bool.

Fixpoint span (p : ascii -> bool) (l : list ascii) : list ascii * list ascii :=
  match l with
  | c :: r => if p c then let '(a, b) := span p r in (c :: a, b) else ([], l)
  | [] => ([], [])
  end.

Definition digits_value (ds : list ascii) : Z :=
  fold_left (fun acc c => 10 * acc + (Z.of_nat (nat_of_ascii c) - 48)) ds 0.

(** [int(s)] on a string: surrounding blanks, a sign, digits. *)
Definition int_of_string (s : string) : option Z :=
  let l := snd (span is_space (list_ascii_of_string s)) in
  let '(neg, l) :=
    match l with
    | "-"%char :: r => (true, r)
    | "+"%char :: r => (false, r)
    | _ => (false, l)
    end in
  let '(ds, rest) := span is_digit l in
  match ds, snd (span is_space rest) with
  | _ :: _, [] => Some (if neg then - digits_value ds else digits_value ds)
  | _, _ => None
  end.

(** [int(v)] *)
Definition py_int (v : value) : option Z :=
  match v with
  | VInt n => Some n
  | VBool b => Some (Z.b2z b)
  | VFloat q => Some (Z.quot (Qnum q) (Zpos (Qden q)))
  | VStr s => int_of_string s
  | _ => None
  end.

(** [re.match(r'-?\s*\d+', s).group(0)] *)
Definition match_integer (s : string) : option string :=
  let l := list_ascii_of_string s in
  let '(sign, l1) :=
    match l with "-"%char :: r => (["-"%char], r) | _ => ([], l) end in
  let '(blanks, l2) := span is_space l1 in
  let '(ds, _) := span is_digit l2 in
  match ds with
  | [] => None
  | _ => Some (string_of_list_ascii (sign ++ blanks ++ ds))
  end.

(** [re.match(r'-?\s*\d+(\.\d+)?', s).group(0)] *)
Definition match_number (s : string) : option string :=
  let l := list_ascii_of_string s in
  let '(sign, l1) :=
    match l with "-"%char :: r => (["-"%char], r) | _ => ([], l) end in
  let '(blanks, l2) := span is_space l1 in
  let '(ds, l3) := span is_digit l2 in
  let fraction :=
    match l3 with
    | "."%char :: r =>
        match fst (span is_digit r) with
        | [] => []
        | fs => "."%char :: fs
        end
    | _ => []
    end in
  match ds with
  | [] => None
  | _ => Some (string_of_list_ascii (sign ++ blanks ++ ds ++ fraction))
  end.

(** [float(text)] accepts the text matched by [match_number] unless blanks
    separate the sign from the digits. *)
Definition float_accepts (text : string) : bool :=
  match list_ascii_of_string text with
  | "-"%char :: c :: _ => negb (is_space c)
  | _ => true
  end.

(** ** Error scopes, error records, field paths *)

(** The instance after [push_error_stack]: the current list is saved and a
    new empty one is current. *)
Definition opened (s : validator) : validator :=
  Validator [] (error_list s :: error_stack s)
            (current_field s) (current_object s) (mem s).

Definition push_error_stack : M unit := fun s => Ok tt (opened s).

(** The instance after [pop_error_stack] in [s1], for a scope opened in [s]
    and closed with the stack as it was opened: the list of [s] is current
    again. *)
Definition closed (s s1 : validator) : validator :=
  Validator (error_list s) (error_stack s)
            (current_field s1) (current_object s1) (mem s1).

Definition pop_error_stack : M (list entry) :=
  fun s => match error_stack s with
           | saved :: rest =>
               Ok (error_list s)
                  (Validator saved rest (current_field s) (current_object s)
                             (mem s))
           | [] => Raise IndexError
           end.

Definition extend_error_list (errs : list entry) : M unit :=
  fun s => Ok tt (Validator (error_list s ++ errs) (error_stack s)
                            (current_field s) (current_object s) (mem s)).

Fixpoint join_names (l : list value) : option string :=
  match l with
  | [] => Some ""
  | [VStr a] => Some a
  | VStr a :: r =>
      option_map (fun t => String.append a (String.append "." t)) (join_names r)
  | _ => None
  end.

(** The property [current_field_name]: the path without its first segment,
    [None] when it is empty.  [join] raises on a segment that is not a
    string. *)
Definition field_path (s : validator) : option value :=
  match join_names (tl (rev (current_field s))) with
  | Some "" => Some VNone
  | Some p => Some (VStr p)
  | None => None
  end.

Definition current_field_name : M value :=
  let* s := get_state in lift_opt TypeError (field_path s).

Definition _error (code : string) (message suppl : value) : M unit :=
  let* path := current_field_name in
  extend_error_list [ErrorRecord code path message suppl].

Definition get (x field default : value) : M value :=
  let* h := get_mem in
  match getitem h x field with
  | Found v => ret v
  | NoKey | NoIndex => ret default
  | NotSubscriptable => raise TypeError
  end.

Definition py_contains (needle container : value) : M bool :=
  let* h := get_mem in lift (contains h needle container).

Definition py_len (v : value) : M Z :=
  let* h := get_mem in lift (len h v).

(** [x[field] = v] *)
Definition setitem (x field v : value) : M unit :=
  let* h := get_mem in
  match x with
  | VRef l =>
      match h !! l with
      | Some (ODict kvs) =>
          match field with
          | VStr k => set_mem (<[l := ODict (assoc_set k v kvs)]> h)
          | _ => raise TypeError
          end
      | Some (OList vs) =>
          match as_index field with
          | Some n => match position n (length vs) with
                      | Some i => set_mem (<[l := OList (<[i := v]> vs)]> h)
                      | None => raise IndexError
                      end
          | None => raise TypeError
          end
      | _ => raise TypeError
      end
  | _ => raise TypeError
  end.

(** [value.append(v)] *)
Definition append (x v : value) : M unit :=
  let* h := get_mem in
  match x with
  | VRef l =>
      match h !! l with
      | Some (OList vs) => set_mem (<[l := OList (vs ++ [v])]> h)
      | _ => raise AttributeError
      end
  | _ => raise AttributeError
  end.

(** [del value[k]] *)
Definition delitem (x : value) (k : string) : M unit :=
  let* h := get_mem in
  match x with
  | VRef l =>
      match h !! l with
      | Some (ODict kvs) =>
          match assoc k kvs with
          | Some _ => set_mem (<[l := ODict (assoc_del k kvs)]> h)
          | None => raise KeyError
          end
      | _ => raise TypeError
      end
  | _ => raise TypeError
  end.

(** A [for] loop whose body answers [true] to go on and [false] to leave
    ([break] or [return]); the loop answers whether it ran to its end. *)
Fixpoint for_each {A} (l : list A) (body : A -> M bool) : M bool :=
  match l with
  | [] => ret true
  | a :: r => let* go_on := body a in
              if go_on then for_each r body else ret false
  end.

(** ** The path-tracking wrapper of [MetaSchemaValidator] *)

Definition py_is (a b : value) : bool :=
  match a, b with
  | VRef l1, VRef l2 => Nat.eqb l1 l2
  | VNone, VNone => true
  | VBool x, VBool y => Bool.eqb x y
  | _, _ => false
  end.

Definition field_label (fieldname : value) : value :=
  match as_index fieldname with
  | Some n => VStr (String.append "[" (String.append (decimal n) "]"))
  | None => fieldname
  end.

Definition wrapper {A} (x fieldname : value) (method : M A) : M A :=
  let name := field_label fieldname in
  let* s := get_state in
  let same :=
    match current_object s with top :: _ => py_is top x | [] => false end in
  if same then
    (match current_field s with
     | _ :: fields => set_path (name :: fields) (current_object s)
     | [] => raise IndexError
     end) ;;
    method
  else
    set_path (name :: current_field s) (x :: current_object s) ;;
    let* r := method in
    let* s1 := get_state in
    match current_field s1, current_object s1 with
    | _ :: fields, _ :: objects => set_path fields objects ;; ret r
    | _, _ => raise IndexError
    end.

(** ** Classes and type checkers *)

Inductive klass : Type :=
| SchemaValidator
| ExtendedSchemaValidator
| SchemaCoercer
| ExtendedSchemaCoercer.

Definition is_extended (c : klass) : bool :=
  match c with
  | ExtendedSchemaValidator | ExtendedSchemaCoercer => true
  | _ => false
  end.

Definition is_coercer (c : klass) : bool :=
  match c with
  | SchemaCoercer | ExtendedSchemaCoercer => true
  | _ => false
  end.

Definition validate_type_string (h : heap) (val : value) : bool := is_str val.
Definition validate_type_integer (h : heap) (val : value) : bool :=
  match val with VInt _ => true | _ => false end.
Definition validate_type_number (h : heap) (val : value) : bool :=
  match val with VInt _ | VFloat _ => true | _ => false end.
Definition validate_type_boolean (h : heap) (val : value) : bool := is_bool val.
Definition validate_type_object (h : heap) (val : value) : bool := is_dict h val.
Definition validate_type_array (h : heap) (val : value) : bool :=
  is_list_or_tuple h val.
Definition validate_type_null (h : heap) (val : value) : bool := is_none val.
Definition validate_type_any (h : heap) (val : value) : bool := true.
Definition validate_type_datetime (h : heap) (val : value) : bool :=
  match val with VDatetime _ => true | _ => false end.

(** [getattr(self, 'validate_type_%s' % fieldtype)] *)
Definition type_checker (cls : klass) (name : string)
  : option (heap -> value -> bool) :=
  if String.eqb name "string" then Some validate_type_string
  else if String.eqb name "integer" then Some validate_type_integer
  else if String.eqb name "number" then Some validate_type_number
  else if String.eqb name "boolean" then Some validate_type_boolean
  else if String.eqb name "object" then Some validate_type_object
  else if String.eqb name "array" then Some validate_type_array
  else if String.eqb name "null" then Some validate_type_null
  else if String.eqb name "any" then Some validate_type_any
  else if (String.eqb name "datetime" && is_extended cls)%bool
       then Some validate_type_datetime
  else None.

(** ** Helpers shared by the evaluators *)

(** [x[field]] outside of [get] *)
Definition subscript (x field : value) : M value :=
  let* h := get_mem in
  match getitem h x field with
  | Found v => ret v
  | NoKey => raise KeyError
  | NoIndex => raise IndexError
  | NotSubscriptable => raise TypeError
  end.

(** [d.get(k, default)] *)
Definition py_dict_get (d : value) (k : string) (default : value) : M value :=
  let* h := get_mem in lift (dict_get h d k default).

(** [d.pop(k, default)] on a dict *)
Definition dict_pop (d : value) (k : string) (default : value) : M value :=
  let* h := get_mem in
  match d with
  | VRef l =>
      match h !! l with
      | Some (ODict kvs) =>
          match assoc k kvs with
          | Some v => set_mem (<[l := ODict (assoc_del k kvs)]> h) ;; ret v
          | None => ret default
          end
      | _ => raise AttributeError
      end
  | _ => raise AttributeError
  end.

(** [value[n:]] on a list or a tuple *)
Definition slice_from (v : value) (n : Z) : M value :=
  let* h := get_mem in
  match deref h v with
  | Some (OList vs) => new (OList (drop (Z.to_nat n) vs))
  | Some (OTuple vs) => new (OTuple (drop (Z.to_nat n) vs))
  | _ => raise TypeError
  end.

Definition py_iterate (v : value) : M (list value) :=
  let* h := get_mem in lift (iterate h v).

Definition py_items (v : value) : M (list (string * value)) :=
  let* h := get_mem in lift (dict_items h v).

Definition py_equal (a b : value) : M bool :=
  let* h := get_mem in lift (equal h a b).

Definition nonempty {A} (l : list A) : bool :=
  match l with [] => false | _ => true end.

Definition enumerate {A} (l : list A) : list (Z * A) :=
  combine (map Z.of_nat (seq 0 (length l))) l.

Definition range (n : Z) : list Z := map Z.of_nat (seq 0 (Z.to_nat n)).

(** Runs [m]; an exception leaves the state as it was.  Used for [try]
    blocks around a single assignment. *)
Definition attempt {A} (m : M A) : M (option A) :=
  fun s => match m s with
           | Ok a s1 => Ok (Some a) s1
           | Raise _ => Ok None s
           end.

Definition is_container (h : heap) (v : value) : bool :=
  match v with
  | VStr _ => true
  | VRef l => match h !! l with Some _ => true | None => false end
  | _ => false
  end.

(** A format validator receives [(fieldname, value, format_option)] and
    answers the entries it appends to the error list. *)
Definition format_validator : Type :=
  heap -> value -> value -> value -> res (list entry).

Record config : Type := {
  cls : klass;
  format_validators : list (string * format_validator);
  required_by_default : value;
  blank_by_default : value
}.

Fixpoint find_format (name : string) (l : list (string * format_validator))
  : option format_validator :=
  match l with
  | [] => None
  | (k, f) :: r => if String.eqb name k then Some f else find_format name r
  end.

(** The calls that re-enter the validator through [self]. *)
Record methods : Type := {
  (** [self.__validate(fieldname, data, schema)] *)
  inner_validate : value -> value -> value -> M value;
  (** [self.validate_type(x, fieldname, schema, fieldtype)] *)
  validate_type : value -> value -> value -> value -> M unit
}.

Section Validator.
Context (lib : PyLib) (cfg : config).

(** [type(n) is int] for an integer [n]; beyond the machine word the
    integer is a [long]. *)
Definition is_int (n : Z) : bool :=
  ((- maxint lib - 1 <=? n) && (n <=? maxint lib))%bool.

(** *** Default format validators *)

Definition validate_format_datetime (dateformat : string) : format_validator :=
  fun h fieldname value format_option =>
    match value with
    | VStr s =>
        match strptime lib s dateformat with
        | Some _ => inr []
        | None => inr [FormatMessage "is not in format" value fieldname
                                     format_option]
        end
    | _ => inl TypeError
    end.

Definition validate_format_utc_millisec : format_validator :=
  fun h fieldname value format_option =>
    let first :=
      match value with
      | VBool _ | VFloat _ => []
      | VInt n =>
          if is_int n then []
          else [FormatMessage "is not a number" value fieldname format_option]
      | _ => [FormatMessage "is not a number" value fieldname format_option]
      end in
    match gt lib h value (VInt 0) with
    | inr true => inr first
    | inr false =>
        inr (first ++ [FormatMessage "is not a positive number" value
                                     fieldname format_option])
    | inl e => inl e
    end.

Definition validate_format_ip_address : format_validator :=
  fun h fieldname value format_option =>
    let ip :=
      match value with
      | VStr s =>
          (inet_aton lib s &&
           Nat.eqb (length (List.filter (fun c => Ascii.eqb c "."%char)
                                   (list_ascii_of_string s))) 3)%bool
      | _ => false
      end in
    if ip then inr []
    else inr [FormatMessage "is not a ip-address" value fieldname
                            format_option].

Definition DEFAULT_FORMAT_VALIDATORS : list (string * format_validator) :=
  [("date-time", validate_format_datetime "%Y-%m-%dT%H:%M:%SZ");
   ("date", validate_format_datetime "%Y-%m-%d");
   ("time", validate_format_datetime "%H:%M:%S");
   ("utc-millisec", validate_format_utc_millisec);
   ("ip-address", validate_format_ip_address)].

(** *** [_validate] and [validate] *)

Definition _validate (self : methods) (data schema : value) : M value :=
  let* wrapped := new (ODict [("_data", data)]) in
  let* r := inner_validate self (VStr "_data") wrapped schema in
  py_dict_get r "_data" VNone.

Definition validate (self : methods) (data schema : value) : M value :=
  let* result := _validate self data schema in
  let* s := get_state in
  if nonempty (error_list s) then raise (ValidationError (error_list s))
  else ret result.

(** *** Evaluators of [SchemaValidator] *)

Definition validate_required (x fieldname schema required : value) : M unit :=
  let* present := py_contains fieldname x in
  let* h := get_mem in
  when (negb present && truthy h required)
       (_error "missing-required" VNone VNone).

(** One turn of the loop over the alternatives of a union: answers [true]
    when the alternative failed (go on) and [false] on [break]. *)
Definition try_alternative (self : methods) (x fieldname eachtype : value)
  : M bool :=
  push_error_stack ;;
  validate_type self x fieldname eachtype eachtype ;;
  let* errs := pop_error_stack in
  ret (nonempty errs).

Definition base_validate_type (self : methods)
           (x fieldname schema fieldtype : value) : M unit :=
  let* h := get_mem in
  let* found :=
    match getitem h x fieldname with
    | Found v => ret (true, v)
    | NoKey => ret (false, VNone)
    | NoIndex => raise IndexError
    | NotSubscriptable => raise TypeError
    end in
  let '(fieldexists, value) := found in
  if (truthy h fieldtype && fieldexists)%bool then
    if is_list_or_tuple h fieldtype then
      let* alternatives := py_iterate fieldtype in
      let* all_failed :=
        for_each alternatives (try_alternative self x fieldname) in
      if all_failed then
        let* actual := get x fieldname VNone in
        _error "incorrect-type" fieldtype actual
      else ret tt
    else if is_dict h fieldtype then
      push_error_stack ;;
      inner_validate self fieldname x fieldtype ;;
      let* errs := pop_error_stack in
      when (nonempty errs) (extend_error_list errs)
    else
      match fieldtype with
      | VStr name =>
          match type_checker (cls cfg) name with
          | Some checker =>
              if checker h value then ret tt
              else let* actual := get x fieldname VNone in
                   _error "incorrect-type" fieldtype actual
          | None => raise (SchemaError "Field type is not supported.")
          end
      | _ => raise (SchemaError "Field type is not supported.")
      end
  else ret tt.

Definition validate_properties (self : methods)
           (x fieldname schema properties : value) : M unit :=
  let* value := get x fieldname VNone in
  let* h := get_mem in
  if (negb (is_none value) && is_dict h value)%bool then
    if is_dict h properties then
      let* entries := py_items properties in
      for_each entries
        (fun kv =>
           let* sub := py_dict_get properties (fst kv) VNone in
           inner_validate self (VStr (fst kv)) value sub ;;
           ret true) ;;
      ret tt
    else raise (SchemaError "Properties definition is not an object")
  else ret tt.

Definition validate_items (self : methods)
           (x fieldname schema items : value) : M unit :=
  let* value := get x fieldname VNone in
  let* h := get_mem in
  if (negb (is_none value) && is_list_or_tuple h value)%bool then
    if is_list_or_tuple h items then
      let* n_items := py_len items in
      let* n_value := py_len value in
      (if negb (n_items =? n_value) then
         (* resolve defaults now *)
         let* schemas := py_iterate items in
         for_each (enumerate schemas)
           (fun ie =>
              let* h1 := get_mem in
              match getitem h1 value (VInt (fst ie)) with
              | Found _ => ret true
              | NoIndex =>
                  let* has_default :=
                    py_contains (VStr "default") (snd ie) in
                  (if has_default then
                     let* d := subscript (snd ie) (VStr "default") in
                     append value d
                   else ret tt) ;;
                  ret true
              | NoKey => raise KeyError
              | NotSubscriptable => raise TypeError
              end) ;;
         ret tt
       else ret tt) ;;
      let* has_additional := py_contains (VStr "additionalItems") schema in
      let* n_items := py_len items in
      let* n_value := py_len value in
      if (negb has_additional && negb (n_items =? n_value))%bool then
        _error "incorrect-item-length" VNone VNone
      else
        for_each (range n_items)
          (fun itemIndex =>
             let* sub := subscript items (VInt itemIndex) in
             inner_validate self (VInt itemIndex) value sub ;;
             (* the [return] inside the loop *)
             ret false) ;;
        ret tt
    else if is_dict h items then
      let* elems := py_iterate value in
      for_each (enumerate elems)
        (fun ie =>
           push_error_stack ;;
           inner_validate self (VInt (fst ie)) value items ;;
           let* errs := pop_error_stack in
           if (1 <? Z.of_nat (length errs)) then
             extend_error_list errs ;;
             ret false
           else ret true) ;;
      ret tt
    else raise (SchemaError "Properties definition is not a list or an object")
  else ret tt.

Definition validate_blank (x fieldname schema blank : value) : M unit :=
  let* value := get x fieldname VNone in
  let* h := get_mem in
  when (is_str value && negb (truthy h blank) && negb (truthy h value))
       (_error "blank" VNone VNone).

Definition match_pattern (pattern : value) (s : string) : M bool :=
  match pattern with
  | VStr p => lift_opt RegexError (re_match lib p s)
  | _ => raise TypeError
  end.

Definition validate_patternProperties (self : methods)
           (x fieldname schema patternproperties : value) : M unit :=
  let* patternproperties :=
    if is_none patternproperties then new (ODict [])
    else ret patternproperties in
  let* empty := new (ODict []) in
  let* value_obj := get x fieldname empty in
  let* patterns := py_items patternproperties in
  for_each patterns
    (fun ps =>
       let* entries := py_items value_obj in
       for_each entries
         (fun kv =>
            let* matched := lift_opt RegexError (re_match lib (fst ps) (fst kv)) in
            (if matched then validate self (snd kv) (snd ps) ;; ret tt
             else ret tt) ;;
            ret true) ;;
       ret true) ;;
  ret tt.

Definition validate_additionalItems (self : methods)
           (x fieldname schema additionalItems : value) : M unit :=
  let* value := get x fieldname VNone in
  let* h := get_mem in
  if negb (is_list_or_tuple h value) then ret tt
  else
    let* done :=
      if is_bool additionalItems then
        let* has_items := py_contains (VStr "items") schema in
        if (truthy h additionalItems || negb has_items)%bool then ret true
        else
          let* items := subscript schema (VStr "items") in
          let* n_value := py_len value in
          let* n_items := py_len items in
          if negb (n_value =? n_items) then
            _error "incorrect-list-length" VNone VNone ;; ret true
          else ret false
      else ret false in
    if done then ret tt
    else
      let* items := subscript schema (VStr "items") in
      let* n_items := py_len items in
      let* remaining := slice_from value n_items in
      let* n_remaining := py_len remaining in
      if 0 <? n_remaining then
        let* sub := new (ODict [("items", additionalItems)]) in
        _validate self remaining sub ;; ret tt
      else ret tt.

(** The test of the loop over an object's keys shared by both
    [validate_additionalProperties]: is the key declared or matched? *)
Definition property_is_known (properties patternProperties : value)
           (eachProperty : string) : M bool :=
  let* declared := py_contains (VStr eachProperty) properties in
  if declared then ret true
  else
    let* patterns := py_iterate patternProperties in
    let* unmatched :=
      for_each patterns
        (fun pattern =>
           let* matched := match_pattern pattern eachProperty in
           ret (negb matched)) in
    ret (negb unmatched).

Definition validate_additionalProperties (self : methods)
           (x fieldname schema additionalProperties : value) : M unit :=
  let* value := get x fieldname VNone in
  let* h := get_mem in
  if negb (is_dict h value) then ret tt
  else if (is_bool additionalProperties && truthy h additionalProperties)%bool
  then ret tt
  else if (is_dict h additionalProperties || is_bool additionalProperties)%bool
  then
    let* default1 := new (OList []) in
    let* properties := py_dict_get schema "properties" default1 in
    let* default2 := new (OList []) in
    let* patternProperties := py_dict_get schema "patternProperties" default2 in
    let* properties :=
      if is_none properties then new (ODict []) else ret properties in
    let* keys := py_items value in
    for_each keys
      (fun kv =>
         let* known := property_is_known properties patternProperties (fst kv) in
         if known then ret true
         else if is_bool additionalProperties then
           _error "forbidden-property" (VStr (fst kv)) VNone ;;
           (* the [return] after the first forbidden property *)
           ret false
         else
           validate self value additionalProperties ;;
           ret true) ;;
    ret tt
  else raise (SchemaError "additionalProperties schema definition is not an object").

Definition validate_dependencies (x fieldname schema dependencies : value)
  : M unit :=
  let* value := get x fieldname VNone in
  if is_none value then ret tt
  else
    let* dependencies :=
      if is_str dependencies then new (OList [dependencies])
      else ret dependencies in
    let* h := get_mem in
    if is_list_or_tuple h dependencies then
      let* names := py_iterate dependencies in
      for_each names
        (fun dependency =>
           let* present := py_contains dependency x in
           if present then ret true
           else _error "dependency" dependency VNone ;; ret false) ;;
      ret tt
    else if is_dict h dependencies then
      let* entries := py_items dependencies in
      for_each entries
        (fun kv =>
           let* k_present := py_contains (VStr (fst kv)) x in
           if k_present then
             let* v_present := py_contains (snd kv) x in
             if v_present then ret true
             else _error "dependency" (VStr (fst kv)) (snd kv) ;; ret false
           else ret true) ;;
      ret tt
    else raise (SchemaError "'dependencies' must be a string, list of strings, or dict").

Definition is_int_or_float (v : value) : bool :=
  match v with VInt n => is_int n | VFloat _ => true | _ => false end.

Definition validate_minimum (x fieldname schema minimum : value) : M unit :=
  let* exclusive := py_dict_get schema "exclusiveMinimum" (VBool false) in
  let* value := get x fieldname VNone in
  let* h := get_mem in
  if is_none value then ret tt
  else
    let* below :=
      if (is_int_or_float value && negb (truthy h exclusive))%bool
      then lift (lt lib h value minimum) else ret false in
    let* failed :=
      if below then ret true
      else if truthy h exclusive then lift (le lib h value minimum)
      else ret false in
    when failed (_error "less-than-minimum" minimum value).

Definition validate_maximum (x fieldname schema maximum : value) : M unit :=
  let* exclusive := py_dict_get schema "exclusiveMaximum" (VBool false) in
  let* value := get x fieldname VNone in
  let* h := get_mem in
  if is_none value then ret tt
  else
    let* above :=
      if (is_int_or_float value && negb (truthy h exclusive))%bool
      then lift (gt lib h value maximum) else ret false in
    let* failed :=
      if above then ret true
      else if truthy h exclusive then lift (ge lib h value maximum)
      else ret false in
    when failed (_error "more-than-maximum" maximum value).

Definition validate_maxLength (x fieldname schema length : value) : M unit :=
  let* value := get x fieldname VNone in
  let* h := get_mem in
  if (is_str value || is_list_or_tuple h value)%bool then
    let* n := py_len value in
    let* over := lift (gt lib h (VInt n) length) in
    when over (_error "too-long" length (VInt n))
  else ret tt.

Definition validate_minLength (x fieldname schema length : value) : M unit :=
  let* value := get x fieldname VNone in
  let* h := get_mem in
  if (is_str value || is_list_or_tuple h value)%bool then
    let* n := py_len value in
    let* under := lift (lt lib h (VInt n) length) in
    when under (_error "too-short" length (VInt n))
  else ret tt.

Definition validate_minItems := validate_minLength.
Definition validate_maxItems := validate_maxLength.

Definition validate_format (x fieldname schema format_option : value)
  : M unit :=
  let* value := get x fieldname VNone in
  let* h := get_mem in
  let* format_validator :=
    match format_option with
    | VStr name => ret (find_format name (format_validators cfg))
    | _ => if is_hashable h format_option then ret None else raise TypeError
    end in
  match format_validator with
  | Some f =>
      if truthy h value then
        let* errs := lift (f h fieldname value format_option) in
        extend_error_list errs
      else ret tt
  | None => ret tt
  end.

Definition validate_pattern (x fieldname schema pattern : value) : M unit :=
  let* value := get x fieldname VNone in
  match value with
  | VStr s =>
      let* matched := match_pattern pattern s in
      when (negb matched) (_error "pattern-mismatch" pattern fieldname)
  | _ => ret tt
  end.

Fixpoint unique_scan (values hashables unhashables : list value) : M unit :=
  match values with
  | [] => ret tt
  | value :: rest =>
      let* h := get_mem in
      if (is_list h value || is_dict h value)%bool then
        let* seen := lift (mem_seq h value unhashables) in
        if seen then
          _error "not-unique" value VNone ;;
          unique_scan rest hashables unhashables
        else unique_scan rest hashables (unhashables ++ [value])
      else if is_hashable h value then
        let* seen := lift (mem_seq h value hashables) in
        if seen then
          _error "not-unique" value VNone ;;
          unique_scan rest hashables unhashables
        else unique_scan rest (hashables ++ [value]) unhashables
      else raise TypeError
  end.

Definition validate_uniqueItems (x fieldname schema uniqueItems : value)
  : M unit :=
  let* h := get_mem in
  if (is_bool uniqueItems && negb (truthy h uniqueItems))%bool then ret tt
  else
    let* values := get x fieldname VNone in
    if negb (is_list_or_tuple h values) then ret tt
    else
      let* vs := py_iterate values in
      unique_scan vs [] [].

Definition validate_enum (x fieldname schema options : value) : M unit :=
  let* value := get x fieldname VNone in
  let* h := get_mem in
  if is_none value then ret tt
  else if negb (is_container h options) then
    raise (SchemaError "Enumeration must be a container")
  else
    let* present := py_contains value options in
    when (negb present) (_error "not-in-enumeration" options value).

Definition validate_title (x fieldname schema title : value) : M unit :=
  if (is_str title || is_none title)%bool then ret tt
  else raise (SchemaError "The title must be a string").

Definition validate_description (x fieldname schema description : value)
  : M unit :=
  if (is_str description || is_none description)%bool then ret tt
  else raise (SchemaError "The description must be a string").

(** [value % divisibleBy] for a number [value] and a divisor that is not
    zero.  Next to a float, an integer is first converted to a float. *)
Definition modulo (dividend divisor : value) : res value :=
  match dividend, divisor with
  | VInt a, VInt b => inr (VInt (a mod b))
  | VInt a, VBool b => inr (VInt (a mod Z.b2z b))
  | VInt a, VFloat q =>
      match float_of_int lib a with
      | Some p => inr (VFloat (float_mod lib p q))
      | None => inl OverflowError
      end
  | VFloat p, VInt b =>
      match float_of_int lib b with
      | Some q => inr (VFloat (float_mod lib p q))
      | None => inl OverflowError
      end
  | VFloat p, VBool b => inr (VFloat (float_mod lib p (inject_Z (Z.b2z b))))
  | VFloat p, VFloat q => inr (VFloat (float_mod lib p q))
  | _, _ => inl TypeError
  end.

Definition validate_divisibleBy (x fieldname schema divisibleBy : value)
  : M unit :=
  let* value := get x fieldname VNone in
  let* h := get_mem in
  if negb (validate_type_number h value) then ret tt
  else
    let* zero := py_equal divisibleBy (VInt 0) in
    if zero then raise (SchemaError "divisibleBy can not be 0")
    else
      let* remainder := lift (modulo value divisibleBy) in
      let* exact := py_equal remainder (VInt 0) in
      when (negb exact) (_error "not-divisible-by" divisibleBy value).

Definition validate_extends (self : methods)
           (x fieldname schema extends : value) : M unit :=
  validate_type self x fieldname schema extends.

Definition validate_disallow (self : methods)
           (x fieldname schema disallow : value) : M unit :=
  push_error_stack ;;
  validate_type self x fieldname schema disallow ;;
  let* errs := pop_error_stack in
  if 1 <? Z.of_nat (length errs) then ret tt
  else
    let* actual := get x fieldname VNone in
    _error "disallowed-type" disallow actual.

(** *** Evaluators of [ExtendedSchemaValidator] *)

Definition validate_minProperties (x fieldname schema min_properties : value)
  : M unit :=
  let* value := get x fieldname VNone in
  let* h := get_mem in
  if is_dict h value then
    let* n := py_len value in
    let* fewer := lift (lt lib h (VInt n) min_properties) in
    when fewer (_error "not-enough-properties" VNone VNone)
  else ret tt.

Definition validate_maxProperties (x fieldname schema max_properties : value)
  : M unit :=
  let* value := get x fieldname VNone in
  let* h := get_mem in
  if is_dict h value then
    let* n := py_len value in
    let* fewer := lift (lt lib h (VInt n) max_properties) in
    when fewer (_error "too-many-properties" VNone VNone)
  else ret tt.

Definition validate_requireEither (x fieldname schema one_of : value)
  : M unit :=
  let* present := py_contains fieldname x in
  if negb present then ret tt
  else
    let* props := py_iterate one_of in
    let* none_found :=
      for_each props
        (fun prop =>
           push_error_stack ;;
           let* inner := get x fieldname VNone in
           wrapper inner prop (validate_required inner prop schema (VBool true)) ;;
           let* errs := pop_error_stack in
           ret (nonempty errs)) in
    when none_found (_error "none-of-required" one_of VNone).

(** *** [SchemaCoercer] *)

(** [unicode(v)] *)
Definition py_unicode (h : heap) (v : value) : option string :=
  match v with
  | VStr s => Some s
  | VNone => Some "None"
  | VBool true => Some "True"
  | VBool false => Some "False"
  | VInt n => Some (decimal n)
  | _ => unicode_of lib h v
  end.

Definition coerce_integer (x fieldname schema : value) : M unit :=
  let* value := get x fieldname VNone in
  let* coerced :=
    match py_int value with
    | Some n => ret (VInt n)
    | None =>
        let parsed :=
          match value with
          | VStr s => match match_integer s with
                      | Some text => int_of_string text
                      | None => None
                      end
          | _ => None
          end in
        match parsed with
        | Some n => ret (VInt n)
        | None => _error "impossible-integer-coercion" value VNone ;; ret value
        end
    end in
  setitem x fieldname coerced.

Definition coerce_number (x fieldname schema : value) : M unit :=
  let* value := get x fieldname VNone in
  let parsed :=
    match value with
    | VStr s => match match_number s with
                | Some text => if float_accepts text
                               then Some (float_of_string lib text) else None
                | None => None
                end
    | _ => None
    end in
  let* coerced :=
    match parsed with
    | Some q => ret (VFloat q)
    | None => _error "impossible-number-coercion" value VNone ;; ret value
    end in
  setitem x fieldname coerced.

Definition coerce_datetime (x fieldname schema : value) : M unit :=
  let* value := get x fieldname VNone in
  let* pending :=
    for_each ["%Y-%m-%d"; "%Y-%m-%dT%H:%M:%SZ"]
      (fun format =>
         match value with
         | VStr s =>
             match strptime lib s format with
             | Some t =>
                 let* stored := attempt (setitem x fieldname (VDatetime t)) in
                 ret (match stored with Some _ => false | None => true end)
             | None => ret true
             end
         | _ => ret true
         end) in
  when pending (_error "impossible-datetime-coercion" value VNone).

Definition coerce_string (x fieldname schema : value) : M unit :=
  let* value := get x fieldname VNone in
  let* h := get_mem in
  let* stored :=
    match py_unicode h value with
    | Some s => attempt (setitem x fieldname (VStr s))
    | None => ret None
    end in
  match stored with
  | Some _ => ret tt
  | None => _error "impossible-string-coercion" value VNone
  end.

Definition coerce_object (x fieldname schema : value) : M unit :=
  let* value := get x fieldname VNone in
  _error "impossible-object-coercion" value VNone.

Definition coerce_array (x fieldname schema : value) : M unit :=
  let* value := get x fieldname VNone in
  let* wrapped := new (OList [value]) in
  setitem x fieldname wrapped.

Definition coerce_boolean (x fieldname schema : value) : M unit :=
  let* value := get x fieldname VNone in
  let* h := get_mem in
  setitem x fieldname (VBool (truthy h value)).

(** [getattr(self, 'coerce_' + fieldtype)] *)
Definition coerce_method (name : string)
  : option (value -> value -> value -> M unit) :=
  if String.eqb name "integer" then Some coerce_integer
  else if String.eqb name "number" then Some coerce_number
  else if String.eqb name "datetime" then Some coerce_datetime
  else if String.eqb name "string" then Some coerce_string
  else if String.eqb name "object" then Some coerce_object
  else if String.eqb name "array" then Some coerce_array
  else if String.eqb name "boolean" then Some coerce_boolean
  else None.

Definition coercer_validate_type (self : methods)
           (x fieldname schema fieldtype : value) : M unit :=
  push_error_stack ;;
  wrapper x fieldname (base_validate_type self x fieldname schema fieldtype) ;;
  let* errs := pop_error_stack in
  if nonempty errs then
    let* h := get_mem in
    let* missing :=
      if negb (truthy h fieldtype) then ret true
      else let* present := py_contains fieldname x in ret (negb present) in
    if missing then _error "impossible-coercion" fieldtype VNone
    else
      (* Whatever happened, the expected type was not the one intended:
         try to coerce the original value to the desired type. *)
      match fieldtype with
      | VStr name =>
          match coerce_method name with
          | Some coerce =>
              push_error_stack ;;
              coerce x fieldname schema ;;
              let* errs := pop_error_stack in
              if negb (nonempty errs) then
                wrapper x fieldname
                        (base_validate_type self x fieldname schema fieldtype)
              else extend_error_list errs
          | None => raise AttributeError
          end
      | _ => _error "impossible-coercion" fieldtype VNone
      end
  else ret tt.

Fixpoint props_to_delete (properties patternProperties additionalProperties : value)
         (keys : list (string * value)) : M (list string) :=
  match keys with
  | [] => ret []
  | kv :: rest =>
      let* known := property_is_known properties patternProperties (fst kv) in
      if known then
        props_to_delete properties patternProperties additionalProperties rest
      else if is_bool additionalProperties then
        let* more :=
          props_to_delete properties patternProperties additionalProperties rest in
        ret (fst kv :: more)
      else
        (* [self.__validate] is mangled to [_SchemaCoercer__validate],
           which no class defines *)
        raise AttributeError
  end.

Definition coercer_validate_additionalProperties
           (x fieldname schema additionalProperties : value) : M unit :=
  let* value := get x fieldname VNone in
  let* h := get_mem in
  if negb (is_dict h value) then ret tt
  else if (is_bool additionalProperties && truthy h additionalProperties)%bool
  then ret tt
  else
    let* value := get x fieldname VNone in
    if (is_dict h additionalProperties || is_bool additionalProperties)%bool
    then
      let* default1 := new (OList []) in
      let* properties := py_dict_get schema "properties" default1 in
      let* default2 := new (OList []) in
      let* patternProperties :=
        py_dict_get schema "patternProperties" default2 in
      let* properties :=
        if is_none properties then new (ODict []) else ret properties in
      let* keys := py_items value in
      let* doomed :=
        props_to_delete properties patternProperties additionalProperties keys in
      (* When coercing, we delete the incriminated property *)
      for_each doomed (fun prop => delitem value prop ;; ret true) ;;
      ret tt
    else raise (SchemaError "additionalProperties schema definition is not an object").

(** *** The walker [__validate] and the dispatch on keywords *)

Definition evaluator : Type := value -> value -> value -> value -> M unit.

Definition wrapped (ev : evaluator) : evaluator :=
  fun x fieldname schema arg => wrapper x fieldname (ev x fieldname schema arg).

Definition starts_with_type_ (name : string) : option string :=
  if String.prefix "type_" name
  then Some (String.substring 5 (String.length name - 5) name)
  else None.

(** [getattr(self, "validate_" + schemaprop, None)] *)
Definition find_evaluator (self : methods) (schemaprop : string)
  : option evaluator :=
  let named name := String.eqb schemaprop name in
  if named "type" then Some (validate_type self)
  else if named "required" then Some (wrapped validate_required)
  else if named "properties" then Some (wrapped (validate_properties self))
  else if named "items" then Some (wrapped (validate_items self))
  else if named "blank" then Some (wrapped validate_blank)
  else if named "patternProperties"
       then Some (wrapped (validate_patternProperties self))
  else if named "additionalItems"
       then Some (wrapped (validate_additionalItems self))
  else if named "additionalProperties" then
    Some (wrapped (if is_coercer (cls cfg)
                   then coercer_validate_additionalProperties
                   else validate_additionalProperties self))
  else if named "dependencies" then Some (wrapped validate_dependencies)
  else if named "minimum" then Some (wrapped validate_minimum)
  else if named "maximum" then Some (wrapped validate_maximum)
  else if named "maxLength" then Some (wrapped validate_maxLength)
  else if named "minLength" then Some (wrapped validate_minLength)
  else if named "minItems" then Some (wrapped validate_minItems)
  else if named "maxItems" then Some (wrapped validate_maxItems)
  else if named "format" then Some (wrapped validate_format)
  else if named "pattern" then Some (wrapped validate_pattern)
  else if named "uniqueItems" then Some (wrapped validate_uniqueItems)
  else if named "enum" then Some (wrapped validate_enum)
  else if named "title" then Some (wrapped validate_title)
  else if named "description" then Some (wrapped validate_description)
  else if named "divisibleBy" then Some (wrapped validate_divisibleBy)
  else if named "extends" then Some (wrapped (validate_extends self))
  else if named "disallow" then Some (wrapped (validate_disallow self))
  else if (named "minProperties" && is_extended (cls cfg))%bool
       then Some (wrapped validate_minProperties)
  else if (named "maxProperties" && is_extended (cls cfg))%bool
       then Some (wrapped validate_maxProperties)
  else if (named "requireEither" && is_extended (cls cfg))%bool
       then Some (wrapped validate_requireEither)
  else
    match starts_with_type_ schemaprop with
    | Some name =>
        match type_checker (cls cfg) name with
        | Some _ =>
            (* a type checker takes one argument, not four *)
            Some (fun _ _ _ _ => raise TypeError)
        | None => None
        end
    | None => None
    end.

Definition walker (self : methods) (fieldname data schema : value) : M value :=
  if is_none schema then ret data
  else
    let* h := get_mem in
    match deref h schema with
    | Some (ODict entries) =>
        (* newschema = copy.copy(schema) *)
        let* newschema := new (ODict entries) in
        (if is_dict h data then
           let* present := py_contains fieldname data in
           if present then ret tt
           else
             let* has_default := py_contains (VStr "default") schema in
             if has_default then
               let* d := subscript schema (VStr "default") in
               setitem data fieldname d
             else ret tt
         else ret tt) ;;
        let* optional := py_contains (VStr "optional") schema in
        (if optional
         then raise (SchemaError "The 'optional' attribute has been replaced by 'required'")
         else ret tt) ;;
        let* requires := py_contains (VStr "requires") schema in
        (if requires
         then raise (SchemaError "The 'requires' attribute has been replaced by 'dependencies'")
         else ret tt) ;;
        let* has_blank := py_contains (VStr "blank") schema in
        (if has_blank then ret tt
         else setitem newschema (VStr "blank") (blank_by_default cfg)) ;;
        let* required := dict_pop newschema "required" (required_by_default cfg) in
        wrapped validate_required data fieldname newschema required ;;
        let* has_type := py_contains (VStr "type") schema in
        (if has_type then
           let* fieldtype := dict_pop newschema "type" VNone in
           validate_type self data fieldname newschema fieldtype
         else ret tt) ;;
        let* props := py_items newschema in
        for_each props
          (fun kv =>
             match find_evaluator self (fst kv) with
             | Some validator =>
                 let* arg := py_dict_get newschema (fst kv) VNone in
                 validator data fieldname newschema arg ;;
                 ret true
             | None => ret true
             end) ;;
        ret data
    | _ => raise (SchemaError "Schema structure is invalid.")
    end.

(** The methods of [self] with [depth] nested calls left. *)
Fixpoint methods_at (depth : nat) : methods :=
  match depth with
  | O => {| inner_validate := fun _ _ _ => raise RuntimeError;
            validate_type := fun _ _ _ _ => raise RuntimeError |}
  | S d =>
      let self := methods_at d in
      {| inner_validate := walker self;
         validate_type :=
           wrapped (if is_coercer (cls cfg)
                    then coercer_validate_type self
                    else base_validate_type self) |}
  end.
End Validator.

(** ** Registering a format validator *)

(** [d[name] = f] on the mapping of format validators. *)
Fixpoint set_format (name : string) (f : format_validator)
         (l : list (string * format_validator))
  : list (string * format_validator) :=
  match l with
  | [] => [(name, f)]
  | (k, g) :: r =>
      if String.eqb name k then (name, f) :: r else (k, g) :: set_format name f r
  end.

(** [register_format_validator]: the instance whose mapping of format
    validators binds [format_name] to [format_validator_fun]. *)
Definition register_format_validator (cfg : config) (format_name : string)
           (format_validator_fun : format_validator) : config :=
  {| cls := cls cfg;
     format_validators :=
       set_format format_name format_validator_fun (format_validators cfg);
     required_by_default := required_by_default cfg;
     blank_by_default := blank_by_default cfg |}.

(** ** Running the validator on literals *)

(** A fresh instance, as [__init__] leaves it, over the store [h]. *)
Definition fresh (h : heap) : validator := Validator [] [] [] [] h.

(** The arguments [__init__] takes by default, for an instance of class [c]. *)
Definition make_config (lib : PyLib) (c : klass) : config :=
  {| cls := c;
     format_validators := DEFAULT_FORMAT_VALIDATORS lib;
     required_by_default := VBool true;
     blank_by_default := VBool false |}.

Inductive outcome : Type :=
| Returned (data : option lit)
| Raised (e : exn).

Definition outcome_of (r : result value) : outcome :=
  match r with
  | Ok v s => Returned (read (length (mem s)) (mem s) v)
  | Raise e => Raised e
  end.

(** [cls().validate(data, schema)] on a fresh instance. *)
Definition run (lib : PyLib) (c : klass) (depth : nat) (data schema : lit)
  : result value :=
  let '(d, h1) := build data [] in
  let '(s, h2) := build schema h1 in
  validate (methods_at lib (make_config lib c) depth) d s (fresh h2).

(** The rank of the kind of a value in the ordering of mixed values. *)
Definition kind_rank (h : heap) (v : value) : Z :=
  match v with
  | VNone => 0
  | VBool _ | VInt _ | VFloat _ => 1
  | VDatetime _ => 2
  | VStr _ => 5
  | VRef l => match h !! l with
              | Some (ODict _) => 3
              | Some (OList _) => 4
              | Some (OTuple _) => 6
              | None => 7
              end
  end.

Definition plain_cmp (h : heap) (a b : value) : option comparison :=
  match a, b with
  | VStr s, VStr t => Some (String.compare s t)
  | VDatetime s, VDatetime t => Some (s ?= t)
  | VDatetime _, _ | _, VDatetime _ => None
  | _, _ => if kind_rank h a =? kind_rank h b then None
            else Some (kind_rank h a ?= kind_rank h b)
  end.

(** A library instance for closed examples: patterns are literal prefixes,
    floats are exact rationals, no date or address parses. *)
Definition plain_lib : PyLib :=
  {| re_match := fun p s => Some (String.prefix p s);
     float_mod := fun a b => (a - b * inject_Z (Qfloor (a / b)))%Q;
     float_of_string := fun _ => 0%Q;
     unicode_of := fun _ _ => None;
     strptime := fun _ _ => None;
     inet_aton := fun _ => false;
     default_cmp := plain_cmp;
     maxint := 9223372036854775807;
     float_of_int := fun n => Some (inject_Z n) |}.

(** * Vocabulary of the statements *)

(** A computation is [scope_safe] when a normal return leaves [error_stack]
    as it found it: every [push_error_stack] it made was matched by a
    [pop_error_stack]. *)
Definition scope_safe {A} (m : M A) : Prop :=
  forall s a s', m s = Ok a s' -> error_stack s' = error_stack s.

Definition safe_methods (self : methods) : Prop :=
  (forall fieldname data schema,
      scope_safe (inner_validate self fieldname data schema)) /\
  (forall x fieldname schema fieldtype,
      scope_safe (validate_type self x fieldname schema fieldtype)).


(** The entries of the [properties] mapping of a schema: none when the key
    is absent or [None]. *)
Definition declared_properties (h : heap) (sch : list (string * value))
  : option (list (string * value)) :=
  match assoc "properties" sch with
  | None | Some VNone => Some []
  | Some v => match deref h v with Some (ODict pk) => Some pk | _ => None end
  end.

(** The entries of the [patternProperties] mapping of a schema: none when the
    key is absent. *)
Definition declared_patterns (h : heap) (sch : list (string * value))
  : option (list (string * value)) :=
  match assoc "patternProperties" sch with
  | None => Some []
  | Some v => match deref h v with Some (ODict qk) => Some qk | _ => None end
  end.

(** A key is known when it is declared or some pattern matches it. *)
Definition is_known (lib : PyLib) (pk qk : list (string * value)) (k : string)
  : bool :=
  match assoc k pk with
  | Some _ => true
  | None =>
      existsb (fun q => match re_match lib (fst q) k with
                        | Some true => true
                        | _ => false
                        end) qk
  end.

(** ** Example inputs *)



(** The field [_data] holds the string "abc"; [objects] are the other
    objects of the store. *)
Definition coercion_example_state (errs : list entry) (stack : list (list entry))
           (objects : list obj) : validator :=
  Validator errs stack [VStr "_data"] [VRef 0%nat]
            (ODict [("_data", VStr "abc")] :: objects).

(** An object with the keys a, b, c and x1, under a schema that declares
    [a] and the pattern [x]. *)
Definition object_example_store : heap :=
  [ODict [("a", VInt 0); ("b", VInt 1); ("c", VInt 2); ("x1", VInt 3)];
   ODict [("_data", VRef 0%nat)];
   ODict [];
   ODict [("a", VRef 2%nat)];
   ODict [];
   ODict [("x", VRef 4%nat)];
   ODict [("properties", VRef 3%nat); ("patternProperties", VRef 5%nat);
          ("additionalProperties", VBool false)]].

(** A schema with two properties: [a] is an integer; [b] has an inline
    schema as its type, whose keys starting with k hold strings. *)
Definition nested_example_schema : lit :=
  LDict [("properties",
          LDict [("a", LDict [("type", LStr "integer")]);
                 ("b", LDict [("type",
                               LDict [("patternProperties",
                                       LDict [("k", LDict [("type", LStr "string")])])])])])].

(** ** Vocabulary of the further properties *)

(** The instance [s] after [errs] were appended to its current error
    list. *)
Definition with_errors (s : validator) (errs : list entry) : validator :=
  Validator (error_list s ++ errs) (error_stack s) (current_field s)
            (current_object s) (mem s).

(** The items of [ns] that are equal to an item of [earlier] or to an item
    before them in [ns], in order. *)
Fixpoint repeats (earlier ns : list Z) : list Z :=
  match ns with
  | [] => []
  | n :: rest =>
      (if bool_decide (n ∈ earlier) then [n] else [])
        ++ repeats (earlier ++ [n]) rest
  end.

(** [k in d] for the mapping of entries [kvs]. *)
Definition is_key (k : string) (kvs : list (string * value)) : bool :=
  match assoc k kvs with Some _ => true | None => false end.

(** [item['default']] for a schema [item] that is a mapping with that key. *)
Definition item_default (h : heap) (item : value) : option value :=
  match deref h item with
  | Some (ODict kvs) => assoc "default" kvs
  | _ => None
  end.

(** The defaults that the schemas [items] carry, in order. *)
Fixpoint defaults_of (h : heap) (items : list value) : list value :=
  match items with
  | [] => []
  | item :: rest =>
      match item_default h item with
      | Some d => d :: defaults_of h rest
      | None => defaults_of h rest
      end
  end.

(** The first character of [l], if any, does not satisfy [p]. *)
Definition starts_without (p : ascii -> bool) (l : list ascii) : Prop :=
  match l with
  | [] => True
  | c :: _ => p c = false
  end.

(** A computation [respects] the relation [R] between instances when every
    normal return relates the instance it started from to the one it
    leaves. *)
Definition respects {A} (R : validator -> validator -> Prop) (m : M A) : Prop :=
  forall s a s', m s = Ok a s' -> R s s'.

(** From [s] to [s'] the suspended error lists are kept and the current
    error list is only appended to. *)
Definition accumulates (s s' : validator) : Prop :=
  error_stack s' = error_stack s /\ prefix (error_list s) (error_list s').

(** [s'] is at the same place of the data as [s]: same enclosing objects,
    same depth of the path, same segments below the last. *)
Definition same_level (s s' : validator) : Prop :=
  current_object s' = current_object s /\
  tl (current_field s') = tl (current_field s) /\
  length (current_field s') = length (current_field s).

(** The object [o'] extends [o]: a mapping keeps its keys, each with its
    value, and may have more keys; a list keeps its items, in order, and may
    have more after them; a tuple is unchanged. *)
Definition obj_extends (o o' : obj) : Prop :=
  match o, o' with
  | ODict kvs, ODict kvs' =>
      forall k v, assoc k kvs = Some v -> assoc k kvs' = Some v
  | OList vs, OList vs' => prefix vs vs'
  | OTuple vs, OTuple vs' => vs = vs'
  | _, _ => False
  end.

(** The store [h'] extends [h] below the location [n]: no object goes away
    and every object below [n] is extended. *)
Definition store_extends (n : nat) (h h' : heap) : Prop :=
  (length h <= length h')%nat /\
  forall l o, (l < n)%nat -> h !! l = Some o ->
              exists o', h' !! l = Some o' /\ obj_extends o o'.

(** Every object of the instance [s] is extended in [s']. *)
Definition grows (s s' : validator) : Prop :=
  store_extends (length (mem s)) (mem s) (mem s').

(** A computation keeps the objects below [n]. *)
Definition above (n : nat) {A} (m : M A) : Prop :=
  forall s a s', (n <= length (mem s))%nat -> m s = Ok a s' ->
                 store_extends n (mem s) (mem s').

(** The values a computation can return. *)
Definition returns {A} (P : A -> Prop) (m : M A) : Prop :=
  forall s a s', m s = Ok a s' -> P a.

(** ** Example instances *)

(** An instance that is validating the field [_data] of the first object of
    the store, which holds [v]; [objects] are the other objects. *)
Definition field_example (v : value) (objects : list obj) : validator :=
  Validator [] [] [VStr "_data"] [VRef 0%nat] (ODict [("_data", v)] :: objects).

(** An object [{'a': 1}] under a schema whose property [b] has the default
    7. *)
Definition default_example_store : heap :=
  [ODict [("a", VInt 1)];
   ODict [("default", VInt 7)];
   ODict [("b", VRef 1%nat)];
   ODict [("properties", VRef 2%nat)]].

(** The instance after the validation of [default_example_store]. *)
Definition default_example_result : validator :=
  fresh [ODict [("a", VInt 1); ("b", VInt 7)];
         ODict [("default", VInt 7)]; ODict [("b", VRef 1%nat)];
         ODict [("properties", VRef 2%nat)]; ODict [("_data", VRef 0%nat)];
         ODict [("properties", VRef 2%nat); ("blank", VBool false)];
         ODict [("default", VInt 7); ("blank", VBool false)]].

(** * Properties *)

(** ** Stack discipline: every method closes the scopes it opens *)

Lemma bind_ok {A B} (m : M A) (k : A -> M B) s b s' :
  bind m k s = Ok b s' -> exists a s1, m s = Ok a s1 /\ k a s1 = Ok b s'.
Proof.
  unfold bind. destruct (m s) as [a s1|e]; [eauto|discriminate].
Qed.

Lemma safe_ret {A} (a : A) : scope_safe (ret a).
Proof. intros s b s' H. injection H as _ <-. reflexivity. Qed.

Lemma safe_raise {A} (e : exn) : scope_safe (@raise A e).
Proof. intros s b s' H. discriminate. Qed.

Lemma safe_bind {A B} (m : M A) (k : A -> M B) :
  scope_safe m -> (forall a, scope_safe (k a)) -> scope_safe (bind m k).
Proof.
  intros Hm Hk s b s' H. apply bind_ok in H as (a & s1 & H1 & H2).
  rewrite (Hk _ _ _ _ H2). eauto.
Qed.

Lemma safe_get_state : scope_safe get_state.
Proof. intros s a s' H. injection H as _ <-. reflexivity. Qed.

Lemma safe_get_mem : scope_safe get_mem.
Proof. intros s a s' H. injection H as _ <-. reflexivity. Qed.

Lemma safe_set_mem h : scope_safe (set_mem h).
Proof. intros s a s' H. injection H as _ <-. reflexivity. Qed.

Lemma safe_set_path f o : scope_safe (set_path f o).
Proof. intros s a s' H. injection H as _ <-. reflexivity. Qed.

Lemma safe_new o : scope_safe (new o).
Proof. intros s a s' H. unfold new, alloc in H. injection H as _ <-. reflexivity. Qed.

Lemma safe_extend errs : scope_safe (extend_error_list errs).
Proof. intros s a s' H. injection H as _ <-. reflexivity. Qed.

Lemma safe_lift {A} (r : res A) : scope_safe (lift r).
Proof. destruct r; [apply safe_raise|apply safe_ret]. Qed.

Lemma safe_lift_opt {A} e (o : option A) : scope_safe (lift_opt e o).
Proof. destruct o; [apply safe_ret|apply safe_raise]. Qed.

Lemma safe_when b m : scope_safe m -> scope_safe (when b m).
Proof. destruct b; [trivial|intros; apply safe_ret]. Qed.

Lemma safe_for_each {A} (l : list A) body :
  (forall a, scope_safe (body a)) -> scope_safe (for_each l body).
Proof.
  intros Hb. induction l as [|a l IH]; simpl.
  - apply safe_ret.
  - apply safe_bind; [apply Hb|]. intros [|]; [exact IH|apply safe_ret].
Qed.

Lemma safe_attempt {A} (m : M A) : scope_safe m -> scope_safe (attempt m).
Proof.
  intros Hm s a s' H. unfold attempt in H.
  destruct (m s) as [b s1|e] eqn:E.
  - injection H as _ <-. eauto.
  - injection H as _ <-. reflexivity.
Qed.

(** The pattern [push_error_stack(); ...; errs = pop_error_stack(); ...]:
    the scope is closed on the list that was current when it was opened. *)
Lemma scoped_forward {A B} (m : M A) (k : list entry -> M B) s a s1 :
  scope_safe m ->
  m (opened s) = Ok a s1 ->
  (push_error_stack ;; m ;; let* errs := pop_error_stack in k errs) s
  = k (error_list s1) (closed s s1).
Proof.
  intros Hm H. unfold bind at 1 2. unfold push_error_stack. rewrite H.
  unfold bind, pop_error_stack. rewrite (Hm _ _ _ H). reflexivity.
Qed.

Lemma scoped_run {A B} (m : M A) (k : list entry -> M B) s b s' :
  scope_safe m ->
  (push_error_stack ;; m ;; let* errs := pop_error_stack in k errs) s = Ok b s' ->
  exists a s1,
    m (opened s) = Ok a s1 /\ k (error_list s1) (closed s s1) = Ok b s'.
Proof.
  intros Hm H.
  destruct (m (opened s)) as [a s1|e] eqn:E.
  - rewrite (scoped_forward m k s a s1 Hm E) in H. eauto.
  - unfold bind at 1 2 in H. unfold push_error_stack in H. rewrite E in H.
    discriminate.
Qed.

Lemma safe_scoped {A B} (m : M A) (k : list entry -> M B) :
  scope_safe m -> (forall errs, scope_safe (k errs)) ->
  scope_safe (push_error_stack ;; m ;; let* errs := pop_error_stack in k errs).
Proof.
  intros Hm Hk s b s' H.
  apply (scoped_run m k) in H as (a & s1 & H1 & H2); [|exact Hm].
  apply Hk in H2. exact H2.
Qed.

(** The same, when the arguments of the call are evaluated inside the scope. *)
Lemma safe_scoped_args {A B C} (g : M A) (m : A -> M B) (k : list entry -> M C) :
  scope_safe g -> (forall v, scope_safe (m v)) ->
  (forall errs, scope_safe (k errs)) ->
  scope_safe (push_error_stack ;;
              let* v := g in m v ;; let* errs := pop_error_stack in k errs).
Proof.
  intros Hg Hm Hk s b s' H.
  apply bind_ok in H as ([] & s0 & H0 & H). injection H0 as <-.
  apply bind_ok in H as (v & s1 & H1 & H).
  apply bind_ok in H as (r & s2 & H2 & H).
  apply bind_ok in H as (errs & s3 & H3 & H).
  apply Hk in H. rewrite H.
  unfold pop_error_stack in H3.
  rewrite (Hm _ _ _ _ H2), (Hg _ _ _ H1) in H3. simpl in H3.
  injection H3 as _ <-. reflexivity.
Qed.

(** Proves [scope_safe] of a method body by following its structure. *)
Ltac safe_step :=
  match goal with
  | |- scope_safe (bind push_error_stack _) =>
      first [apply safe_scoped; [|intros]
            |apply safe_scoped_args; [|intros|intros]]
  | |- scope_safe (bind _ _) => apply safe_bind; [|intros]
  | |- scope_safe (ret _) => apply safe_ret
  | |- scope_safe (raise _) => apply safe_raise
  | |- scope_safe (when _ _) => apply safe_when
  | |- scope_safe (for_each _ _) => apply safe_for_each; intros
  | |- scope_safe (attempt _) => apply safe_attempt
  | |- scope_safe (lift _) => apply safe_lift
  | |- scope_safe (lift_opt _ _) => apply safe_lift_opt
  | |- scope_safe get_state => apply safe_get_state
  | |- scope_safe get_mem => apply safe_get_mem
  | |- scope_safe (set_mem _) => apply safe_set_mem
  | |- scope_safe (set_path _ _) => apply safe_set_path
  | |- scope_safe (new _) => apply safe_new
  | |- scope_safe (extend_error_list _) => apply safe_extend
  | |- scope_safe (if ?b then _ else _) => destruct b
  | |- scope_safe (match ?x with _ => _ end) => destruct x eqn:?
  | |- scope_safe (let '(_, _) := ?x in _) => destruct x
  | H : _ |- _ => solve [apply H]
  end.

Ltac safe := repeat safe_step; eauto with safe.

Create HintDb safe.

Lemma safe_current_field_name : scope_safe current_field_name.
Proof. unfold current_field_name. safe. Qed.
Lemma safe_error code message suppl : scope_safe (_error code message suppl).
Proof. unfold _error. safe. apply safe_current_field_name. Qed.
Lemma safe_get x field default : scope_safe (get x field default).
Proof. unfold get. safe. Qed.
Lemma safe_py_contains a b : scope_safe (py_contains a b).
Proof. unfold py_contains. safe. Qed.
Lemma safe_py_len v : scope_safe (py_len v).
Proof. unfold py_len. safe. Qed.
Lemma safe_setitem x f v : scope_safe (setitem x f v).
Proof. unfold setitem. safe. Qed.
Lemma safe_append x v : scope_safe (append x v).
Proof. unfold append. safe. Qed.
Lemma safe_delitem x k : scope_safe (delitem x k).
Proof. unfold delitem. safe. Qed.
Lemma safe_subscript x f : scope_safe (subscript x f).
Proof. unfold subscript. safe. Qed.
Lemma safe_py_dict_get d k v : scope_safe (py_dict_get d k v).
Proof. unfold py_dict_get. safe. Qed.
Lemma safe_dict_pop d k v : scope_safe (dict_pop d k v).
Proof. unfold dict_pop. safe. Qed.
Lemma safe_slice_from v n : scope_safe (slice_from v n).
Proof. unfold slice_from. safe. Qed.
Lemma safe_py_iterate v : scope_safe (py_iterate v).
Proof. unfold py_iterate. safe. Qed.
Lemma safe_py_items v : scope_safe (py_items v).
Proof. unfold py_items. safe. Qed.
Lemma safe_py_equal a b : scope_safe (py_equal a b).
Proof. unfold py_equal. safe. Qed.

#[global] Hint Resolve safe_current_field_name safe_error safe_get
  safe_py_contains safe_py_len safe_setitem safe_append safe_delitem
  safe_subscript safe_py_dict_get safe_dict_pop safe_slice_from
  safe_py_iterate safe_py_items safe_py_equal : safe.

Lemma safe_wrapper {A} x fieldname (m : M A) :
  scope_safe m -> scope_safe (wrapper x fieldname m).
Proof. intros Hm. unfold wrapper. safe. Qed.

Section ScopeSafety.
Context (lib : PyLib) (cfg : config).

Section Evaluators.
Context (self : methods).
Context (Hinner : forall fieldname data schema,
            scope_safe (inner_validate self fieldname data schema)).
Context (Htype : forall x fieldname schema fieldtype,
            scope_safe (validate_type self x fieldname schema fieldtype)).

Lemma safe__validate data schema : scope_safe (_validate self data schema).
Proof using Hinner Htype. unfold _validate. safe. Qed.
#[local] Hint Resolve safe__validate : safe.

Lemma safe_validate data schema : scope_safe (validate self data schema).
Proof using Hinner Htype. unfold validate. safe. Qed.
#[local] Hint Resolve safe_validate : safe.

Lemma safe_validate_required x f sch r :
  scope_safe (validate_required x f sch r).
Proof. unfold validate_required. safe. Qed.
#[local] Hint Resolve safe_validate_required : safe.

Lemma safe_try_alternative x f t :
  scope_safe (try_alternative self x f t).
Proof using Hinner Htype. unfold try_alternative. safe. Qed.
#[local] Hint Resolve safe_try_alternative : safe.

Lemma safe_base_validate_type x f sch t :
  scope_safe (base_validate_type cfg self x f sch t).
Proof using Hinner Htype.
  unfold base_validate_type. safe.
Qed.
#[local] Hint Resolve safe_base_validate_type : safe.

Lemma safe_validate_properties x f sch a :
  scope_safe (validate_properties self x f sch a).
Proof using Hinner Htype. unfold validate_properties. safe. Qed.
#[local] Hint Resolve safe_validate_properties : safe.

Lemma safe_validate_items x f sch a :
  scope_safe (validate_items self x f sch a).
Proof using Hinner Htype. unfold validate_items. safe. Qed.
#[local] Hint Resolve safe_validate_items : safe.

Lemma safe_validate_blank x f sch a : scope_safe (validate_blank x f sch a).
Proof. unfold validate_blank. safe. Qed.
#[local] Hint Resolve safe_validate_blank : safe.

Lemma safe_match_pattern p s : scope_safe (match_pattern lib p s).
Proof. unfold match_pattern. safe. Qed.
#[local] Hint Resolve safe_match_pattern : safe.

Lemma safe_validate_patternProperties x f sch a :
  scope_safe (validate_patternProperties lib self x f sch a).
Proof using Hinner Htype.
  unfold validate_patternProperties. safe.
Qed.
#[local] Hint Resolve safe_validate_patternProperties : safe.

Lemma safe_validate_additionalItems x f sch a :
  scope_safe (validate_additionalItems self x f sch a).
Proof using Hinner Htype.
  unfold validate_additionalItems. safe.
Qed.
#[local] Hint Resolve safe_validate_additionalItems : safe.

Lemma safe_property_is_known p pp k :
  scope_safe (property_is_known lib p pp k).
Proof. unfold property_is_known. safe. Qed.
#[local] Hint Resolve safe_property_is_known : safe.

Lemma safe_validate_additionalProperties x f sch a :
  scope_safe (validate_additionalProperties lib self x f sch a).
Proof using Hinner Htype.
  unfold validate_additionalProperties. safe.
Qed.
#[local] Hint Resolve safe_validate_additionalProperties : safe.

Lemma safe_validate_dependencies x f sch a :
  scope_safe (validate_dependencies x f sch a).
Proof. unfold validate_dependencies. safe. Qed.
#[local] Hint Resolve safe_validate_dependencies : safe.

Lemma safe_validate_minimum x f sch a :
  scope_safe (validate_minimum lib x f sch a).
Proof. unfold validate_minimum. safe. Qed.
#[local] Hint Resolve safe_validate_minimum : safe.

Lemma safe_validate_maximum x f sch a :
  scope_safe (validate_maximum lib x f sch a).
Proof. unfold validate_maximum. safe. Qed.
#[local] Hint Resolve safe_validate_maximum : safe.

Lemma safe_validate_maxLength x f sch a :
  scope_safe (validate_maxLength lib x f sch a).
Proof. unfold validate_maxLength. safe. Qed.
#[local] Hint Resolve safe_validate_maxLength : safe.

Lemma safe_validate_minLength x f sch a :
  scope_safe (validate_minLength lib x f sch a).
Proof. unfold validate_minLength. safe. Qed.
#[local] Hint Resolve safe_validate_minLength : safe.

Lemma safe_validate_format x f sch a :
  scope_safe (validate_format cfg x f sch a).
Proof. unfold validate_format. safe. Qed.
#[local] Hint Resolve safe_validate_format : safe.

Lemma safe_validate_pattern x f sch a :
  scope_safe (validate_pattern lib x f sch a).
Proof. unfold validate_pattern. safe. Qed.
#[local] Hint Resolve safe_validate_pattern : safe.

Lemma safe_unique_scan vs hs us : scope_safe (unique_scan vs hs us).
Proof.
  revert hs us. induction vs as [|v vs IH]; intros hs us; simpl; safe.
Qed.
#[local] Hint Resolve safe_unique_scan : safe.

Lemma safe_validate_uniqueItems x f sch a :
  scope_safe (validate_uniqueItems x f sch a).
Proof. unfold validate_uniqueItems. safe. Qed.
#[local] Hint Resolve safe_validate_uniqueItems : safe.

Lemma safe_validate_enum x f sch a : scope_safe (validate_enum x f sch a).
Proof. unfold validate_enum. safe. Qed.
#[local] Hint Resolve safe_validate_enum : safe.

Lemma safe_validate_title x f sch a : scope_safe (validate_title x f sch a).
Proof. unfold validate_title. safe. Qed.
#[local] Hint Resolve safe_validate_title : safe.

Lemma safe_validate_description x f sch a :
  scope_safe (validate_description x f sch a).
Proof. unfold validate_description. safe. Qed.
#[local] Hint Resolve safe_validate_description : safe.

Lemma safe_validate_divisibleBy x f sch a :
  scope_safe (validate_divisibleBy lib x f sch a).
Proof. unfold validate_divisibleBy. safe. Qed.
#[local] Hint Resolve safe_validate_divisibleBy : safe.

Lemma safe_validate_extends x f sch a :
  scope_safe (validate_extends self x f sch a).
Proof using Hinner Htype. unfold validate_extends. safe. Qed.
#[local] Hint Resolve safe_validate_extends : safe.

Lemma safe_validate_disallow x f sch a :
  scope_safe (validate_disallow self x f sch a).
Proof using Hinner Htype. unfold validate_disallow. safe. Qed.
#[local] Hint Resolve safe_validate_disallow : safe.

Lemma safe_validate_minProperties x f sch a :
  scope_safe (validate_minProperties lib x f sch a).
Proof. unfold validate_minProperties. safe. Qed.
#[local] Hint Resolve safe_validate_minProperties : safe.

Lemma safe_validate_maxProperties x f sch a :
  scope_safe (validate_maxProperties lib x f sch a).
Proof. unfold validate_maxProperties. safe. Qed.
#[local] Hint Resolve safe_validate_maxProperties : safe.

Lemma safe_validate_requireEither x f sch a :
  scope_safe (validate_requireEither x f sch a).
Proof.
  unfold validate_requireEither. safe.
  apply safe_wrapper, safe_validate_required.
Qed.
#[local] Hint Resolve safe_validate_requireEither safe_wrapper : safe.

Lemma safe_coerce_integer x f sch : scope_safe (coerce_integer x f sch).
Proof. unfold coerce_integer. safe. Qed.
Lemma safe_coerce_number x f sch : scope_safe (coerce_number lib x f sch).
Proof. unfold coerce_number. safe. Qed.
Lemma safe_coerce_datetime x f sch : scope_safe (coerce_datetime lib x f sch).
Proof. unfold coerce_datetime. safe. Qed.
Lemma safe_coerce_string x f sch : scope_safe (coerce_string lib x f sch).
Proof. unfold coerce_string. safe. Qed.
Lemma safe_coerce_object x f sch : scope_safe (coerce_object x f sch).
Proof. unfold coerce_object. safe. Qed.
Lemma safe_coerce_array x f sch : scope_safe (coerce_array x f sch).
Proof. unfold coerce_array. safe. Qed.
Lemma safe_coerce_boolean x f sch : scope_safe (coerce_boolean x f sch).
Proof. unfold coerce_boolean. safe. Qed.

Lemma safe_coerce_method name coerce x f sch :
  coerce_method lib name = Some coerce -> scope_safe (coerce x f sch).
Proof.
  unfold coerce_method. intros H.
  repeat case_match; simplify_eq;
    auto using safe_coerce_integer, safe_coerce_number,
      safe_coerce_datetime, safe_coerce_string, safe_coerce_object,
      safe_coerce_array, safe_coerce_boolean.
Qed.

Lemma safe_coercer_validate_type x f sch t :
  scope_safe (coercer_validate_type lib cfg self x f sch t).
Proof using Hinner Htype.
  unfold coercer_validate_type. safe.
  all: try (eapply safe_coerce_method; eassumption).
Qed.

Lemma safe_props_to_delete p pp ap keys :
  scope_safe (props_to_delete lib p pp ap keys).
Proof. induction keys as [|kv keys IH]; simpl; safe. Qed.
#[local] Hint Resolve safe_props_to_delete : safe.

Lemma safe_coercer_validate_additionalProperties x f sch a :
  scope_safe (coercer_validate_additionalProperties lib x f sch a).
Proof. unfold coercer_validate_additionalProperties. safe. Qed.

Lemma safe_find_evaluator name ev x f sch a :
  find_evaluator lib cfg self name = Some ev -> scope_safe (ev x f sch a).
Proof using Hinner Htype.
  unfold find_evaluator, wrapped, validate_minItems, validate_maxItems.
  intros H.
  repeat (case_match; simplify_eq; try discriminate);
    try apply safe_wrapper;
    eauto using safe_raise, safe_coercer_validate_additionalProperties
      with safe.
Qed.

Lemma safe_walker fieldname data schema :
  scope_safe (walker lib cfg self fieldname data schema).
Proof using Hinner Htype.
  unfold walker, wrapped. safe.
  eapply safe_find_evaluator; eassumption.
Qed.
End Evaluators.

(** Every method of the validator, at every depth, closes the scopes it
    opens. *)
Lemma safe_methods_at depth : safe_methods (methods_at lib cfg depth).
Proof.
  induction depth as [|d IH]; split; simpl; intros.
  - apply safe_raise.
  - apply safe_raise.
  - destruct IH as [IHinner IHtype]. apply safe_walker; assumption.
  - destruct IH as [IHinner IHtype]. unfold wrapped. apply safe_wrapper.
    destruct (is_coercer (cls cfg));
      [apply safe_coercer_validate_type|apply safe_base_validate_type];
      assumption.
Qed.
End ScopeSafety.

(** ** The boundary of [validate] *)

(** When the walk of [_validate] returns, [validate] returns its result on an
    empty error list and raises [ValidationError] with the whole current
    list otherwise; an exception of the walk goes through. *)
Lemma validate_boundary (self : methods) data schema s :
  validate self data schema s =
  match _validate self data schema s with
  | Ok r s1 =>
      match error_list s1 with
      | [] => Ok r s1
      | _ :: _ => Raise (ValidationError (error_list s1))
      end
  | Raise e => Raise e
  end.
Proof.
  unfold validate, bind. destruct (_validate self data schema s) as [r s1|e];
    [|reflexivity].
  simpl. destruct (error_list s1); reflexivity.
Qed.

(** ** Running the primitives *)

Lemma get_found x field default v s :
  getitem (mem s) x field = Found v -> get x field default s = Ok v s.
Proof. intros H. unfold get, bind, get_mem. rewrite H. reflexivity. Qed.

Lemma bind_run {A B} (m : M A) (k : A -> M B) s a s1 :
  m s = Ok a s1 -> bind m k s = k a s1.
Proof. intros H. unfold bind. rewrite H. reflexivity. Qed.

Lemma py_contains_run needle container s r :
  contains (mem s) needle container = inr r ->
  py_contains needle container s = Ok r s.
Proof. intros H. unfold py_contains, bind, get_mem. rewrite H. reflexivity. Qed.

Lemma get_pure x field default v s s' :
  get x field default s = Ok v s' -> s' = s.
Proof.
  unfold get, bind, get_mem.
  destruct (getitem (mem s) x field); simpl; intros H;
    try discriminate; injection H as _ <-; reflexivity.
Qed.

Lemma error_appends code message suppl p s :
  field_path s = Some p ->
  _error code message suppl s =
  Ok tt (Validator (error_list s ++ [ErrorRecord code p message suppl])
                   (error_stack s) (current_field s) (current_object s)
                   (mem s)).
Proof.
  intros H. unfold _error, current_field_name, bind, get_state, lift_opt.
  rewrite H. reflexivity.
Qed.

Lemma error_unprintable code message suppl s :
  field_path s = None -> _error code message suppl s = Raise TypeError.
Proof.
  intros H. unfold _error, current_field_name, bind, get_state, lift_opt.
  rewrite H. reflexivity.
Qed.

(** ** Type checkers *)

(** C9. The numeric type checkers compare the concrete type: they reject
    [True] and [False], [validate_type_boolean] accepts exactly the booleans,
    and [SchemaValidator.validate_type] on a present boolean field declared
    "integer" or "number" appends one incorrect-type record, carrying the
    declared type and the boolean, to the current error list. *)
Theorem boolean_is_not_a_number
        (cfg : config) (self : methods) (x fieldname schema : value)
        (b : bool) (t : string) (p : value) (s : validator) :
  t = "integer" \/ t = "number" ->
  getitem (mem s) x fieldname = Found (VBool b) ->
  field_path s = Some p ->
  validate_type_integer (mem s) (VBool b) = false /\
  validate_type_number (mem s) (VBool b) = false /\
  (forall v, validate_type_boolean (mem s) v = true <-> exists b', v = VBool b') /\
  base_validate_type cfg self x fieldname schema (VStr t) s =
    Ok tt (Validator
             (error_list s ++ [ErrorRecord "incorrect-type" p (VStr t) (VBool b)])
             (error_stack s) (current_field s) (current_object s) (mem s)).
Proof.
  intros Ht Hx Hp. repeat split.
  - destruct v; simpl; intros; try discriminate; eauto.
  - intros [b' ->]. reflexivity.
  - unfold base_validate_type, bind, get_mem. rewrite Hx.
    destruct Ht as [-> | ->]; simpl;
      rewrite (get_found _ _ _ _ _ Hx), (error_appends _ _ _ _ _ Hp);
      reflexivity.
Qed.

Lemma boolean_is_not_a_number_witness :
  let s := Validator [] [] [VStr "_data"] [VRef 0%nat]
                     [ODict [("_data", VBool true)]] in
  base_validate_type (make_config plain_lib SchemaValidator)
                     (methods_at plain_lib (make_config plain_lib SchemaValidator) 1)
                     (VRef 0%nat) (VStr "_data") VNone (VStr "integer") s =
  Ok tt (Validator [ErrorRecord "incorrect-type" VNone (VStr "integer") (VBool true)]
                   [] [VStr "_data"] [VRef 0%nat] [ODict [("_data", VBool true)]]).
Proof.
  intros s.
  exact (proj2 (proj2 (proj2
    (boolean_is_not_a_number (make_config plain_lib SchemaValidator)
       (methods_at plain_lib (make_config plain_lib SchemaValidator) 1)
       (VRef 0%nat) (VStr "_data") VNone true "integer" VNone s
       (or_introl eq_refl) eq_refl eq_refl)))).
Defined.

(** ** Keyword evaluators on concrete inputs *)

(** C7 (defect of the code). [validate_maxProperties] compares with [<]
    where its docstring says "at most": at every recursion depth, an object
    of three keys passes [maxProperties: 2] without an error, and an object
    of one key is reported too-many-properties. *)
Theorem maxProperties_bound_is_reversed (lib : PyLib) (n : nat) :
  outcome_of (run lib ExtendedSchemaValidator (1 + n)
                  (LDict [("a", LInt 1); ("b", LInt 2); ("c", LInt 3)])
                  (LDict [("maxProperties", LInt 2)]))
  = Returned (Some (LDict [("a", LInt 1); ("b", LInt 2); ("c", LInt 3)])) /\
  outcome_of (run lib ExtendedSchemaValidator (1 + n)
                  (LDict [("a", LInt 1)])
                  (LDict [("maxProperties", LInt 2)]))
  = Raised (ValidationError
              [ErrorRecord "too-many-properties" VNone VNone VNone]).
Proof. split; vm_compute; reflexivity. Qed.

(** C6 (defect of the code). [validate_disallow] returns without an error
    only when the speculative run left more than one error.  The value [5]
    against [disallow: "string"] leaves exactly one (incorrect-type), so the
    disallowed type did not match, and disallowed-type is reported all the
    same (at every recursion depth from 2). *)
Theorem disallow_reports_a_type_that_did_not_match (lib : PyLib) (n : nat) :
  outcome_of (run lib SchemaValidator (2 + n) (LInt 5)
                  (LDict [("disallow", LStr "string")]))
  = Raised (ValidationError
              [ErrorRecord "disallowed-type" VNone (VStr "string") (VInt 5)]).
Proof. vm_compute; reflexivity. Qed.

(** C3 (defect of the code). [SchemaValidator.validate_additionalProperties]
    returns after the first forbidden property: at every recursion depth, an
    object with the two extra keys "b" and "c" yields one forbidden-property
    record, not two. *)
Theorem forbidden_property_reported_for_first_key_only (lib : PyLib) (n : nat) :
  outcome_of (run lib SchemaValidator (1 + n)
                  (LDict [("b", LInt 1); ("c", LInt 2)])
                  (LDict [("additionalProperties", LBool false)]))
  = Raised (ValidationError
              [ErrorRecord "forbidden-property" VNone (VStr "b") VNone]).
Proof. vm_compute; reflexivity. Qed.

(** C4 (defect of the code). [validate_items] does not validate every
    element.  With a positional [items] the loop returns after index 0: the
    second element "b" is never checked against its integer schema.  With a
    single schema the errors of an element are kept only when there are more
    than one: the lone incorrect-type of "a" is dropped; and after the first
    element whose errors are kept the loop returns, so "b" is not checked.
    The depth [3 + n] is any depth that lets these walks finish. *)
Theorem items_are_not_all_validated (lib : PyLib) (n : nat) :
  outcome_of (run lib SchemaValidator (3 + n)
                  (LList [LInt 0; LStr "b"])
                  (LDict [("items", LList [LDict [("type", LStr "integer")];
                                           LDict [("type", LStr "integer")]])]))
  = Returned (Some (LList [LInt 0; LStr "b"])) /\
  outcome_of (run lib SchemaValidator (3 + n)
                  (LList [LStr "a"])
                  (LDict [("items", LDict [("type", LStr "integer");
                                           ("required", LBool false)])]))
  = Returned (Some (LList [LStr "a"])) /\
  outcome_of (run lib SchemaValidator (3 + n)
                  (LList [LStr "a"; LStr "b"])
                  (LDict [("items", LDict [("type", LStr "integer")])]))
  = Raised (ValidationError
              [ErrorRecord "missing-required" (VStr "[0]") VNone VNone;
               ErrorRecord "incorrect-type" (VStr "[0]") (VStr "integer")
                           (VStr "a")]).
Proof. repeat split; vm_compute; reflexivity. Qed.

(** ** [divisibleBy] *)

(** C8 as stated fails: a string value with [divisibleBy: 0] validates
    without a schema error. *)
Lemma zero_divisor_passes_for_a_string :
  outcome_of (run plain_lib SchemaValidator 1000 (LStr "s")
                  (LDict [("divisibleBy", LInt 0)]))
  = Returned (Some (LStr "s")) /\
  forall msg, run plain_lib SchemaValidator 1000 (LStr "s")
                  (LDict [("divisibleBy", LInt 0)]) <> Raise (SchemaError msg).
Proof. split; [vm_compute; reflexivity|intros msg; vm_compute; discriminate]. Qed.

(** C8, amended.  With [divisibleBy: 0] the evaluator looks at the value
    first: for a value of type int or float it raises a schema error; for any
    other value (a string, a boolean, [None], an absent field) it returns at
    once, leaving the instance as it was.  It never appends an error record
    for the zero divisor. *)
Theorem zero_divisor_is_a_schema_error_for_numbers
        (lib : PyLib) (x fieldname schema : value) (s : validator) :
  validate_divisibleBy lib x fieldname schema (VInt 0) s =
  match get x fieldname VNone s with
  | Ok v _ =>
      if validate_type_number (mem s) v
      then Raise (SchemaError "divisibleBy can not be 0")
      else Ok tt s
  | Raise e => Raise e
  end.
Proof.
  unfold validate_divisibleBy, get, get_mem, bind.
  destruct (getitem (mem s) x fieldname) as [v| | |]; simpl; try reflexivity.
  destruct (validate_type_number (mem s) v); simpl; [|reflexivity].
  unfold py_equal, get_mem, bind, equal. simpl.
  destruct (mem s); reflexivity.
Qed.

(** ** Union types *)


Section UnionTypes.
Context (lib : PyLib) (cfg : config) (depth : nat).



End UnionTypes.


(** ** Coercion *)

(** C5 as stated fails: the string "abc" declared "integer" is reported with
    the error of the coercion attempt alone; the incorrect-type record of the
    original type check is not in the list. *)
Lemma coercion_failure_drops_the_type_error :
  run plain_lib SchemaCoercer 1000 (LStr "abc") (LDict [("type", LStr "integer")])
  = Raise (ValidationError
             [ErrorRecord "impossible-integer-coercion" VNone (VStr "abc") VNone])
  /\
  forall errors path message suppl,
    run plain_lib SchemaCoercer 1000 (LStr "abc") (LDict [("type", LStr "integer")])
    = Raise (ValidationError errors) ->
    ~ In (ErrorRecord "incorrect-type" path message suppl) errors.
Proof.
  assert (H : run plain_lib SchemaCoercer 1000 (LStr "abc")
                  (LDict [("type", LStr "integer")])
              = Raise (ValidationError
                         [ErrorRecord "impossible-integer-coercion" VNone
                                      (VStr "abc") VNone]))
    by (vm_compute; reflexivity).
  split; [exact H|].
  intros errors path message suppl E. rewrite H in E. injection E as <-.
  intros [F|[]]. discriminate.
Qed.

Section Coercion.
Context (lib : PyLib) (cfg : config) (depth : nat).

(** C5, amended.  In the coercing validator, for a present field whose type
    check left errors: when the type is a name with a coercion method and the
    coercion attempt leaves errors of its own, the outer error list gains
    exactly the errors of the coercion attempt (the errors of the type check
    are dropped with their scope); when the type is not a name (a union or a
    nested schema), the outer list gains exactly one impossible-coercion
    record carrying the type. *)
Theorem coercion_failure_reports_the_coercion_errors
        (x fieldname schema fieldtype : value) (s s1 : validator) :
  wrapper x fieldname
          (base_validate_type cfg (methods_at lib cfg depth) x fieldname schema
                              fieldtype) (opened s)
  = Ok tt s1 ->
  error_list s1 <> [] ->
  truthy (mem s1) fieldtype = true ->
  contains (mem s1) fieldname x = inr true ->
  match fieldtype with
  | VStr name =>
      forall coerce s2,
        coerce_method lib name = Some coerce ->
        coerce x fieldname schema (opened (closed s s1)) = Ok tt s2 ->
        error_list s2 <> [] ->
        coercer_validate_type lib cfg (methods_at lib cfg depth) x fieldname
                              schema fieldtype s
        = Ok tt (Validator (error_list s ++ error_list s2) (error_stack s)
                           (current_field s2) (current_object s2) (mem s2))
  | _ =>
      coercer_validate_type lib cfg (methods_at lib cfg depth) x fieldname
                            schema fieldtype s
      = match field_path s1 with
        | Some p =>
            Ok tt (Validator
                     (error_list s ++
                        [ErrorRecord "impossible-coercion" p fieldtype VNone])
                     (error_stack s) (current_field s1) (current_object s1)
                     (mem s1))
        | None => Raise TypeError
        end
  end.
Proof.
  intros Hcheck Herrs Htruthy Hpresent.
  assert (Hsafe : scope_safe
            (wrapper x fieldname
               (base_validate_type cfg (methods_at lib cfg depth) x fieldname
                                   schema fieldtype))).
  { apply safe_wrapper, safe_base_validate_type;
      apply (safe_methods_at lib cfg depth). }
  assert (Hhead : forall k : M unit,
    (let* h := get_mem in
     let* missing :=
       if negb (truthy h fieldtype) then ret true
       else let* present := py_contains fieldname x in ret (negb present) in
     if missing then _error "impossible-coercion" fieldtype VNone else k)
      (closed s s1) = k (closed s s1)).
  { intros k.
    rewrite (bind_run get_mem _ (closed s s1) (mem s1) (closed s s1) eq_refl).
    rewrite Htruthy. simpl.
    rewrite (bind_run _ _ (closed s s1) false (closed s s1)); [reflexivity|].
    rewrite (bind_run _ _ (closed s s1) true (closed s s1)); [reflexivity|].
    apply py_contains_run, Hpresent. }
  assert (Hstart : forall k : M unit,
    (push_error_stack ;;
     wrapper x fieldname
             (base_validate_type cfg (methods_at lib cfg depth) x fieldname
                                 schema fieldtype) ;;
     let* errs := pop_error_stack in
     if nonempty errs then
       let* h := get_mem in
       let* missing :=
         if negb (truthy h fieldtype) then ret true
         else let* present := py_contains fieldname x in ret (negb present) in
       if missing then _error "impossible-coercion" fieldtype VNone else k
     else ret tt) s = k (closed s s1)).
  { intros k.
    rewrite (scoped_forward _ _ s tt s1 Hsafe Hcheck).
    destruct (error_list s1); [congruence|]. simpl. apply Hhead. }
  assert (Hother :
    (_error "impossible-coercion" fieldtype VNone) (closed s s1)
    = match field_path s1 with
      | Some p =>
          Ok tt (Validator
                   (error_list s ++
                      [ErrorRecord "impossible-coercion" p fieldtype VNone])
                   (error_stack s) (current_field s1) (current_object s1)
                   (mem s1))
      | None => Raise TypeError
      end).
  { destruct (field_path s1) as [p|] eqn:P.
    - apply (error_appends _ _ _ p (closed s s1)). exact P.
    - apply error_unprintable. exact P. }
  destruct fieldtype as [| | | |name| |];
    try (unfold coercer_validate_type; rewrite Hstart; exact Hother).
  intros coerce s2 Hmethod Hcoerce Herrs2.
  unfold coercer_validate_type. rewrite Hstart, Hmethod.
  rewrite (scoped_forward _ _ (closed s s1) tt s2
             (safe_coerce_method lib name coerce x fieldname schema Hmethod)
             Hcoerce).
  destruct (error_list s2); [congruence|]. reflexivity.
Qed.
End Coercion.

Lemma coercion_failure_reports_the_coercion_errors_witness :
  let cfg := make_config plain_lib SchemaCoercer in
  let self := methods_at plain_lib cfg 3 in
  (* "abc" declared "integer" *)
  coercer_validate_type plain_lib cfg self (VRef 0%nat) (VStr "_data") VNone
                        (VStr "integer") (coercion_example_state [] [] [])
  = Ok tt (coercion_example_state
             [ErrorRecord "impossible-integer-coercion" VNone (VStr "abc") VNone]
             [] []) /\
  (* "abc" declared ["integer", "object"] *)
  coercer_validate_type plain_lib cfg self (VRef 0%nat) (VStr "_data") VNone
                        (VRef 1%nat)
                        (coercion_example_state [] []
                           [OList [VStr "integer"; VStr "object"]])
  = Ok tt (coercion_example_state
             [ErrorRecord "impossible-coercion" VNone (VRef 1%nat) VNone]
             [] [OList [VStr "integer"; VStr "object"]]).
Proof.
  intros cfg self. split.
  - set (s := coercion_example_state [] [] []).
    set (s1 := coercion_example_state
                 [ErrorRecord "incorrect-type" VNone (VStr "integer") (VStr "abc")]
                 [[]] []).
    set (s2 := coercion_example_state
                 [ErrorRecord "impossible-integer-coercion" VNone (VStr "abc")
                              VNone]
                 [[]] []).
    assert (H1 : wrapper (VRef 0%nat) (VStr "_data")
                   (base_validate_type cfg self (VRef 0%nat) (VStr "_data")
                                       VNone (VStr "integer")) (opened s)
                 = Ok tt s1) by (vm_compute; reflexivity).
    assert (H2 : coerce_integer (VRef 0%nat) (VStr "_data") VNone
                                (opened (closed s s1)) = Ok tt s2)
      by (vm_compute; reflexivity).
    exact (coercion_failure_reports_the_coercion_errors plain_lib cfg 3
             (VRef 0%nat) (VStr "_data") VNone (VStr "integer") s s1
             H1 (not_eq_sym (@nil_cons _ _ _)) eq_refl eq_refl
             coerce_integer s2 eq_refl H2 (not_eq_sym (@nil_cons _ _ _))).
  - set (objects := [OList [VStr "integer"; VStr "object"]]).
    set (s := coercion_example_state [] [] objects).
    set (s1 := coercion_example_state
                 [ErrorRecord "incorrect-type" VNone (VRef 1%nat) (VStr "abc")]
                 [[]] objects).
    assert (H1 : wrapper (VRef 0%nat) (VStr "_data")
                   (base_validate_type cfg self (VRef 0%nat) (VStr "_data")
                                       VNone (VRef 1%nat)) (opened s)
                 = Ok tt s1) by (vm_compute; reflexivity).
    exact (coercion_failure_reports_the_coercion_errors plain_lib cfg 3
             (VRef 0%nat) (VStr "_data") VNone (VRef 1%nat) s s1
             H1 (not_eq_sym (@nil_cons _ _ _)) eq_refl eq_refl).
Defined.

(** ** Additional properties in the coercing validator *)

Section AdditionalProperties.
Context (lib : PyLib).

Lemma patterns_loop (qk : list (string * value)) (k : string) s :
  (forall q, In q qk -> re_match lib (fst q) k <> None) ->
  for_each (map (fun kv => VStr (fst kv)) qk)
           (fun pattern =>
              let* matched := match_pattern lib pattern k in
              ret (negb matched)) s
  = Ok (negb (existsb (fun q => match re_match lib (fst q) k with
                                | Some true => true
                                | _ => false
                                end) qk)) s.
Proof.
  induction qk as [|q qk IH]; intros Hre; simpl; [reflexivity|].
  unfold bind at 1 2. unfold match_pattern, lift_opt.
  destruct (re_match lib (fst q) k) as [[|]|] eqn:E; simpl.
  - reflexivity.
  - apply IH. intros q' Hq'. apply Hre. right. exact Hq'.
  - exfalso. apply (Hre q); [left; reflexivity|exact E].
Qed.

Lemma property_is_known_run properties patternProperties pk qk k s :
  contains (mem s) (VStr k) properties
  = inr (match assoc k pk with Some _ => true | None => false end) ->
  iterate (mem s) patternProperties = inr (map (fun kv => VStr (fst kv)) qk) ->
  (forall q, In q qk -> re_match lib (fst q) k <> None) ->
  property_is_known lib properties patternProperties k s
  = Ok (is_known lib pk qk k) s.
Proof.
  intros Hc Hi Hre. unfold property_is_known, is_known.
  rewrite (bind_run _ _ _ _ _ (py_contains_run _ _ _ _ Hc)).
  destruct (assoc k pk); [reflexivity|].
  unfold py_iterate.
  rewrite (bind_run _ _ s (map (fun kv => VStr (fst kv)) qk) s).
  - rewrite (bind_run _ _ _ _ _ (patterns_loop qk k s Hre)).
    unfold ret. rewrite negb_involutive. reflexivity.
  - unfold bind, get_mem. rewrite Hi. reflexivity.
Qed.

Lemma props_to_delete_run properties patternProperties pk qk keys s :
  (forall k, contains (mem s) (VStr k) properties
             = inr (match assoc k pk with Some _ => true | None => false end)) ->
  iterate (mem s) patternProperties = inr (map (fun kv => VStr (fst kv)) qk) ->
  (forall q kv, In q qk -> In kv keys -> re_match lib (fst q) (fst kv) <> None) ->
  props_to_delete lib properties patternProperties (VBool false) keys s
  = Ok (map fst (List.filter (fun kv => negb (is_known lib pk qk (fst kv))) keys)) s.
Proof.
  intros Hc Hi. induction keys as [|kv keys IH]; intros Hre; simpl;
    [reflexivity|].
  rewrite (bind_run _ _ _ _ _
             (property_is_known_run _ _ pk qk (fst kv) s (Hc _) Hi
                (fun q Hq => Hre q kv Hq (or_introl eq_refl)))).
  assert (IH' := IH (fun q kv' Hq Hkv => Hre q kv' Hq (or_intror Hkv))).
  destruct (is_known lib pk qk (fst kv)); simpl.
  - exact IH'.
  - rewrite (bind_run _ _ _ _ _ IH'). reflexivity.
Qed.

Lemma assoc_del_other k d kvs :
  k <> d -> assoc k (assoc_del d kvs) = assoc k kvs.
Proof.
  intros Hne. induction kvs as [|[k' v] kvs IH]; simpl; [reflexivity|].
  destruct (String.eqb_spec d k') as [<-|Hd]; simpl.
  - destruct (String.eqb_spec k d); [contradiction|exact IH].
  - destruct (String.eqb k k'); [reflexivity|exact IH].
Qed.

Lemma filter_assoc_del d ds (kvs : list (string * value)) :
  List.filter (fun kv => negb (existsb (String.eqb (fst kv)) ds)) (assoc_del d kvs)
  = List.filter (fun kv => negb (existsb (String.eqb (fst kv)) (d :: ds))) kvs.
Proof.
  unfold assoc_del.
  induction kvs as [|[k v] kvs IH]; simpl; [reflexivity|].
  rewrite (String.eqb_sym k d).
  destruct (String.eqb d k); simpl; [exact IH|].
  rewrite IH. reflexivity.
Qed.

(** Deleting the keys of [doomed] from the dict at [lv], one [del] after the
    other, leaves the entries whose key is not in [doomed]. *)
Lemma delete_all lv doomed :
  forall kvs s,
    mem s !! lv = Some (ODict kvs) ->
    NoDup doomed ->
    (forall d, In d doomed -> assoc d kvs <> None) ->
    for_each doomed (fun prop => delitem (VRef lv) prop ;; ret true) s
    = Ok true
         (with_mem s
            (<[lv := ODict (List.filter
                              (fun kv => negb (existsb (String.eqb (fst kv)) doomed))
                              kvs)]> (mem s))).
Proof.
  induction doomed as [|d ds IH]; intros kvs s Hlv Hnd Hin; simpl.
  - assert (E : forall f : string * value -> bool,
                 (forall kv, f kv = true) -> List.filter f kvs = kvs).
    { clear. intros f Hf.
      induction kvs as [|kv kvs IH]; simpl; [|rewrite Hf, IH]; reflexivity. }
    rewrite E by reflexivity.
    rewrite (list_insert_id _ _ _ Hlv). destruct s; reflexivity.
  - apply NoDup_cons in Hnd as [Hd Hnd].
    assert (Hlt : (lv < length (mem s))%nat) by (eapply lookup_lt_Some; eauto).
    unfold bind at 1 2. unfold delitem at 1. unfold bind at 1, get_mem.
    rewrite Hlv.
    destruct (assoc d kvs) eqn:Ed; [|exfalso; eapply Hin; [left; reflexivity|exact Ed]].
    simpl.
    rewrite (IH (assoc_del d kvs)); simpl.
    + rewrite list_insert_insert_eq, filter_assoc_del. reflexivity.
    + apply list_lookup_insert_eq. exact Hlt.
    + exact Hnd.
    + intros d' Hd'. rewrite assoc_del_other.
      * apply Hin. right. exact Hd'.
      * intros ->. apply Hd. apply list_elem_of_In. exact Hd'.
Qed.

Lemma assoc_in k (v : value) kvs : In (k, v) kvs -> assoc k kvs <> None.
Proof.
  induction kvs as [|[k' v'] kvs IH]; simpl; [tauto|].
  intros [E|H].
  - injection E as -> ->. rewrite String.eqb_refl. discriminate.
  - destruct (String.eqb k k'); [discriminate|auto].
Qed.

Lemma NoDup_keys_filter (f : string * value -> bool) kvs :
  NoDup (map fst kvs) -> NoDup (map fst (List.filter f kvs)).
Proof.
  induction kvs as [|kv kvs IH]; simpl; intros H; [exact H|].
  apply NoDup_cons in H as [Hk Hnd].
  destruct (f kv); simpl; [|auto].
  apply NoDup_cons. split; [|auto].
  intros Hin. apply Hk. apply list_elem_of_In in Hin. apply list_elem_of_In.
  apply in_map_iff in Hin as (kv' & E & Hin). apply in_map_iff.
  exists kv'. split; [exact E|]. apply filter_In in Hin. tauto.
Qed.

Lemma filter_doomed (known : string -> bool) (kvs : list (string * value)) :
  List.filter
    (fun kv => negb (existsb (String.eqb (fst kv))
                       (map fst (List.filter (fun kv => negb (known (fst kv))) kvs))))
    kvs
  = List.filter (fun kv => known (fst kv)) kvs.
Proof.
  apply filter_ext_in. intros kv Hkv.
  destruct (known (fst kv)) eqn:K; simpl.
  - apply negb_true_iff. apply not_true_is_false. intros H.
    apply existsb_exists in H as (d & Hd & E).
    apply String.eqb_eq in E. subst d.
    apply in_map_iff in Hd as (kv' & E & Hin).
    apply filter_In in Hin as [_ Hk]. rewrite E, K in Hk. discriminate.
  - apply negb_false_iff. apply existsb_exists. exists (fst kv).
    split; [|apply String.eqb_refl].
    apply in_map. apply filter_In. rewrite K. auto.
Qed.

(** The loop that collects the unknown keys of the object at [lv] and the
    loop that deletes them, from an instance in which the [properties] and
    [patternProperties] of the schema have been fetched. *)
Lemma collect_and_delete properties patternProperties lv kvs pk qk s :
  mem s !! lv = Some (ODict kvs) ->
  NoDup (map fst kvs) ->
  (forall k, contains (mem s) (VStr k) properties
             = inr (match assoc k pk with Some _ => true | None => false end)) ->
  iterate (mem s) patternProperties = inr (map (fun kv => VStr (fst kv)) qk) ->
  (forall q kv, In q qk -> In kv kvs -> re_match lib (fst q) (fst kv) <> None) ->
  (let* keys := py_items (VRef lv) in
   let* doomed :=
     props_to_delete lib properties patternProperties (VBool false) keys in
   for_each doomed (fun prop => delitem (VRef lv) prop ;; ret true) ;;
   ret tt) s
  = Ok tt (with_mem s
             (<[lv := ODict (List.filter (fun kv => is_known lib pk qk (fst kv))
                                         kvs)]> (mem s))).
Proof.
  intros Hlv Hnd Hc Hi Hre.
  rewrite (bind_run _ _ s kvs s).
  2:{ unfold py_items, bind, get_mem, dict_items, deref. rewrite Hlv.
      reflexivity. }
  rewrite (bind_run _ _ _ _ _ (props_to_delete_run _ _ pk qk kvs s Hc Hi Hre)).
  assert (Hin : forall d,
             In d (map fst (List.filter
                              (fun kv => negb (is_known lib pk qk (fst kv))) kvs)) ->
             assoc d kvs <> None).
  { intros d Hd. apply in_map_iff in Hd as ([k v] & <- & Hin).
    apply filter_In in Hin as [Hin _]. exact (assoc_in _ _ _ Hin). }
  rewrite (bind_run _ _ _ _ _
             (delete_all lv _ kvs s Hlv (NoDup_keys_filter _ kvs Hnd) Hin)).
  rewrite (filter_doomed (is_known lib pk qk) kvs). reflexivity.
Qed.

Lemma new_run o s :
  new o s = Ok (VRef (length (mem s))) (with_mem s (mem s ++ [o])).
Proof. reflexivity. Qed.

Lemma py_dict_get_run d k default kvs s :
  deref (mem s) d = Some (ODict kvs) ->
  py_dict_get d k default s
  = Ok (match assoc k kvs with Some v => v | None => default end) s.
Proof.
  intros H. unfold py_dict_get, bind, get_mem, dict_get. rewrite H.
  reflexivity.
Qed.

Lemma deref_app h g v o : deref h v = Some o -> deref (h ++ g) v = Some o.
Proof.
  destruct v; simpl; try discriminate. intros H.
  apply lookup_app_l_Some. exact H.
Qed.

Lemma contains_in_dict h l pk k :
  h !! l = Some (ODict pk) ->
  contains h (VStr k) (VRef l)
  = inr (match assoc k pk with Some _ => true | None => false end).
Proof. intros H. unfold contains. rewrite H. reflexivity. Qed.

Lemma contains_in_empty_list h l k :
  h !! l = Some (OList []) -> contains h (VStr k) (VRef l) = inr false.
Proof. intros H. unfold contains. rewrite H. reflexivity. Qed.

Lemma iterate_dict h l qk :
  h !! l = Some (ODict qk) ->
  iterate h (VRef l) = inr (map (fun kv => VStr (fst kv)) qk).
Proof. intros H. unfold iterate. rewrite H. reflexivity. Qed.

Lemma iterate_empty_list h l :
  h !! l = Some (OList []) -> iterate h (VRef l) = inr [].
Proof. intros H. unfold iterate. rewrite H. reflexivity. Qed.

(** C10. [SchemaCoercer.validate_additionalProperties] with the value
    [False], on a field holding an object, for a schema whose [properties]
    and [patternProperties] are mappings (or absent) and whose patterns
    compile: the call returns; every key that is neither declared nor matched
    by a pattern is deleted from the object in place (the object keeps its
    location), no error is appended, the entries of declared or matched keys
    are kept as they are, and no other object that existed before the call
    changes. *)
Theorem coercer_deletes_additional_properties
        (x fieldname schema : value) (lv : nat)
        (kvs sch pk qk : list (string * value)) (s : validator) :
  getitem (mem s) x fieldname = Found (VRef lv) ->
  mem s !! lv = Some (ODict kvs) ->
  NoDup (map fst kvs) ->
  deref (mem s) schema = Some (ODict sch) ->
  declared_properties (mem s) sch = Some pk ->
  declared_patterns (mem s) sch = Some qk ->
  (forall q kv, In q qk -> In kv kvs -> re_match lib (fst q) (fst kv) <> None) ->
  exists s',
    coercer_validate_additionalProperties lib x fieldname schema (VBool false) s
    = Ok tt s' /\
    error_list s' = error_list s /\
    error_stack s' = error_stack s /\
    mem s' !! lv
    = Some (ODict (List.filter (fun kv => is_known lib pk qk (fst kv)) kvs)) /\
    forall l, (l < length (mem s))%nat -> l <> lv -> mem s' !! l = mem s !! l.
Proof.
  intros Hx Hlv Hnd Hsch Hpk Hqk Hre.
  assert (Hlt : (lv < length (mem s))%nat) by (eapply lookup_lt_Some; eauto).
  (* what is left to show once the final store is [mem s ++ g] *)
  assert (Hend : forall g s0 D,
    error_list s0 = error_list s -> error_stack s0 = error_stack s ->
    mem s0 = mem s ++ g ->
    let s' := with_mem s0 (<[lv := D]> (mem s0)) in
    error_list s' = error_list s /\ error_stack s' = error_stack s /\
    mem s' !! lv = Some D /\
    forall l, (l < length (mem s))%nat -> l <> lv -> mem s' !! l = mem s !! l).
  { intros g s0 D E1 E2 E3. simpl. rewrite E3. repeat split; auto.
    - apply list_lookup_insert_eq. rewrite length_app. lia.
    - intros l Hl Hne. rewrite list_lookup_insert_ne by auto.
      apply lookup_app_l. exact Hl. }
  remember (coercer_validate_additionalProperties lib x fieldname schema
              (VBool false) s) as r eqn:Hr.
  unfold coercer_validate_additionalProperties in Hr.
  rewrite (bind_run _ _ _ _ _ (get_found x fieldname VNone _ s Hx)) in Hr.
  rewrite (bind_run get_mem _ s (mem s) s eq_refl) in Hr.
  assert (Hd : is_dict (mem s) (VRef lv) = true)
    by (unfold is_dict, deref; rewrite Hlv; reflexivity).
  rewrite Hd in Hr.
  replace (is_bool (VBool false) && truthy (mem s) (VBool false))%bool
    with false in Hr by reflexivity.
  cbn [negb] in Hr. cbv iota in Hr.
  rewrite (bind_run _ _ _ _ _ (get_found x fieldname VNone _ s Hx)) in Hr.
  replace (is_dict (mem s) (VBool false) || is_bool (VBool false))%bool
    with true in Hr by reflexivity.
  cbv iota in Hr.
  rewrite (bind_run _ _ _ _ _ (new_run _ s)) in Hr.
  set (s1 := with_mem s (mem s ++ [OList []])) in *.
  rewrite (bind_run _ _ _ _ _
             (py_dict_get_run schema "properties" _ sch s1
                (deref_app _ _ _ _ Hsch))) in Hr.
  rewrite (bind_run _ _ _ _ _ (new_run _ s1)) in Hr.
  set (s2 := with_mem s1 (mem s1 ++ [OList []])) in *.
  assert (Hsch2 : deref (mem s2) schema = Some (ODict sch)).
  { apply (deref_app (mem s1)), (deref_app (mem s)), Hsch. }
  rewrite (bind_run _ _ _ _ _
             (py_dict_get_run schema "patternProperties" _ sch s2 Hsch2)) in Hr.
  assert (Hd1 : forall g, (mem s ++ OList [] :: g) !! length (mem s)
                          = Some (OList [])).
  { intros g. rewrite lookup_app_r by lia. rewrite Nat.sub_diag. reflexivity. }
  assert (Hd2 : forall g, (mem s ++ OList [] :: OList [] :: g)
                            !! length (mem s ++ [OList []])
                          = Some (OList [])).
  { intros g. rewrite length_app. simpl.
    rewrite lookup_app_r by lia.
    replace (length (mem s) + 1 - length (mem s))%nat with 1%nat by lia.
    reflexivity. }
  (* the value of patternProperties, on any store that extends [mem s2] *)
  assert (Hpat : forall g,
    iterate ((mem s ++ [OList []; OList []]) ++ g)
            (match assoc "patternProperties" sch with
             | Some v => v
             | None => VRef (length (mem s1))
             end)
    = inr (map (fun kv => VStr (fst kv)) qk)).
  { intros g. unfold declared_patterns in Hqk.
    rewrite <- app_assoc. simpl.
    destruct (assoc "patternProperties" sch) as [v|].
    - destruct v as [| | | | | |lq]; simpl in Hqk; try discriminate.
      destruct (mem s !! lq) as [[qk'| |]|] eqn:Eq; try discriminate.
      injection Hqk as ->. apply iterate_dict.
      apply lookup_app_l_Some. exact Eq.
    - injection Hqk as <-. apply iterate_empty_list. apply Hd2. }
  unfold declared_properties in Hpk.
  destruct (assoc "properties" sch) as [v|] eqn:Ep.
  - destruct v as [| | | | | |lp]; simpl in Hpk; try discriminate.
    + (* properties: None *)
      injection Hpk as <-. simpl is_none in Hr. cbv iota in Hr.
      rewrite (bind_run _ _ _ _ _ (new_run _ s2)) in Hr.
      set (s3 := with_mem s2 (mem s2 ++ [ODict []])) in *.
      eexists. split.
      * rewrite Hr. apply (collect_and_delete _ _ lv kvs [] qk s3).
        -- simpl. apply lookup_app_l_Some, lookup_app_l_Some,
             lookup_app_l_Some, Hlv.
        -- exact Hnd.
        -- intros k. simpl. unfold contains.
           rewrite lookup_app_r by reflexivity. rewrite Nat.sub_diag.
           reflexivity.
        -- simpl. rewrite <- (app_assoc (mem s)). apply (Hpat [ODict []]).
        -- exact Hre.
      * apply (Hend ([OList []; OList []] ++ [ODict []])); try reflexivity.
        simpl. rewrite <- !app_assoc. reflexivity.
    + (* properties: a mapping *)
      destruct (mem s !! lp) as [[pk'| |]|] eqn:Elp; try discriminate.
      injection Hpk as ->. simpl is_none in Hr. cbv iota in Hr.
      rewrite (bind_run _ _ s2 (VRef lp) s2 eq_refl) in Hr.
      eexists. split.
      * rewrite Hr. apply (collect_and_delete _ _ lv kvs pk qk s2).
        -- simpl. apply lookup_app_l_Some, lookup_app_l_Some, Hlv.
        -- exact Hnd.
        -- intros k. apply contains_in_dict. simpl.
           apply lookup_app_l_Some, lookup_app_l_Some, Elp.
        -- simpl. rewrite <- (app_assoc (mem s)).
           rewrite <- (app_nil_r (mem s ++ _)). apply (Hpat []).
        -- exact Hre.
      * apply (Hend [OList []; OList []]); try reflexivity.
        simpl. rewrite <- !app_assoc. reflexivity.
  - (* properties: absent *)
    injection Hpk as <-. simpl is_none in Hr. cbv iota in Hr.
    rewrite (bind_run _ _ s2 (VRef (length (mem s))) s2 eq_refl) in Hr.
    eexists. split.
    * rewrite Hr. apply (collect_and_delete _ _ lv kvs [] qk s2).
      -- simpl. apply lookup_app_l_Some, lookup_app_l_Some, Hlv.
      -- exact Hnd.
      -- intros k. apply contains_in_empty_list. simpl.
         rewrite <- app_assoc. apply Hd1.
      -- simpl. rewrite <- (app_assoc (mem s)).
         rewrite <- (app_nil_r (mem s ++ _)). apply (Hpat []).
      -- exact Hre.
    * apply (Hend [OList []; OList []]); try reflexivity.
      simpl. rewrite <- !app_assoc. reflexivity.
Qed.
End AdditionalProperties.

Lemma coercer_deletes_additional_properties_witness :
  exists s',
    coercer_validate_additionalProperties
      plain_lib (VRef 1%nat) (VStr "_data") (VRef 6%nat) (VBool false)
      (Validator [] [] [VStr "_data"] [VRef 1%nat] object_example_store)
    = Ok tt s' /\
    error_list s' = [] /\
    mem s' !! 0%nat = Some (ODict [("a", VInt 0); ("x1", VInt 3)]) /\
    mem s' !! 1%nat = Some (ODict [("_data", VRef 0%nat)]).
Proof.
  destruct (coercer_deletes_additional_properties
              plain_lib (VRef 1%nat) (VStr "_data") (VRef 6%nat) 0%nat
              [("a", VInt 0); ("b", VInt 1); ("c", VInt 2); ("x1", VInt 3)]
              [("properties", VRef 3%nat); ("patternProperties", VRef 5%nat);
               ("additionalProperties", VBool false)]
              [("a", VRef 2%nat)] [("x", VRef 4%nat)]
              (Validator [] [] [VStr "_data"] [VRef 1%nat] object_example_store))
    as (s' & Hrun & Herrs & _ & Hobject & Hothers).
  - reflexivity.
  - reflexivity.
  - simpl. repeat (apply NoDup_cons; split;
                   [rewrite ?elem_of_cons, elem_of_nil; intuition discriminate|]).
    apply NoDup_nil. exact I.
  - reflexivity.
  - reflexivity.
  - reflexivity.
  - intros q kv _ _. simpl. discriminate.
  - exists s'. split; [exact Hrun|]. split; [exact Herrs|].
    split; [exact Hobject|].
    apply (Hothers 1%nat); [simpl; lia|discriminate].
Defined.

(** ** Validation errors raised below the top-level call *)

(** C1 (defect of the code).  [validate_patternProperties] validates each
    matching value with the public [validate], which raises as soon as the
    list that is current there is not empty.  Inside the speculative scope of
    an inline-schema type the current list is the scope's own: the top-level
    call then raises a validation error that carries the record of [b.k]
    only, without the record already accumulated for [a].  With a valid
    [b.k] the walk completes and the record of [a] is the one reported.
    The depth [6 + n] is any depth that lets these walks finish. *)
Theorem nested_validate_raises_with_a_partial_list (n : nat) :
  outcome_of (run plain_lib SchemaValidator (6 + n)
                  (LDict [("a", LStr "x"); ("b", LDict [("k", LInt 1)])])
                  nested_example_schema)
  = Raised (ValidationError
              [ErrorRecord "incorrect-type" (VStr "b._data") (VStr "string")
                           (VInt 1)]) /\
  outcome_of (run plain_lib SchemaValidator (6 + n)
                  (LDict [("a", LStr "x"); ("b", LDict [("k", LStr "s")])])
                  nested_example_schema)
  = Raised (ValidationError
              [ErrorRecord "incorrect-type" (VStr "a") (VStr "integer")
                           (VStr "x")]).
Proof. split; vm_compute; reflexivity. Qed.

(** * Further properties of the evaluators *)

(** ** Bounds on numbers and lengths *)

Lemma with_errors_nil s : with_errors s [] = s.
Proof. destruct s. unfold with_errors. simpl. rewrite app_nil_r. reflexivity. Qed.

Lemma error_run code message suppl p s :
  field_path s = Some p ->
  _error code message suppl s = Ok tt (with_errors s [ErrorRecord code p message suppl]).
Proof. apply error_appends. Qed.

Lemma get_mem_run {B} (k : heap -> M B) s : bind get_mem k s = k (mem s) s.
Proof. reflexivity. Qed.

Lemma Qcompare_inject a b : Qcompare (inject_Z a) (inject_Z b) = (a ?= b).
Proof. unfold Qcompare. simpl. rewrite !Z.mul_1_r. reflexivity. Qed.

Lemma compare_numbers lib h a b q r :
  num_of a = Some q -> num_of b = Some r ->
  compare_values lib h a b = inr (Qcompare q r).
Proof. intros Ha Hb. unfold compare_values. rewrite Ha, Hb. reflexivity. Qed.



Lemma py_len_run v n s : len (mem s) v = inr n -> py_len v s = Ok n s.
Proof. intros H. unfold py_len. rewrite get_mem_run, H. reflexivity. Qed.

Lemma lt_integers lib h a b : lt lib h (VInt a) (VInt b) = inr (a <? b).
Proof.
  unfold lt. rewrite (compare_numbers lib h (VInt a) (VInt b) _ _ eq_refl eq_refl).
  rewrite Qcompare_inject. unfold Z.ltb. destruct (a ?= b); reflexivity.
Qed.

Lemma gt_integers lib h a b : gt lib h (VInt a) (VInt b) = inr (b <? a).
Proof.
  unfold gt. rewrite (compare_numbers lib h (VInt a) (VInt b) _ _ eq_refl eq_refl).
  rewrite Qcompare_inject. rewrite Z.ltb_antisym, Z.leb_compare.
  destruct (a ?= b); reflexivity.
Qed.

(** X3.  On a string, a list or a tuple of length [n], [validate_minLength]
    reports too-short exactly when [n < bound] and [validate_maxLength]
    reports too-long exactly when [bound < n]; the record carries the bound
    and the length.  [validate_minItems] and [validate_maxItems] are these
    same two methods. *)
Theorem length_bounds (lib : PyLib) (x fieldname schema v p : value)
        (n bound : Z) (s : validator) :
  getitem (mem s) x fieldname = Found v ->
  (is_str v || is_list_or_tuple (mem s) v)%bool = true ->
  len (mem s) v = inr n ->
  field_path s = Some p ->
  validate_minLength lib x fieldname schema (VInt bound) s =
    Ok tt (if n <? bound
           then with_errors s [ErrorRecord "too-short" p (VInt bound) (VInt n)]
           else s) /\
  validate_maxLength lib x fieldname schema (VInt bound) s =
    Ok tt (if bound <? n
           then with_errors s [ErrorRecord "too-long" p (VInt bound) (VInt n)]
           else s) /\
  validate_minItems lib x fieldname schema (VInt bound) s =
    validate_minLength lib x fieldname schema (VInt bound) s /\
  validate_maxItems lib x fieldname schema (VInt bound) s =
    validate_maxLength lib x fieldname schema (VInt bound) s.
Proof.
  intros Hx Hk Hn Hp. repeat split.
  - unfold validate_minLength.
    rewrite (bind_run _ _ _ _ _ (get_found x fieldname VNone _ s Hx)).
    rewrite get_mem_run, Hk.
    rewrite (bind_run _ _ _ _ _ (py_len_run _ _ _ Hn)).
    rewrite lt_integers. simpl. unfold bind at 1, ret at 1.
    destruct (n <? bound); simpl; [apply error_run, Hp|reflexivity].
  - unfold validate_maxLength.
    rewrite (bind_run _ _ _ _ _ (get_found x fieldname VNone _ s Hx)).
    rewrite get_mem_run, Hk.
    rewrite (bind_run _ _ _ _ _ (py_len_run _ _ _ Hn)).
    rewrite gt_integers. simpl. unfold bind at 1, ret at 1.
    destruct (bound <? n); simpl; [apply error_run, Hp|reflexivity].
Qed.

Lemma py_eq_numbers fuel h a b q r :
  num_of a = Some q -> num_of b = Some r ->
  py_eq fuel h a b = Some (Qeq_bool q r).
Proof. intros Ha Hb. destruct fuel; simpl; rewrite Ha, Hb; reflexivity. Qed.

Lemma Qeq_bool_inject a b : Qeq_bool (inject_Z a) (inject_Z b) = (a =? b).
Proof.
  unfold Qeq_bool. simpl. rewrite !Z.mul_1_r.
  reflexivity.
Qed.

Lemma py_equal_integers a b s : py_equal (VInt a) (VInt b) s = Ok (a =? b) s.
Proof.
  unfold py_equal. rewrite get_mem_run. unfold equal.
  rewrite (py_eq_numbers _ _ (VInt a) (VInt b) _ _ eq_refl eq_refl), Qeq_bool_inject.
  reflexivity.
Qed.

(** X4.  [validate_divisibleBy] on an integer [a] with an integer divisor [d]
    that is not zero: not-divisible-by is reported exactly when [a mod d] is
    not zero, the remainder having the sign of the divisor as in Python. *)
Theorem divisibleBy_on_integers (lib : PyLib) (x fieldname schema p : value)
        (a d : Z) (s : validator) :
  getitem (mem s) x fieldname = Found (VInt a) ->
  d <> 0 ->
  field_path s = Some p ->
  validate_divisibleBy lib x fieldname schema (VInt d) s =
  Ok tt (if a mod d =? 0 then s
         else with_errors s [ErrorRecord "not-divisible-by" p (VInt d) (VInt a)]).
Proof.
  intros Hx Hd Hp. unfold validate_divisibleBy.
  rewrite (bind_run _ _ _ _ _ (get_found x fieldname VNone _ s Hx)).
  rewrite get_mem_run. cbn [validate_type_number negb].
  rewrite (bind_run _ _ _ _ _ (py_equal_integers d 0 s)).
  destruct (Z.eqb_spec d 0) as [|_]; [contradiction|].
  simpl. unfold bind at 1, ret at 1.
  rewrite (bind_run _ _ _ _ _ (py_equal_integers (a mod d) 0 s)).
  destruct (a mod d =? 0); simpl; [reflexivity|apply error_run, Hp].
Qed.



Lemma length_bounds_witness :
  (* the string "abc" against a bound of 5 *)
  let s := field_example (VStr "abc") [] in
  validate_minLength plain_lib (VRef 0%nat) (VStr "_data") VNone (VInt 5) s
  = Ok tt (with_errors s [ErrorRecord "too-short" VNone (VInt 5) (VInt 3)]) /\
  validate_maxLength plain_lib (VRef 0%nat) (VStr "_data") VNone (VInt 5) s
  = Ok tt s.
Proof.
  intros s.
  pose proof (length_bounds plain_lib (VRef 0%nat) (VStr "_data") VNone
                (VStr "abc") VNone 3 5 s eq_refl eq_refl eq_refl eq_refl)
    as (Hmin & Hmax & _).
  exact (conj Hmin Hmax).
Defined.

Lemma divisibleBy_on_integers_witness :
  let s := field_example (VInt 7) [] in
  validate_divisibleBy plain_lib (VRef 0%nat) (VStr "_data") VNone (VInt 2) s
  = Ok tt (with_errors s [ErrorRecord "not-divisible-by" VNone (VInt 2) (VInt 7)]).
Proof.
  intros s.
  refine (divisibleBy_on_integers plain_lib (VRef 0%nat) (VStr "_data") VNone
            VNone 7 2 s eq_refl _ eq_refl).
  discriminate.
Defined.

(** ** Counts, membership and enumerations *)

(** X5.  On an object of [length kvs] keys, [validate_minProperties] reports
    not-enough-properties exactly when the count is below the bound, and
    [validate_maxProperties] reports too-many-properties under the very same
    condition, the count being below the bound: an object with more keys
    than the maximum passes. *)
Theorem property_count_bounds (lib : PyLib) (x fieldname schema p : value)
        (l : loc) (kvs : list (string * value)) (bound : Z) (s : validator) :
  getitem (mem s) x fieldname = Found (VRef l) ->
  mem s !! l = Some (ODict kvs) ->
  field_path s = Some p ->
  validate_minProperties lib x fieldname schema (VInt bound) s =
    Ok tt (if Z.of_nat (length kvs) <? bound
           then with_errors s [ErrorRecord "not-enough-properties" p VNone VNone]
           else s) /\
  validate_maxProperties lib x fieldname schema (VInt bound) s =
    Ok tt (if Z.of_nat (length kvs) <? bound
           then with_errors s [ErrorRecord "too-many-properties" p VNone VNone]
           else s).
Proof.
  intros Hx Hl Hp.
  assert (Hd : is_dict (mem s) (VRef l) = true)
    by (unfold is_dict, deref; rewrite Hl; reflexivity).
  assert (Hn : len (mem s) (VRef l) = inr (Z.of_nat (length kvs)))
    by (unfold len; rewrite Hl; reflexivity).
  split.
  - unfold validate_minProperties.
    rewrite (bind_run _ _ _ _ _ (get_found x fieldname VNone _ s Hx)).
    rewrite get_mem_run, Hd.
    rewrite (bind_run _ _ _ _ _ (py_len_run _ _ _ Hn)).
    rewrite lt_integers. simpl. unfold bind at 1, ret at 1.
    destruct (_ <? bound); simpl; [apply error_run, Hp|reflexivity].
  - unfold validate_maxProperties.
    rewrite (bind_run _ _ _ _ _ (get_found x fieldname VNone _ s Hx)).
    rewrite get_mem_run, Hd.
    rewrite (bind_run _ _ _ _ _ (py_len_run _ _ _ Hn)).
    rewrite lt_integers. simpl. unfold bind at 1, ret at 1.
    destruct (_ <? bound); simpl; [apply error_run, Hp|reflexivity].
Qed.

Lemma equal_integers h a b : equal h (VInt a) (VInt b) = inr (a =? b).
Proof.
  unfold equal.
  rewrite (py_eq_numbers _ _ (VInt a) (VInt b) _ _ eq_refl eq_refl).
  rewrite Qeq_bool_inject. reflexivity.
Qed.

Lemma mem_seq_integers h a ns :
  mem_seq h (VInt a) (map VInt ns) = inr (bool_decide (a ∈ ns)).
Proof.
  induction ns as [|n ns IH]; simpl; [reflexivity|].
  rewrite equal_integers. destruct (Z.eqb_spec a n) as [->|Hne].
  - rewrite bool_decide_eq_true_2 by left. reflexivity.
  - rewrite IH. f_equal. apply bool_decide_ext.
    rewrite elem_of_cons. tauto.
Qed.

(** X6.  [validate_required] tests [fieldname in x].  On a mapping this is
    the presence of the key.  On a list of integers it is the presence of
    [fieldname] among the items, not the existence of that index: the index
    [i] of a list is reported missing exactly when no item of the list is
    equal to [i], and [required] is truthy. *)
Theorem required_tests_membership (fieldname schema required p : value)
        (l : loc) (s : validator) :
  field_path s = Some p ->
  (forall kvs k,
      mem s !! l = Some (ODict kvs) ->
      validate_required (VRef l) (VStr k) schema required s =
      Ok tt (if (bool_decide (assoc k kvs = None) && truthy (mem s) required)%bool
             then with_errors s [ErrorRecord "missing-required" p VNone VNone]
             else s)) /\
  (forall ns i,
      mem s !! l = Some (OList (map VInt ns)) ->
      validate_required (VRef l) (VInt i) schema required s =
      Ok tt (if (bool_decide (i ∉ ns) && truthy (mem s) required)%bool
             then with_errors s [ErrorRecord "missing-required" p VNone VNone]
             else s)).
Proof.
  intros Hp. split.
  - intros kvs k Hl. unfold validate_required.
    rewrite (bind_run _ _ s
               (match assoc k kvs with Some _ => true | None => false end) s).
    2:{ apply py_contains_run. unfold contains. rewrite Hl. reflexivity. }
    rewrite get_mem_run.
    destruct (assoc k kvs); simpl; [reflexivity|].
    destruct (truthy (mem s) required); simpl; [apply error_run, Hp|reflexivity].
  - intros ns i Hl. unfold validate_required.
    rewrite (bind_run _ _ s (bool_decide (i ∈ ns)) s).
    2:{ apply py_contains_run. unfold contains. rewrite Hl.
        apply mem_seq_integers. }
    rewrite get_mem_run.
    destruct (decide (i ∈ ns)) as [Hin|Hin].
    + rewrite (bool_decide_eq_true_2 _ Hin).
      rewrite bool_decide_eq_false_2 by tauto. reflexivity.
    + rewrite (bool_decide_eq_false_2 _ Hin).
      rewrite (bool_decide_eq_true_2 _ Hin). simpl.
      destruct (truthy (mem s) required); simpl;
        [apply error_run, Hp|reflexivity].
Qed.

(** X7.  [validate_enum] on an integer against a list or a tuple of
    integers: not-in-enumeration is reported exactly when the value is not
    one of them; the record carries the enumeration and the value. *)
Theorem enum_on_integers (x fieldname schema options p : value)
        (a : Z) (l : loc) (opts : list Z) (s : validator) :
  getitem (mem s) x fieldname = Found (VInt a) ->
  mem s !! l = Some (OList (map VInt opts)) \/
  mem s !! l = Some (OTuple (map VInt opts)) ->
  field_path s = Some p ->
  validate_enum x fieldname schema (VRef l) s =
  Ok tt (if bool_decide (a ∈ opts) then s
         else with_errors s [ErrorRecord "not-in-enumeration" p (VRef l) (VInt a)]).
Proof.
  intros Hx Hl Hp. unfold validate_enum.
  rewrite (bind_run _ _ _ _ _ (get_found x fieldname VNone _ s Hx)).
  rewrite get_mem_run. cbn [is_none].
  assert (Hc : is_container (mem s) (VRef l) = true)
    by (unfold is_container; destruct Hl as [-> | ->]; reflexivity).
  rewrite Hc. cbn [negb].
  rewrite (bind_run _ _ s (bool_decide (a ∈ opts)) s).
  2:{ apply py_contains_run. unfold contains.
      destruct Hl as [-> | ->]; apply mem_seq_integers. }
  destruct (bool_decide (a ∈ opts)); simpl; [reflexivity|apply error_run, Hp].
Qed.

Lemma get_missing x field default s :
  getitem (mem s) x field = NoKey \/ getitem (mem s) x field = NoIndex ->
  get x field default s = Ok default s.
Proof.
  intros H. unfold get. rewrite get_mem_run. destruct H as [-> | ->]; reflexivity.
Qed.

Lemma property_count_bounds_witness :
  (* an object of one key against a bound of 2 *)
  let s := field_example (VRef 1%nat) [ODict [("a", VInt 1)]] in
  validate_minProperties plain_lib (VRef 0%nat) (VStr "_data") VNone (VInt 2) s
  = Ok tt (with_errors s [ErrorRecord "not-enough-properties" VNone VNone VNone])
  /\
  validate_maxProperties plain_lib (VRef 0%nat) (VStr "_data") VNone (VInt 2) s
  = Ok tt (with_errors s [ErrorRecord "too-many-properties" VNone VNone VNone]).
Proof.
  intros s.
  exact (property_count_bounds plain_lib (VRef 0%nat) (VStr "_data") VNone VNone
           1%nat [("a", VInt 1)] 2 s eq_refl eq_refl eq_refl).
Defined.

Lemma required_tests_membership_witness :
  (* index 0 of the list [5; 7], and index 0 of the list [0] *)
  let s := field_example (VRef 1%nat) [OList [VInt 5; VInt 7]; OList [VInt 0]] in
  validate_required (VRef 1%nat) (VInt 0) VNone (VBool true) s
  = Ok tt (with_errors s [ErrorRecord "missing-required" VNone VNone VNone]) /\
  validate_required (VRef 2%nat) (VInt 0) VNone (VBool true) s = Ok tt s /\
  validate_required (VRef 0%nat) (VStr "other") VNone (VBool true) s
  = Ok tt (with_errors s [ErrorRecord "missing-required" VNone VNone VNone]).
Proof.
  intros s. split; [|split].
  - exact (proj2 (required_tests_membership VNone VNone (VBool true) VNone
                    1%nat s eq_refl) [5; 7] 0 eq_refl).
  - exact (proj2 (required_tests_membership VNone VNone (VBool true) VNone
                    2%nat s eq_refl) [0] 0 eq_refl).
  - exact (proj1 (required_tests_membership VNone VNone (VBool true) VNone
                    0%nat s eq_refl) [("_data", VRef 1%nat)] "other" eq_refl).
Defined.

Lemma enum_on_integers_witness :
  let s := field_example (VInt 3) [OList [VInt 1; VInt 2]] in
  validate_enum (VRef 0%nat) (VStr "_data") VNone (VRef 1%nat) s
  = Ok tt (with_errors s [ErrorRecord "not-in-enumeration" VNone (VRef 1%nat)
                                      (VInt 3)]).
Proof.
  intros s.
  exact (enum_on_integers (VRef 0%nat) (VStr "_data") VNone VNone VNone 3
           1%nat [1; 2] s eq_refl (or_introl eq_refl) eq_refl).
Defined.

(** ** Unique items *)

Lemma with_errors_app s l1 l2 :
  with_errors (with_errors s l1) l2 = with_errors s (l1 ++ l2).
Proof. unfold with_errors. simpl. rewrite app_assoc. reflexivity. Qed.

Lemma hashable_scalar fuel h v :
  (forall l, v <> VRef l) -> hashable fuel h v = true.
Proof. intros Hv. destruct fuel, v; try reflexivity; exfalso; eapply Hv; eauto. Qed.

Lemma unique_scan_integers p ns :
  forall hs us earlier s,
    (forall a, a ∈ hs <-> a ∈ earlier) ->
    field_path s = Some p ->
    unique_scan (map VInt ns) (map VInt hs) us s =
    Ok tt (with_errors s (map (fun n => ErrorRecord "not-unique" p (VInt n) VNone)
                              (repeats earlier ns))).
Proof.
  induction ns as [|n ns IH]; intros hs us earlier s Hseen Hp; simpl.
  - rewrite with_errors_nil. reflexivity.
  - rewrite get_mem_run.
    replace (is_list (mem s) (VInt n) || is_dict (mem s) (VInt n))%bool
      with false by reflexivity.
    unfold is_hashable. rewrite hashable_scalar by discriminate.
    rewrite mem_seq_integers. simpl lift.
    unfold bind at 1, ret at 1.
    destruct (decide (n ∈ hs)) as [Hin|Hin].
    + rewrite (bool_decide_eq_true_2 _ Hin).
      rewrite (bool_decide_eq_true_2 (n ∈ earlier)) by (apply Hseen, Hin).
      rewrite (bind_run _ _ _ _ _ (error_run _ _ _ _ _ Hp)).
      rewrite (IH hs us (earlier ++ [n])); [|
        intros a; rewrite elem_of_app, list_elem_of_singleton, <- Hseen;
        split; [tauto|intros [H| ->]; assumption] | exact Hp].
      rewrite with_errors_app. reflexivity.
    + rewrite (bool_decide_eq_false_2 _ Hin).
      rewrite (bool_decide_eq_false_2 (n ∈ earlier)) by (rewrite <- Hseen; exact Hin).
      change (map VInt hs ++ [VInt n]) with (map VInt hs ++ map VInt [n]).
      rewrite <- map_app.
      apply (IH (hs ++ [n]) us (earlier ++ [n])); [|exact Hp].
      intros a. rewrite !elem_of_app, Hseen. tauto.
Qed.

Lemma repeats_none earlier ns :
  repeats earlier ns = [] <-> NoDup ns /\ forall n, n ∈ ns -> n ∉ earlier.
Proof.
  revert earlier. induction ns as [|n ns IH]; intros earlier; simpl.
  - split; [intros _; split; [constructor|intros n H; inversion H]|reflexivity].
  - rewrite NoDup_cons. split.
    + intros H. apply app_eq_nil in H as [H1 H2].
      apply IH in H2 as [Hnd Hall].
      destruct (decide (n ∈ earlier)) as [Hin|Hin];
        [rewrite (bool_decide_eq_true_2 _ Hin) in H1; discriminate|].
      split; [split; [|exact Hnd]|].
      * intros Hn. apply (Hall n Hn). rewrite elem_of_app, list_elem_of_singleton.
        auto.
      * intros a Ha. apply elem_of_cons in Ha as [->|Ha]; [exact Hin|].
        intros Hae. apply (Hall a Ha). rewrite elem_of_app. auto.
    + intros [[Hn Hnd] Hall].
      rewrite bool_decide_eq_false_2 by (apply Hall; left). simpl.
      apply IH. split; [exact Hnd|].
      intros a Ha. rewrite elem_of_app, list_elem_of_singleton.
      intros [Hae| ->]; [|contradiction].
      apply (Hall a); [right; exact Ha|exact Hae].
Qed.

(** X8.  [validate_uniqueItems] on a list or a tuple of integers, with
    anything but [False] as its argument: one not-unique record for every
    item that is equal to an earlier item, in the order of the items, each
    carrying the repeated item.  Nothing is reported exactly when the items
    are pairwise different. *)
Theorem uniqueItems_reports_every_repeat
        (x fieldname schema uniqueItems p : value) (l : loc) (ns : list Z)
        (s : validator) :
  getitem (mem s) x fieldname = Found (VRef l) ->
  mem s !! l = Some (OList (map VInt ns)) \/
  mem s !! l = Some (OTuple (map VInt ns)) ->
  uniqueItems <> VBool false ->
  field_path s = Some p ->
  validate_uniqueItems x fieldname schema uniqueItems s =
    Ok tt (with_errors s (map (fun n => ErrorRecord "not-unique" p (VInt n) VNone)
                              (repeats [] ns))) /\
  (repeats [] ns = [] <-> NoDup ns).
Proof.
  intros Hx Hl Hu Hp. split.
  - unfold validate_uniqueItems. rewrite get_mem_run.
    assert (Hb : (is_bool uniqueItems && negb (truthy (mem s) uniqueItems))%bool
                 = false).
    { destruct uniqueItems as [| [|] | | | | |]; try reflexivity. congruence. }
    rewrite Hb.
    rewrite (bind_run _ _ _ _ _ (get_found x fieldname VNone _ s Hx)).
    assert (Hlt : is_list_or_tuple (mem s) (VRef l) = true)
      by (unfold is_list_or_tuple, deref; destruct Hl as [-> | ->]; reflexivity).
    rewrite Hlt. cbn [negb].
    rewrite (bind_run _ _ s (map VInt ns) s).
    2:{ unfold py_iterate. rewrite get_mem_run. unfold iterate.
        destruct Hl as [-> | ->]; reflexivity. }
    apply (unique_scan_integers p ns [] [] [] s); [tauto|exact Hp].
  - rewrite repeats_none. split; [tauto|].
    intros H. split; [exact H|]. intros n _ Hn. inversion Hn.
Qed.

Lemma uniqueItems_reports_every_repeat_witness :
  let s := field_example (VRef 1%nat) [OList [VInt 1; VInt 2; VInt 1; VInt 1]] in
  validate_uniqueItems (VRef 0%nat) (VStr "_data") VNone (VBool true) s
  = Ok tt (with_errors s [ErrorRecord "not-unique" VNone (VInt 1) VNone;
                          ErrorRecord "not-unique" VNone (VInt 1) VNone]).
Proof.
  intros s.
  refine (proj1 (uniqueItems_reports_every_repeat (VRef 0%nat) (VStr "_data")
                   VNone (VBool true) VNone 1%nat [1; 2; 1; 1] s
                   eq_refl (or_introl eq_refl) _ eq_refl)).
  discriminate.
Defined.

(** ** Dependencies *)

Lemma dependencies_loop p lx kvs ds s :
  mem s !! lx = Some (ODict kvs) ->
  field_path s = Some p ->
  for_each (map VStr ds)
    (fun dependency =>
       let* present := py_contains dependency (VRef lx) in
       if present then ret true
       else _error "dependency" dependency VNone ;; ret false) s
  = match List.find (fun d => negb (is_key d kvs)) ds with
    | Some d => Ok false (with_errors s [ErrorRecord "dependency" p (VStr d) VNone])
    | None => Ok true s
    end.
Proof.
  intros Hlx Hp. induction ds as [|d ds IH]; simpl; [reflexivity|].
  unfold bind at 1.
  rewrite (bind_run (py_contains _ _) _ s (is_key d kvs) s).
  2:{ apply py_contains_run. unfold contains. rewrite Hlx. reflexivity. }
  destruct (is_key d kvs); simpl.
  - exact IH.
  - rewrite (bind_run _ _ _ _ _ (error_run _ _ _ _ _ Hp)). reflexivity.
Qed.

(** X9.  [validate_dependencies] for a field that is present and not
    [None].  With a list or a tuple of names it reports the first name that
    is not a key of the object, and that one only; nothing when all are
    keys.  A single name is first wrapped in a new list, which stays in the
    store, and is reported exactly when it is not a key of the object. *)
Theorem dependencies_report_first_missing
        (fieldname schema v p : value) (lx : loc) (kvs : list (string * value))
        (s : validator) :
  getitem (mem s) (VRef lx) fieldname = Found v ->
  v <> VNone ->
  mem s !! lx = Some (ODict kvs) ->
  field_path s = Some p ->
  (forall ld ds,
      mem s !! ld = Some (OList (map VStr ds)) \/
      mem s !! ld = Some (OTuple (map VStr ds)) ->
      validate_dependencies (VRef lx) fieldname schema (VRef ld) s =
      Ok tt (match List.find (fun d => negb (is_key d kvs)) ds with
             | Some d => with_errors s [ErrorRecord "dependency" p (VStr d) VNone]
             | None => s
             end)) /\
  (forall d,
      validate_dependencies (VRef lx) fieldname schema (VStr d) s =
      let s1 := with_mem s (mem s ++ [OList [VStr d]]) in
      Ok tt (if is_key d kvs then s1
             else with_errors s1 [ErrorRecord "dependency" p (VStr d) VNone])).
Proof.
  intros Hx Hv Hlx Hp.
  assert (Hn : is_none v = false) by (destruct v; simpl; congruence).
  split.
  - intros ld ds Hld. unfold validate_dependencies.
    rewrite (bind_run _ _ _ _ _ (get_found _ fieldname VNone _ s Hx)).
    rewrite Hn. cbn [is_str]. unfold bind at 1, ret at 1.
    rewrite get_mem_run.
    assert (Hlt : is_list_or_tuple (mem s) (VRef ld) = true)
      by (unfold is_list_or_tuple, deref; destruct Hld as [-> | ->]; reflexivity).
    rewrite Hlt.
    rewrite (bind_run _ _ s (map VStr ds) s).
    2:{ unfold py_iterate. rewrite get_mem_run. unfold iterate.
        destruct Hld as [-> | ->]; reflexivity. }
    unfold bind at 1. rewrite (dependencies_loop p lx kvs ds s Hlx Hp).
    destruct (List.find _ ds); reflexivity.
  - intros d. unfold validate_dependencies.
    rewrite (bind_run _ _ _ _ _ (get_found _ fieldname VNone _ s Hx)).
    rewrite Hn. cbn [is_str].
    rewrite (bind_run _ _ _ _ _ (new_run _ s)).
    set (s1 := with_mem s (mem s ++ [OList [VStr d]])).
    rewrite get_mem_run.
    assert (Hnew : mem s1 !! length (mem s) = Some (OList [VStr d])).
    { simpl. rewrite lookup_app_r by lia. rewrite Nat.sub_diag. reflexivity. }
    unfold is_list_or_tuple, deref. rewrite Hnew.
    rewrite (bind_run _ _ s1 (map VStr [d]) s1).
    2:{ unfold py_iterate. rewrite get_mem_run. unfold iterate.
        rewrite Hnew. reflexivity. }
    unfold bind at 1.
    rewrite (dependencies_loop p lx kvs [d] s1);
      [|simpl; apply lookup_app_l_Some, Hlx|exact Hp].
    simpl. destruct (is_key d kvs); reflexivity.
Qed.

Lemma dependencies_report_first_missing_witness :
  (* the field a depends on b, c and d; only a and c are there *)
  let s := Validator [] [] [VStr "a"; VStr "_data"] [VRef 0%nat]
             [ODict [("a", VInt 1); ("c", VInt 2)];
              OList [VStr "b"; VStr "c"; VStr "d"]] in
  validate_dependencies (VRef 0%nat) (VStr "a") VNone (VRef 1%nat) s
  = Ok tt (with_errors s [ErrorRecord "dependency" (VStr "a") (VStr "b") VNone]).
Proof.
  intros s.
  refine (proj1 (dependencies_report_first_missing (VStr "a") VNone (VInt 1)
                   (VStr "a") 0%nat [("a", VInt 1); ("c", VInt 2)] s
                   eq_refl _ eq_refl eq_refl)
                1%nat ["b"; "c"; "d"] (or_introl eq_refl)).
  discriminate.
Defined.

(** ** Formats, additional items and disallowed types *)


Lemma subscript_run x field v s :
  getitem (mem s) x field = Found v -> subscript x field s = Ok v s.
Proof. intros H. unfold subscript. rewrite get_mem_run, H. reflexivity. Qed.

Lemma getitem_key h l kvs k :
  h !! l = Some (ODict kvs) ->
  getitem h (VRef l) (VStr k)
  = match assoc k kvs with Some v => Found v | None => NoKey end.
Proof. intros H. unfold getitem. rewrite H. reflexivity. Qed.

Lemma contains_key h l kvs k :
  h !! l = Some (ODict kvs) ->
  contains h (VStr k) (VRef l) = inr (is_key k kvs).
Proof. intros H. unfold contains. rewrite H. reflexivity. Qed.

Lemma slice_from_run l vs n s :
  mem s !! l = Some (OList vs) ->
  slice_from (VRef l) n s
  = Ok (VRef (length (mem s)))
       (with_mem s (mem s ++ [OList (drop (Z.to_nat n) vs)])).
Proof.
  intros H. unfold slice_from. rewrite get_mem_run. unfold deref. rewrite H.
  reflexivity.
Qed.

(** X11.  [validate_additionalItems] on a list.  With [False] and [items]
    in the schema, incorrect-list-length is reported exactly when the length
    of the list differs from the length of [items]; with equal lengths the
    empty remainder [value[len(items):]] is built and nothing is validated.
    With a schema as [additionalItems] and no [items] in the schema, the
    method raises [KeyError]. *)
Theorem additionalItems_false_checks_the_length
        (self : methods) (x fieldname p : value) (lv ls : loc)
        (vs : list value) (sch : list (string * value)) (s : validator) :
  getitem (mem s) x fieldname = Found (VRef lv) ->
  mem s !! lv = Some (OList vs) ->
  mem s !! ls = Some (ODict sch) ->
  field_path s = Some p ->
  (forall items m,
      assoc "items" sch = Some items ->
      len (mem s) items = inr m ->
      validate_additionalItems self x fieldname (VRef ls) (VBool false) s =
      Ok tt (if Z.of_nat (length vs) =? m
             then with_mem s (mem s ++ [OList []])
             else with_errors s [ErrorRecord "incorrect-list-length" p VNone VNone]))
  /\
  (forall la, is_dict (mem s) (VRef la) = true ->
              assoc "items" sch = None ->
              validate_additionalItems self x fieldname (VRef ls) (VRef la) s =
              Raise KeyError).
Proof.
  intros Hx Hlv Hls Hp.
  assert (Hlt : is_list_or_tuple (mem s) (VRef lv) = true)
    by (unfold is_list_or_tuple, deref; rewrite Hlv; reflexivity).
  assert (Hn : len (mem s) (VRef lv) = inr (Z.of_nat (length vs)))
    by (unfold len; rewrite Hlv; reflexivity).
  split.
  - intros items m Hitems Hm. unfold validate_additionalItems.
    rewrite (bind_run _ _ _ _ _ (get_found x fieldname VNone _ s Hx)).
    rewrite get_mem_run, Hlt. cbn [negb is_bool truthy orb].
    assert (Hsub : subscript (VRef ls) (VStr "items") s = Ok items s).
    { apply subscript_run. rewrite (getitem_key _ _ _ _ Hls), Hitems.
      reflexivity. }
    assert (Hhas : py_contains (VStr "items") (VRef ls) s = Ok true s).
    { apply py_contains_run. rewrite (contains_key _ _ _ _ Hls).
      unfold is_key. rewrite Hitems. reflexivity. }
    unfold bind at 1. rewrite (bind_run _ _ _ _ _ Hhas). cbn [negb].
    rewrite (bind_run _ _ _ _ _ Hsub).
    rewrite (bind_run _ _ _ _ _ (py_len_run _ _ _ Hn)).
    rewrite (bind_run _ _ _ _ _ (py_len_run _ _ _ Hm)).
    destruct (Z.eqb_spec (Z.of_nat (length vs)) m) as [E|E]; cbn [negb].
    + unfold ret at 1.
      rewrite (bind_run _ _ _ _ _ Hsub).
      rewrite (bind_run _ _ _ _ _ (py_len_run _ _ _ Hm)).
      rewrite (bind_run _ _ _ _ _ (slice_from_run _ _ _ _ Hlv)).
      rewrite drop_ge by lia.
      set (s1 := with_mem s (mem s ++ [OList []])).
      rewrite (bind_run _ _ s1 0 s1); [reflexivity|].
      apply py_len_run. simpl.
      rewrite lookup_app_r by lia. rewrite Nat.sub_diag. reflexivity.
    + rewrite (bind_run _ _ _ _ _ (error_run _ _ _ _ _ Hp)). reflexivity.
  - intros la Hla Hnone. unfold validate_additionalItems.
    rewrite (bind_run _ _ _ _ _ (get_found x fieldname VNone _ s Hx)).
    rewrite get_mem_run, Hlt. cbn [negb is_bool].
    unfold bind at 1, ret at 1. cbv iota.
    unfold bind at 1, subscript. rewrite get_mem_run.
    rewrite (getitem_key _ _ _ _ Hls), Hnone. reflexivity.
Qed.

Lemma type_checker_named c name checker :
  type_checker c name = Some checker -> name <> "".
Proof. intros H ->. discriminate. Qed.

Lemma base_named_type cfg self x fieldname schema name checker v p s :
  getitem (mem s) x fieldname = Found v ->
  type_checker (cls cfg) name = Some checker ->
  field_path s = Some p ->
  base_validate_type cfg self x fieldname schema (VStr name) s =
  Ok tt (if checker (mem s) v then s
         else with_errors s [ErrorRecord "incorrect-type" p (VStr name) v]).
Proof.
  intros Hx Hc Hp. unfold base_validate_type.
  rewrite get_mem_run, Hx. unfold bind at 1, ret at 1. cbv iota beta.
  assert (Ht : truthy (mem s) (VStr name) = true).
  { simpl. destruct (String.eqb_spec name "") as [E|E]; [|reflexivity].
    exfalso. exact (type_checker_named _ _ _ Hc E). }
  rewrite Ht. cbn [andb is_list_or_tuple is_dict deref]. rewrite Hc.
  destruct (checker (mem s) v); [reflexivity|].
  rewrite (bind_run _ _ _ _ _ (get_found x fieldname VNone _ s Hx)).
  apply error_run, Hp.
Qed.

Lemma wrapper_same {A} x fieldname (m : M A) os fs s :
  current_object s = x :: os ->
  py_is x x = true ->
  current_field s = field_label fieldname :: fs ->
  wrapper x fieldname m s = m s.
Proof.
  intros Ho Hi Hf. destruct s as [el es cf co h]. simpl in Ho, Hf. subst.
  unfold wrapper, bind, get_state, set_path. simpl. rewrite Hi. reflexivity.
Qed.

(** X12.  In the plain validators, [validate_disallow] with the name of a
    known type reports disallowed-type for every present value, whether or
    not the value has that type: the type check leaves at most one error in
    its scope, and the method returns silently only when more than one was
    left. *)
Theorem disallow_named_type_always_reports
        (lib : PyLib) (cfg : config) (depth : nat)
        (fieldname schema v p : value) (lx : loc) (name : string)
        (checker : heap -> value -> bool)
        (os fs : list value) (s : validator) :
  is_coercer (cls cfg) = false ->
  type_checker (cls cfg) name = Some checker ->
  getitem (mem s) (VRef lx) fieldname = Found v ->
  current_object s = VRef lx :: os ->
  current_field s = field_label fieldname :: fs ->
  field_path s = Some p ->
  validate_disallow (methods_at lib cfg (S depth)) (VRef lx) fieldname schema
                    (VStr name) s =
  Ok tt (with_errors s [ErrorRecord "disallowed-type" p (VStr name) v]).
Proof.
  intros Hcls Hc Hx Ho Hf Hp. unfold validate_disallow.
  set (s1 := if checker (mem s) v then opened s
             else with_errors (opened s)
                    [ErrorRecord "incorrect-type" p (VStr name) v]).
  assert (Hrun : validate_type (methods_at lib cfg (S depth)) (VRef lx)
                   fieldname schema (VStr name) (opened s) = Ok tt s1).
  { simpl. unfold wrapped. rewrite Hcls.
    rewrite (wrapper_same _ _ _ os fs (opened s) Ho (Nat.eqb_refl lx) Hf).
    apply (base_named_type cfg _ _ _ _ _ checker v p (opened s) Hx Hc Hp). }
  rewrite (scoped_forward _ _ s tt s1
             (proj2 (safe_methods_at lib cfg (S depth)) _ _ _ _) Hrun).
  assert (Hlen : (1 <? Z.of_nat (length (error_list s1))) = false)
    by (unfold s1; destruct (checker (mem s) v); reflexivity).
  rewrite Hlen.
  assert (Hclosed : closed s s1 = s)
    by (unfold s1; destruct (checker (mem s) v); destruct s; reflexivity).
  rewrite Hclosed.
  rewrite (bind_run _ _ _ _ _ (get_found _ fieldname VNone _ s Hx)).
  apply error_run, Hp.
Qed.


Lemma additionalItems_false_checks_the_length_witness :
  (* two elements against one positional schema *)
  let s := field_example (VRef 1%nat)
             [OList [VInt 1; VInt 2]; OList [VRef 3%nat]; ODict [];
              ODict [("items", VRef 2%nat); ("additionalItems", VBool false)]] in
  validate_additionalItems
    (methods_at plain_lib (make_config plain_lib SchemaValidator) 1)
    (VRef 0%nat) (VStr "_data") (VRef 4%nat) (VBool false) s
  = Ok tt (with_errors s [ErrorRecord "incorrect-list-length" VNone VNone VNone]).
Proof.
  intros s.
  exact (proj1 (additionalItems_false_checks_the_length
                  (methods_at plain_lib (make_config plain_lib SchemaValidator) 1)
                  (VRef 0%nat) (VStr "_data") VNone 1%nat 4%nat
                  [VInt 1; VInt 2]
                  [("items", VRef 2%nat); ("additionalItems", VBool false)] s
                  eq_refl eq_refl eq_refl eq_refl)
               (VRef 2%nat) 1 eq_refl eq_refl).
Defined.

Lemma disallow_named_type_always_reports_witness :
  (* the integer 5 is reported although it is not a string *)
  let s := field_example (VInt 5) [] in
  validate_disallow (methods_at plain_lib (make_config plain_lib SchemaValidator) 1)
                    (VRef 0%nat) (VStr "_data") VNone (VStr "string") s
  = Ok tt (with_errors s [ErrorRecord "disallowed-type" VNone (VStr "string")
                                      (VInt 5)]).
Proof.
  intros s.
  exact (disallow_named_type_always_reports plain_lib
           (make_config plain_lib SchemaValidator) 0 (VStr "_data") VNone
           (VInt 5) VNone 0%nat "string" validate_type_string [] [] s
           eq_refl eq_refl eq_refl eq_refl eq_refl eq_refl).
Defined.

(** ** Additional properties *)

(** The lookups of [properties] and [patternProperties] that both
    [validate_additionalProperties] start with: the continuation runs over
    the store of the call extended with the default objects. *)
Lemma schema_lookups {B} (K : value -> value -> M B) schema sch pk qk s :
  deref (mem s) schema = Some (ODict sch) ->
  declared_properties (mem s) sch = Some pk ->
  declared_patterns (mem s) sch = Some qk ->
  exists g properties patternProperties,
    (let* default1 := new (OList []) in
     let* properties := py_dict_get schema "properties" default1 in
     let* default2 := new (OList []) in
     let* patternProperties := py_dict_get schema "patternProperties" default2 in
     let* properties :=
       if is_none properties then new (ODict []) else ret properties in
     K properties patternProperties) s
    = K properties patternProperties (with_mem s (mem s ++ g)) /\
    (forall k, contains (mem s ++ g) (VStr k) properties
               = inr (match assoc k pk with Some _ => true | None => false end)) /\
    iterate (mem s ++ g) patternProperties
    = inr (map (fun kv => VStr (fst kv)) qk).
Proof.
  intros Hsch Hpk Hqk.
  rewrite (bind_run _ _ _ _ _ (new_run _ s)).
  set (s1 := with_mem s (mem s ++ [OList []])).
  rewrite (bind_run _ _ _ _ _
             (py_dict_get_run schema "properties" _ sch s1
                (deref_app _ _ _ _ Hsch))).
  rewrite (bind_run _ _ _ _ _ (new_run _ s1)).
  set (s2 := with_mem s1 (mem s1 ++ [OList []])).
  assert (Hsch2 : deref (mem s2) schema = Some (ODict sch)).
  { apply (deref_app (mem s1)), (deref_app (mem s)), Hsch. }
  rewrite (bind_run _ _ _ _ _
             (py_dict_get_run schema "patternProperties" _ sch s2 Hsch2)).
  assert (Hd1 : forall g, (mem s ++ OList [] :: g) !! length (mem s)
                          = Some (OList [])).
  { intros g. rewrite lookup_app_r by lia. rewrite Nat.sub_diag. reflexivity. }
  assert (Hd2 : forall g, (mem s ++ OList [] :: OList [] :: g)
                            !! length (mem s ++ [OList []])
                          = Some (OList [])).
  { intros g. rewrite length_app. simpl.
    rewrite lookup_app_r by lia.
    replace (length (mem s) + 1 - length (mem s))%nat with 1%nat by lia.
    reflexivity. }
  assert (Hpat : forall g,
    iterate (mem s ++ OList [] :: OList [] :: g)
            (match assoc "patternProperties" sch with
             | Some v => v
             | None => VRef (length (mem s1))
             end)
    = inr (map (fun kv => VStr (fst kv)) qk)).
  { intros g. unfold declared_patterns in Hqk.
    destruct (assoc "patternProperties" sch) as [v|].
    - destruct v as [| | | | | |lq]; simpl in Hqk; try discriminate.
      destruct (mem s !! lq) as [[qk'| |]|] eqn:Eq; try discriminate.
      injection Hqk as ->. apply iterate_dict.
      apply lookup_app_l_Some. exact Eq.
    - injection Hqk as <-. apply iterate_empty_list. apply Hd2. }
  unfold declared_properties in Hpk.
  destruct (assoc "properties" sch) as [v|] eqn:Ep.
  - destruct v as [| | | | | |lp]; simpl in Hpk; try discriminate.
    + (* properties: None *)
      injection Hpk as <-. cbn [is_none].
      rewrite (bind_run _ _ _ _ _ (new_run _ s2)).
      exists [OList []; OList []; ODict []]. eexists. eexists.
      split; [|split].
      * unfold s2, s1, with_mem. simpl. rewrite <- ?app_assoc. reflexivity.
      * intros k. simpl. unfold contains.
        rewrite (lookup_app_r (mem s)) by (rewrite !length_app; simpl; lia).
        rewrite !length_app. simpl.
        replace (length (mem s) + 2 - length (mem s))%nat with 2%nat by lia.
        reflexivity.
      * apply Hpat.
    + (* properties: a mapping *)
      destruct (mem s !! lp) as [[pk'| |]|] eqn:Elp; try discriminate.
      injection Hpk as ->. cbn [is_none].
      rewrite (bind_run _ _ s2 (VRef lp) s2 eq_refl).
      exists [OList []; OList []]. eexists. eexists.
      split; [|split].
      * unfold s2, s1, with_mem. simpl. rewrite <- ?app_assoc. reflexivity.
      * intros k. apply contains_in_dict. apply lookup_app_l_Some, Elp.
      * apply Hpat.
  - (* properties: absent *)
    injection Hpk as <-. cbn [is_none].
    rewrite (bind_run _ _ s2 (VRef (length (mem s))) s2 eq_refl).
    exists [OList []; OList []]. eexists. eexists.
    split; [|split].
    * unfold s2, s1, with_mem. simpl. rewrite <- ?app_assoc. reflexivity.
    * intros k. apply contains_in_empty_list. apply Hd1.
    * apply Hpat.
Qed.

Section MoreAdditionalProperties.
Context (lib : PyLib).

Lemma forbidden_loop properties patternProperties
      pk qk p (keys : list (string * value)) s :
  (forall k, contains (mem s) (VStr k) properties
             = inr (match assoc k pk with Some _ => true | None => false end)) ->
  iterate (mem s) patternProperties = inr (map (fun kv => VStr (fst kv)) qk) ->
  (forall q kv, In q qk -> In kv keys -> re_match lib (fst q) (fst kv) <> None) ->
  field_path s = Some p ->
  for_each keys
    (fun kv =>
       let* known := property_is_known lib properties patternProperties (fst kv) in
       if known then ret true
       else _error "forbidden-property" (VStr (fst kv)) VNone ;; ret false) s
  = match List.find (fun kv => negb (is_known lib pk qk (fst kv))) keys with
    | Some kv =>
        Ok false (with_errors s [ErrorRecord "forbidden-property" p
                                             (VStr (fst kv)) VNone])
    | None => Ok true s
    end.
Proof.
  intros Hc Hi Hre Hp. induction keys as [|kv keys IH]; simpl; [reflexivity|].
  unfold bind at 1.
  rewrite (bind_run (property_is_known lib _ _ _) _ _ _ _
             (property_is_known_run lib _ _ pk qk (fst kv) s (Hc _) Hi
                (fun q Hq => Hre q kv Hq (or_introl eq_refl)))).
  destruct (is_known lib pk qk (fst kv)); simpl.
  - apply IH. intros q kv' Hq Hkv. apply (Hre q kv' Hq). right. exact Hkv.
  - rewrite (bind_run _ _ _ _ _ (error_run _ _ _ _ _ Hp)). reflexivity.
Qed.

(** X13.  [validate_additionalProperties] of the plain validators with
    [False], when the patterns of [patternProperties] compile: the key
    reported as forbidden-property is the first key of the object, in the
    order of the object, that is neither declared in [properties] nor
    matched by a pattern; later unknown keys are not reported, and nothing
    is reported when every key is known.  The object is unchanged: the
    store only gains the lists of keys [g] the method builds. *)
Theorem forbidden_property_is_the_first_unknown_key
        (self : methods) (x fieldname schema p : value) (lv : nat)
        (kvs sch pk qk : list (string * value)) (s : validator) :
  getitem (mem s) x fieldname = Found (VRef lv) ->
  mem s !! lv = Some (ODict kvs) ->
  deref (mem s) schema = Some (ODict sch) ->
  declared_properties (mem s) sch = Some pk ->
  declared_patterns (mem s) sch = Some qk ->
  (forall q kv, In q qk -> In kv kvs -> re_match lib (fst q) (fst kv) <> None) ->
  field_path s = Some p ->
  exists g,
    validate_additionalProperties lib self x fieldname schema (VBool false) s
    = Ok tt (with_errors (with_mem s (mem s ++ g))
               match List.find (fun kv => negb (is_known lib pk qk (fst kv))) kvs with
               | Some kv => [ErrorRecord "forbidden-property" p (VStr (fst kv)) VNone]
               | None => []
               end).
Proof.
  intros Hx Hlv Hsch Hpk Hqk Hre Hp.
  unfold validate_additionalProperties.
  rewrite (bind_run _ _ _ _ _ (get_found x fieldname VNone _ s Hx)).
  rewrite get_mem_run.
  assert (Hd : is_dict (mem s) (VRef lv) = true)
    by (unfold is_dict, deref; rewrite Hlv; reflexivity).
  rewrite Hd. cbn [negb is_bool truthy andb orb].
  change (is_dict (mem s) (VBool false)) with false. cbn [orb]. cbv iota.
  destruct (schema_lookups
              (fun properties patternProperties =>
                 let* keys := py_items (VRef lv) in
                 for_each keys
                   (fun kv =>
                      let* known :=
                        property_is_known lib properties patternProperties (fst kv) in
                      if known then ret true
                      else _error "forbidden-property" (VStr (fst kv)) VNone ;;
                           ret false) ;;
                 ret tt)
              schema sch pk qk s Hsch Hpk Hqk)
    as (g & properties & patternProperties & Hrun & Hc & Hi).
  exists g. rewrite Hrun. clear Hrun.
  set (s0 := with_mem s (mem s ++ g)).
  rewrite (bind_run _ _ s0 kvs s0).
  2:{ unfold py_items. rewrite get_mem_run. unfold dict_items, deref. simpl.
      rewrite (lookup_app_l_Some _ _ _ _ Hlv). reflexivity. }
  unfold bind at 1.
  rewrite (forbidden_loop properties patternProperties
             pk qk p kvs s0 Hc Hi Hre Hp).
  destruct (List.find _ kvs); simpl.
  - reflexivity.
  - rewrite with_errors_nil. reflexivity.
Qed.

Lemma props_to_delete_schema properties patternProperties la pk qk
      (keys : list (string * value)) s :
  (forall k, contains (mem s) (VStr k) properties
             = inr (match assoc k pk with Some _ => true | None => false end)) ->
  iterate (mem s) patternProperties = inr (map (fun kv => VStr (fst kv)) qk) ->
  (forall q kv, In q qk -> In kv keys -> re_match lib (fst q) (fst kv) <> None) ->
  props_to_delete lib properties patternProperties (VRef la) keys s
  = if forallb (fun kv => is_known lib pk qk (fst kv)) keys
    then Ok [] s else Raise AttributeError.
Proof.
  intros Hc Hi. induction keys as [|kv keys IH]; intros Hre; simpl;
    [reflexivity|].
  rewrite (bind_run _ _ _ _ _
             (property_is_known_run lib _ _ pk qk (fst kv) s (Hc _) Hi
                (fun q Hq => Hre q kv Hq (or_introl eq_refl)))).
  destruct (is_known lib pk qk (fst kv)); simpl; [|reflexivity].
  apply IH. intros q kv' Hq Hkv. apply (Hre q kv' Hq). right. exact Hkv.
Qed.

(** X14.  [SchemaCoercer.validate_additionalProperties] with a schema as
    [additionalProperties], when the patterns compile: as soon as the object
    has a key that is neither declared nor matched by a pattern, the method
    raises [AttributeError] (it calls [self.__validate], which the class
    does not have under that name); when every key is known it returns
    without any error and leaves the object as it is. *)
Theorem coercer_cannot_apply_a_schema_to_additional_properties
        (x fieldname schema : value) (lv la : nat)
        (kvs sch pk qk : list (string * value)) (s : validator) :
  getitem (mem s) x fieldname = Found (VRef lv) ->
  mem s !! lv = Some (ODict kvs) ->
  is_dict (mem s) (VRef la) = true ->
  deref (mem s) schema = Some (ODict sch) ->
  declared_properties (mem s) sch = Some pk ->
  declared_patterns (mem s) sch = Some qk ->
  (forall q kv, In q qk -> In kv kvs -> re_match lib (fst q) (fst kv) <> None) ->
  if forallb (fun kv => is_known lib pk qk (fst kv)) kvs
  then exists g,
      coercer_validate_additionalProperties lib x fieldname schema (VRef la) s
      = Ok tt (with_mem s (mem s ++ g))
  else
    coercer_validate_additionalProperties lib x fieldname schema (VRef la) s
    = Raise AttributeError.
Proof.
  intros Hx Hlv Hla Hsch Hpk Hqk Hre.
  assert (Hrun : exists g,
    coercer_validate_additionalProperties lib x fieldname schema (VRef la) s
    = if forallb (fun kv => is_known lib pk qk (fst kv)) kvs
      then Ok tt (with_mem s (mem s ++ g)) else Raise AttributeError).
  { unfold coercer_validate_additionalProperties.
    rewrite (bind_run _ _ _ _ _ (get_found x fieldname VNone _ s Hx)).
    rewrite get_mem_run.
    assert (Hd : is_dict (mem s) (VRef lv) = true)
      by (unfold is_dict, deref; rewrite Hlv; reflexivity).
    rewrite Hd. cbn [negb is_bool andb]. cbv iota.
    rewrite (bind_run _ _ _ _ _ (get_found x fieldname VNone _ s Hx)).
    rewrite Hla. cbn [orb]. cbv iota.
    destruct (schema_lookups
                (fun properties patternProperties =>
                   let* keys := py_items (VRef lv) in
                   let* doomed :=
                     props_to_delete lib properties patternProperties (VRef la)
                                     keys in
                   for_each doomed
                     (fun prop => delitem (VRef lv) prop ;; ret true) ;;
                   ret tt)
                schema sch pk qk s Hsch Hpk Hqk)
      as (g & properties & patternProperties & Hrun & Hc & Hi).
    exists g. rewrite Hrun. clear Hrun.
    set (s0 := with_mem s (mem s ++ g)).
    rewrite (bind_run _ _ s0 kvs s0).
    2:{ unfold py_items. rewrite get_mem_run. unfold dict_items, deref. simpl.
        rewrite (lookup_app_l_Some _ _ _ _ Hlv). reflexivity. }
    unfold bind at 1.
    rewrite (props_to_delete_schema properties patternProperties la pk qk kvs s0
               Hc Hi Hre).
    destruct (forallb _ kvs); reflexivity. }
  destruct Hrun as (g & Hrun).
  destruct (forallb _ kvs); [exists g|]; exact Hrun.
Qed.
End MoreAdditionalProperties.

Lemma forbidden_property_is_the_first_unknown_key_witness :
  (* of the keys a, b, c and x1, a is declared and x1 matches a pattern *)
  let s := Validator [] [] [VStr "_data"] [VRef 1%nat] object_example_store in
  exists g,
    validate_additionalProperties
      plain_lib (methods_at plain_lib (make_config plain_lib SchemaValidator) 1)
      (VRef 1%nat) (VStr "_data") (VRef 6%nat) (VBool false) s
    = Ok tt (with_errors (with_mem s (mem s ++ g))
               [ErrorRecord "forbidden-property" VNone (VStr "b") VNone]).
Proof.
  intros s.
  refine (forbidden_property_is_the_first_unknown_key plain_lib
            (methods_at plain_lib (make_config plain_lib SchemaValidator) 1)
            (VRef 1%nat) (VStr "_data") (VRef 6%nat) VNone 0%nat
            [("a", VInt 0); ("b", VInt 1); ("c", VInt 2); ("x1", VInt 3)]
            [("properties", VRef 3%nat); ("patternProperties", VRef 5%nat);
             ("additionalProperties", VBool false)]
            [("a", VRef 2%nat)] [("x", VRef 4%nat)] s
            eq_refl eq_refl eq_refl eq_refl eq_refl _ eq_refl).
  intros q kv _ _. discriminate.
Defined.

Lemma coercer_cannot_apply_a_schema_to_additional_properties_witness :
  (* the keys b and c are neither declared nor matched *)
  let s := Validator [] [] [VStr "_data"] [VRef 1%nat] object_example_store in
  coercer_validate_additionalProperties
    plain_lib (VRef 1%nat) (VStr "_data") (VRef 6%nat) (VRef 2%nat) s
  = Raise AttributeError.
Proof.
  intros s.
  refine (coercer_cannot_apply_a_schema_to_additional_properties plain_lib
            (VRef 1%nat) (VStr "_data") (VRef 6%nat) 0%nat 2%nat
            [("a", VInt 0); ("b", VInt 1); ("c", VInt 2); ("x1", VInt 3)]
            [("properties", VRef 3%nat); ("patternProperties", VRef 5%nat);
             ("additionalProperties", VBool false)]
            [("a", VRef 2%nat)] [("x", VRef 4%nat)] s
            eq_refl eq_refl eq_refl eq_refl eq_refl eq_refl _).
  intros q kv _ _. discriminate.
Defined.

(** ** Positional item schemas and their defaults *)

Lemma defaults_of_ext h h' items :
  (forall i, i ∈ items -> item_default h' i = item_default h i) ->
  defaults_of h' items = defaults_of h items.
Proof.
  induction items as [|i items IH]; intros H; simpl; [reflexivity|].
  rewrite (H i) by left. rewrite IH by (intros j Hj; apply H; right; exact Hj).
  reflexivity.
Qed.

Lemma getitem_index h l vs (k : nat) :
  h !! l = Some (OList vs) ->
  getitem h (VRef l) (VInt (Z.of_nat k))
  = match vs !! k with Some v => Found v | None => NoIndex end.
Proof.
  intros H. unfold getitem. rewrite H. cbn [as_index]. unfold position.
  destruct (Z.leb_spec 0 (Z.of_nat k)); [|lia].
  destruct (Z.ltb_spec (Z.of_nat k) (Z.of_nat (length vs))).
  - rewrite Nat2Z.id. destruct (vs !! k); reflexivity.
  - rewrite (lookup_ge_None_2 vs k) by lia. reflexivity.
Qed.

Lemma append_run l vs v s :
  mem s !! l = Some (OList vs) ->
  append (VRef l) v s = Ok tt (with_mem s (<[l := OList (vs ++ [v])]> (mem s))).
Proof. intros H. unfold append. rewrite get_mem_run, H. reflexivity. Qed.

Lemma deref_insert_other h l o v o' :
  h !! l = Some (OList o) ->
  deref h v = Some (ODict o') ->
  forall new, deref (<[l := new]> h) v = Some (ODict o').
Proof.
  intros Hl Hv new. destruct v; simpl in *; try discriminate.
  rewrite list_lookup_insert_ne; [exact Hv|]. intros ->. congruence.
Qed.

Lemma with_mem_same s : with_mem s (mem s) = s.
Proof. destruct s; reflexivity. Qed.

Lemma padding_loop lv rest :
  forall (k : nat) cur s,
    mem s !! lv = Some (OList cur) ->
    (forall item, item ∈ rest -> is_dict (mem s) item = true) ->
    for_each (combine (map Z.of_nat (seq k (length rest))) rest)
      (fun ie =>
         let* h1 := get_mem in
         match getitem h1 (VRef lv) (VInt (fst ie)) with
         | Found _ => ret true
         | NoIndex =>
             let* has_default := py_contains (VStr "default") (snd ie) in
             (if has_default then
                let* d := subscript (snd ie) (VStr "default") in
                append (VRef lv) d
              else ret tt) ;;
             ret true
         | NoKey => raise KeyError
         | NotSubscriptable => raise TypeError
         end) s
    = Ok true
         (with_mem s
            (<[lv := OList (cur ++ defaults_of (mem s)
                                        (drop (length cur - k) rest))]> (mem s))).
Proof.
  induction rest as [|item rest IH]; intros k cur s Hlv Hitems.
  - simpl. rewrite drop_nil. simpl. rewrite app_nil_r.
    rewrite (list_insert_id _ _ _ Hlv), with_mem_same. reflexivity.
  - cbn [length seq map combine for_each].
    unfold bind at 1. cbv beta. rewrite get_mem_run. cbn [fst snd].
    rewrite (getitem_index _ _ _ _ Hlv).
    assert (Hrest : forall i, i ∈ rest -> is_dict (mem s) i = true)
      by (intros i Hi; apply Hitems; right; exact Hi).
    destruct (cur !! k) as [v|] eqn:Ek.
    + (* the position exists *)
      apply lookup_lt_Some in Ek as Hlt.
      unfold ret at 1. cbv iota. rewrite (IH (S k) cur s Hlv Hrest).
      replace (length cur - k)%nat with (S (length cur - S k)) by lia.
      reflexivity.
    + (* the position is missing *)
      apply lookup_ge_None_1 in Ek as Hge.
      replace (length cur - k)%nat with 0%nat by lia. rewrite drop_0.
      assert (Hd : is_dict (mem s) item = true) by (apply Hitems; left).
      unfold is_dict in Hd.
      destruct (deref (mem s) item) as [[kvs| |]|] eqn:Eitem; try discriminate.
      destruct item as [| | | | | |li]; try discriminate. simpl in Eitem.
      rewrite (bind_run _ _ s (is_key "default" kvs) s).
      2:{ apply py_contains_run. apply contains_key. exact Eitem. }
      assert (Hdef : item_default (mem s) (VRef li) = assoc "default" kvs)
        by (unfold item_default; simpl; rewrite Eitem; reflexivity).
      cbn [defaults_of]. rewrite Hdef.
      unfold is_key. destruct (assoc "default" kvs) as [d|] eqn:Ed.
      * set (s1 := with_mem s (<[lv := OList (cur ++ [d])]> (mem s))).
        assert (Hstep :
          ((let* d := subscript (VRef li) (VStr "default") in
            append (VRef lv) d) ;; ret true) s = Ok true s1).
        { unfold bind at 1.
          rewrite (bind_run _ _ s d s).
          2:{ apply subscript_run. rewrite (getitem_key _ _ _ _ Eitem), Ed.
              reflexivity. }
          rewrite (append_run _ _ _ _ Hlv). reflexivity. }
        rewrite Hstep.
        assert (Hlt : (lv < length (mem s))%nat)
          by (eapply lookup_lt_Some; eauto).
        rewrite (IH (S k) (cur ++ [d]) s1).
        -- simpl. rewrite list_insert_insert_eq. rewrite length_app. simpl.
           replace (length cur + 1 - S k)%nat with 0%nat by lia.
           rewrite drop_0. rewrite <- app_assoc. simpl.
           do 6 f_equal.
           apply defaults_of_ext. intros i Hi. unfold item_default.
           specialize (Hrest i Hi). unfold is_dict in Hrest.
           destruct (deref (mem s) i) as [[kvs'| |]|] eqn:Ei; try discriminate.
           rewrite (deref_insert_other _ _ _ _ _ Hlv Ei). reflexivity.
        -- simpl. apply list_lookup_insert_eq. exact Hlt.
        -- intros i Hi. simpl. specialize (Hrest i Hi). unfold is_dict in *.
           destruct (deref (mem s) i) as [[kvs'| |]|] eqn:Ei; try discriminate.
           rewrite (deref_insert_other _ _ _ _ _ Hlv Ei). reflexivity.
      * unfold ret at 1. unfold bind at 1, ret at 1. cbv iota.
        rewrite (IH (S k) cur s Hlv Hrest).
        replace (length cur - S k)%nat with 0%nat by lia. rewrite drop_0.
        reflexivity.
Qed.

Lemma py_iterate_run v vs s :
  iterate (mem s) v = inr vs -> py_iterate v s = Ok vs s.
Proof. intros H. unfold py_iterate. rewrite get_mem_run, H. reflexivity. Qed.

Lemma enumerate_seq {A} (l : list A) :
  enumerate l = combine (map Z.of_nat (seq 0 (length l))) l.
Proof. reflexivity. Qed.

(** X15.  [validate_items] with a list of schemas on a list [vs]: the list
    is first extended in place with the defaults of the schemas past its
    end, in order, schemas without a default being skipped.  Then, without
    [additionalItems] in the schema, incorrect-item-length is reported when
    the lengths still differ; otherwise the item at index 0 is validated
    against the first schema and no other item is. *)
Theorem items_defaults_pad_the_array
        (self : methods) (x fieldname p : value) (lv li ls : loc)
        (vs schemas : list value) (sch : list (string * value))
        (s : validator) :
  getitem (mem s) x fieldname = Found (VRef lv) ->
  mem s !! lv = Some (OList vs) ->
  mem s !! li = Some (OList schemas) ->
  mem s !! ls = Some (ODict sch) ->
  (forall item, item ∈ schemas -> is_dict (mem s) item = true) ->
  field_path s = Some p ->
  let padded := vs ++ defaults_of (mem s) (drop (length vs) schemas) in
  let s1 := with_mem s (<[lv := OList padded]> (mem s)) in
  validate_items self x fieldname (VRef ls) (VRef li) s =
  if (negb (is_key "additionalItems" sch)
      && negb (Nat.eqb (length schemas) (length padded)))%bool
  then Ok tt (with_errors s1 [ErrorRecord "incorrect-item-length" p VNone VNone])
  else match schemas with
       | [] => Ok tt s1
       | first :: _ =>
           (inner_validate self (VInt 0) (VRef lv) first ;; ret tt) s1
       end.
Proof.
  intros Hx Hlv Hli Hls Hitems Hp padded s1.
  assert (Hlt : (lv < length (mem s))%nat) by (eapply lookup_lt_Some; eauto).
  unfold validate_items.
  rewrite (bind_run _ _ _ _ _ (get_found x fieldname VNone _ s Hx)).
  rewrite get_mem_run. cbn [is_none negb andb].
  assert (H1 : is_list_or_tuple (mem s) (VRef lv) = true)
    by (unfold is_list_or_tuple, deref; rewrite Hlv; reflexivity).
  assert (H2 : is_list_or_tuple (mem s) (VRef li) = true)
    by (unfold is_list_or_tuple, deref; rewrite Hli; reflexivity).
  rewrite H1, H2.
  rewrite (bind_run _ _ s (Z.of_nat (length schemas)) s)
    by (apply py_len_run; unfold len; rewrite Hli; reflexivity).
  rewrite (bind_run _ _ s (Z.of_nat (length vs)) s)
    by (apply py_len_run; unfold len; rewrite Hlv; reflexivity).
  (* the defaults are resolved *)
  assert (Hpad :
    ((if negb (Z.of_nat (length schemas) =? Z.of_nat (length vs)) then
        let* schemas := py_iterate (VRef li) in
        for_each (enumerate schemas)
          (fun ie =>
             let* h1 := get_mem in
             match getitem h1 (VRef lv) (VInt (fst ie)) with
             | Found _ => ret true
             | NoIndex =>
                 let* has_default := py_contains (VStr "default") (snd ie) in
                 (if has_default then
                    let* d := subscript (snd ie) (VStr "default") in
                    append (VRef lv) d
                  else ret tt) ;;
                 ret true
             | NoKey => raise KeyError
             | NotSubscriptable => raise TypeError
             end) ;;
        ret tt
      else ret tt) s) = Ok tt s1).
  { destruct (Z.eqb_spec (Z.of_nat (length schemas)) (Z.of_nat (length vs)))
      as [E|E]; cbn [negb].
    - unfold s1, padded. rewrite drop_ge by lia. simpl. rewrite app_nil_r.
      rewrite (list_insert_id _ _ _ Hlv), with_mem_same. reflexivity.
    - rewrite (bind_run _ _ s schemas s)
        by (apply py_iterate_run; unfold iterate; rewrite Hli; reflexivity).
      unfold bind at 1. rewrite enumerate_seq.
      rewrite (padding_loop lv schemas 0 vs s Hlv Hitems).
      rewrite Nat.sub_0_r. reflexivity. }
  rewrite (bind_run _ _ _ _ _ Hpad).
  assert (Hls1 : mem s1 !! ls = Some (ODict sch)).
  { simpl. rewrite list_lookup_insert_ne; [exact Hls|]. intros ->. congruence. }
  assert (Hli1 : mem s1 !! li = Some (OList schemas)).
  { simpl. destruct (decide (lv = li)) as [->|Hne].
    - assert (schemas = vs) as -> by congruence.
      unfold padded. rewrite drop_ge by lia. simpl. rewrite app_nil_r.
      rewrite (list_insert_id _ _ _ Hlv). exact Hlv.
    - rewrite list_lookup_insert_ne; [exact Hli|]. exact Hne. }
  assert (Hlv1 : mem s1 !! lv = Some (OList padded)).
  { simpl. apply list_lookup_insert_eq. exact Hlt. }
  rewrite (bind_run _ _ s1 (is_key "additionalItems" sch) s1)
    by (apply py_contains_run, contains_key, Hls1).
  rewrite (bind_run _ _ s1 (Z.of_nat (length schemas)) s1)
    by (apply py_len_run; unfold len; rewrite Hli1; reflexivity).
  rewrite (bind_run _ _ s1 (Z.of_nat (length padded)) s1)
    by (apply py_len_run; unfold len; rewrite Hlv1; reflexivity).
  assert (Heq : (Z.of_nat (length schemas) =? Z.of_nat (length padded))
                = Nat.eqb (length schemas) (length padded)).
  { destruct (Nat.eqb_spec (length schemas) (length padded)) as [E|E].
    - rewrite E. apply Z.eqb_refl.
    - apply Z.eqb_neq. lia. }
  rewrite Heq.
  destruct (negb (is_key "additionalItems" sch)
            && negb (Nat.eqb (length schemas) (length padded)))%bool.
  - apply (error_run _ _ _ _ s1). exact Hp.
  - destruct schemas as [|first rest].
    + reflexivity.
    + unfold range. rewrite Nat2Z.id. cbn [length seq map for_each].
      unfold bind at 1 2.
      rewrite (bind_run _ _ s1 first s1).
      2:{ apply subscript_run.
          rewrite (getitem_index _ _ _ 0 Hli1). reflexivity. }
      change (Z.of_nat 0) with 0. unfold bind.
      destruct (inner_validate self (VInt 0) (VRef lv) first s1); reflexivity.
Qed.

Lemma items_defaults_pad_the_array_witness :
  (* one element against three positional schemas; the second has no
     default, the third has the default 9 *)
  let s := field_example (VRef 1%nat)
             [OList [VInt 1];
              OList [VRef 3%nat; VRef 3%nat; VRef 4%nat];
              ODict []; ODict [("default", VInt 9)];
              ODict [("items", VRef 2%nat)]] in
  validate_items (methods_at plain_lib (make_config plain_lib SchemaValidator) 1)
                 (VRef 0%nat) (VStr "_data") (VRef 5%nat) (VRef 2%nat) s
  = Ok tt (with_errors
             (with_mem s (<[1%nat := OList [VInt 1; VInt 9]]> (mem s)))
             [ErrorRecord "incorrect-item-length" VNone VNone VNone]).
Proof.
  intros s.
  refine (items_defaults_pad_the_array
            (methods_at plain_lib (make_config plain_lib SchemaValidator) 1)
            (VRef 0%nat) (VStr "_data") VNone 1%nat 2%nat 5%nat
            [VInt 1] [VRef 3%nat; VRef 3%nat; VRef 4%nat]
            [("items", VRef 2%nat)] s
            eq_refl eq_refl eq_refl eq_refl _ eq_refl).
  intros item Hitem.
  repeat (apply elem_of_cons in Hitem as [->|Hitem]; [reflexivity|]).
  apply elem_of_nil in Hitem. contradiction.
Defined.

(** ** Coercion that succeeds, and coercion to null *)

Section MoreCoercion.
Context (lib : PyLib) (cfg : config) (depth : nat).

Lemma safe_base_check x fieldname schema fieldtype :
  scope_safe (wrapper x fieldname
                (base_validate_type cfg (methods_at lib cfg depth) x fieldname
                                    schema fieldtype)).
Proof.
  apply safe_wrapper, safe_base_validate_type; apply (safe_methods_at lib cfg depth).
Qed.

(** The type check of the coercing validator on a present field whose value
    does not have the named type, up to the choice of the coercion method. *)
Lemma coercer_check_fails (k : M unit) lx fieldname schema name checker v p
      os fs s :
  type_checker (cls cfg) name = Some checker ->
  getitem (mem s) (VRef lx) fieldname = Found v ->
  contains (mem s) fieldname (VRef lx) = inr true ->
  checker (mem s) v = false ->
  current_object s = VRef lx :: os ->
  current_field s = field_label fieldname :: fs ->
  field_path s = Some p ->
  (push_error_stack ;;
   wrapper (VRef lx) fieldname
           (base_validate_type cfg (methods_at lib cfg depth) (VRef lx) fieldname
                               schema (VStr name)) ;;
   let* errs := pop_error_stack in
   if nonempty errs then
     let* h := get_mem in
     let* missing :=
       if negb (truthy h (VStr name)) then ret true
       else let* present := py_contains fieldname (VRef lx) in
            ret (negb present) in
     if missing then _error "impossible-coercion" (VStr name) VNone else k
   else ret tt) s = k s.
Proof.
  intros Hc Hx Hin Hv Ho Hf Hp.
  set (s1 := with_errors (opened s)
               [ErrorRecord "incorrect-type" p (VStr name) v]).
  assert (Hrun : wrapper (VRef lx) fieldname
                   (base_validate_type cfg (methods_at lib cfg depth) (VRef lx)
                                       fieldname schema (VStr name)) (opened s)
                 = Ok tt s1).
  { rewrite (wrapper_same _ _ _ os fs (opened s) Ho (Nat.eqb_refl lx) Hf).
    rewrite (base_named_type cfg _ _ _ _ _ checker v p (opened s) Hx Hc Hp).
    simpl mem. rewrite Hv. reflexivity. }
  rewrite (scoped_forward _ _ s tt s1 (safe_base_check _ _ _ _) Hrun).
  assert (Hclosed : closed s s1 = s) by (destruct s; reflexivity).
  rewrite Hclosed. cbn [error_list s1 with_errors opened app nonempty].
  rewrite get_mem_run.
  assert (Ht : truthy (mem s) (VStr name) = true).
  { simpl. destruct (String.eqb_spec name "") as [E|E]; [|reflexivity].
    exfalso. exact (type_checker_named _ _ _ Hc E). }
  rewrite Ht. cbn [negb].
  rewrite (bind_run _ _ s false s); [reflexivity|].
  rewrite (bind_run _ _ _ _ _ (py_contains_run _ _ _ _ Hin)). reflexivity.
Qed.

(** When the coercion method leaves no error and the value it stored has the
    named type, the coercing validator reports nothing. *)
Lemma coercion_succeeds lx fieldname schema name checker coerce v v2 p os fs s s2 :
  type_checker (cls cfg) name = Some checker ->
  coerce_method lib name = Some coerce ->
  getitem (mem s) (VRef lx) fieldname = Found v ->
  contains (mem s) fieldname (VRef lx) = inr true ->
  checker (mem s) v = false ->
  current_object s = VRef lx :: os ->
  current_field s = field_label fieldname :: fs ->
  field_path s = Some p ->
  coerce (VRef lx) fieldname schema (opened s) = Ok tt s2 ->
  error_list s2 = [] ->
  current_object s2 = current_object s ->
  current_field s2 = current_field s ->
  getitem (mem s2) (VRef lx) fieldname = Found v2 ->
  checker (mem s2) v2 = true ->
  coercer_validate_type lib cfg (methods_at lib cfg depth) (VRef lx) fieldname
                        schema (VStr name) s
  = Ok tt (with_mem s (mem s2)).
Proof.
  intros Hc Hm Hx Hin Hv Ho Hf Hp Hrun He Ho2 Hf2 Hx2 Hv2.
  unfold coercer_validate_type.
  rewrite (coercer_check_fails _ lx fieldname schema name checker v p os fs s
             Hc Hx Hin Hv Ho Hf Hp).
  rewrite Hm.
  rewrite (scoped_forward _ _ s tt s2
             (safe_coerce_method lib name coerce _ _ _ Hm) Hrun).
  rewrite He. cbn [nonempty negb].
  assert (Hclosed : closed s s2 = with_mem s (mem s2)).
  { unfold closed, with_mem. rewrite Ho2, Hf2. reflexivity. }
  rewrite Hclosed.
  set (s3 := with_mem s (mem s2)).
  rewrite (wrapper_same _ _ _ os fs s3 Ho (Nat.eqb_refl lx) Hf).
  rewrite (base_named_type cfg _ _ _ _ _ checker v2 p s3 Hx2 Hc Hp).
  simpl mem. rewrite Hv2. reflexivity.
Qed.

Lemma assoc_set_found k v kvs : assoc k (assoc_set k v kvs) = Some v.
Proof.
  induction kvs as [|[k' v'] kvs IH]; simpl.
  - rewrite String.eqb_refl. reflexivity.
  - destruct (String.eqb k k') eqn:E; simpl; rewrite ?String.eqb_refl, ?E; auto.
Qed.

Lemma setitem_key l kvs k v s :
  mem s !! l = Some (ODict kvs) ->
  setitem (VRef l) (VStr k) v s
  = Ok tt (with_mem s (<[l := ODict (assoc_set k v kvs)]> (mem s))).
Proof. intros H. unfold setitem. rewrite get_mem_run, H. reflexivity. Qed.

Lemma getitem_after_set h l kvs k v :
  (l < length h)%nat ->
  getitem (<[l := ODict (assoc_set k v kvs)]> h) (VRef l) (VStr k) = Found v.
Proof.
  intros Hl. unfold getitem. rewrite list_lookup_insert_eq by exact Hl.
  rewrite assoc_set_found. reflexivity.
Qed.

(** X16.  In the coercing validators, for a value held under a string key
    of a mapping: a value that is not a list or a tuple, under the type
    array, is replaced in the mapping by a new list that holds it; a value
    that is not a boolean, under the type boolean, is replaced by its truth
    value.  Neither reports an error: the incorrect-type record of the first
    check is dropped with its scope.  (For an element of a list the guard
    [fieldname in x] is a test on the items, and the element is not
    coerced.) *)
Theorem coercion_to_array_and_boolean_succeeds
        (schema v p : value) (lx : loc) (k : string)
        (kvs : list (string * value)) (os fs : list value) (s : validator) :
  mem s !! lx = Some (ODict kvs) ->
  assoc k kvs = Some v ->
  current_object s = VRef lx :: os ->
  current_field s = VStr k :: fs ->
  field_path s = Some p ->
  (is_list_or_tuple (mem s) v = false ->
   coercer_validate_type lib cfg (methods_at lib cfg depth) (VRef lx) (VStr k)
                         schema (VStr "array") s
   = Ok tt (with_mem s
              (<[lx := ODict (assoc_set k (VRef (length (mem s))) kvs)]>
                 (mem s ++ [OList [v]])))) /\
  (is_bool v = false ->
   coercer_validate_type lib cfg (methods_at lib cfg depth) (VRef lx) (VStr k)
                         schema (VStr "boolean") s
   = Ok tt (with_mem s
              (<[lx := ODict (assoc_set k (VBool (truthy (mem s) v)) kvs)]>
                 (mem s)))).
Proof.
  intros Hlx Hk Ho Hf Hp.
  assert (Hlt : (lx < length (mem s))%nat) by (eapply lookup_lt_Some; eauto).
  assert (Hx : getitem (mem s) (VRef lx) (VStr k) = Found v)
    by (rewrite (getitem_key _ _ _ _ Hlx), Hk; reflexivity).
  assert (Hin : contains (mem s) (VStr k) (VRef lx) = inr true)
    by (rewrite (contains_key _ _ _ _ Hlx); unfold is_key; rewrite Hk;
        reflexivity).
  split; intros Hv.
  - set (n := length (mem s)).
    set (h2 := <[lx := ODict (assoc_set k (VRef n) kvs)]> (mem s ++ [OList [v]])).
    assert (Hrun : coerce_array (VRef lx) (VStr k) schema (opened s)
                   = Ok tt (with_mem (opened s) h2)).
    { unfold coerce_array.
      rewrite (bind_run _ _ _ _ _ (get_found _ (VStr k) VNone _ (opened s) Hx)).
      rewrite (bind_run _ _ _ _ _ (new_run _ (opened s))).
      rewrite (setitem_key lx kvs k);
        [reflexivity|simpl; apply lookup_app_l_Some; exact Hlx]. }
    assert (Hx2 : getitem h2 (VRef lx) (VStr k) = Found (VRef n)).
    { apply getitem_after_set. rewrite length_app. lia. }
    assert (Hv2 : validate_type_array h2 (VRef n) = true).
    { unfold validate_type_array, is_list_or_tuple, deref, h2.
      rewrite list_lookup_insert_ne by (unfold n; lia).
      rewrite lookup_app_r by (unfold n; lia).
      unfold n. rewrite Nat.sub_diag. reflexivity. }
    exact (coercion_succeeds lx (VStr k) schema "array" validate_type_array
             coerce_array v (VRef n) p os fs s (with_mem (opened s) h2)
             eq_refl eq_refl Hx Hin Hv Ho Hf Hp Hrun eq_refl eq_refl eq_refl
             Hx2 Hv2).
  - set (b := truthy (mem s) v).
    set (h2 := <[lx := ODict (assoc_set k (VBool b) kvs)]> (mem s)).
    assert (Hrun : coerce_boolean (VRef lx) (VStr k) schema (opened s)
                   = Ok tt (with_mem (opened s) h2)).
    { unfold coerce_boolean.
      rewrite (bind_run _ _ _ _ _ (get_found _ (VStr k) VNone _ (opened s) Hx)).
      rewrite get_mem_run.
      rewrite (setitem_key lx kvs k); [reflexivity|exact Hlx]. }
    assert (Hx2 : getitem h2 (VRef lx) (VStr k) = Found (VBool b))
      by (apply getitem_after_set; exact Hlt).
    exact (coercion_succeeds lx (VStr k) schema "boolean" validate_type_boolean
             coerce_boolean v (VBool b) p os fs s (with_mem (opened s) h2)
             eq_refl eq_refl Hx Hin Hv Ho Hf Hp Hrun eq_refl eq_refl eq_refl
             Hx2 eq_refl).
Qed.

(** X17.  In the coercing validators, a value other than [None] held under
    a string key of a mapping, under the type null, raises
    [AttributeError]: the class has no method [coerce_null] and [getattr] is
    called without a default. *)
Theorem coercion_to_null_raises_attribute_error
        (schema v p : value) (lx : loc) (k : string)
        (kvs : list (string * value)) (os fs : list value) (s : validator) :
  mem s !! lx = Some (ODict kvs) ->
  assoc k kvs = Some v ->
  v <> VNone ->
  current_object s = VRef lx :: os ->
  current_field s = VStr k :: fs ->
  field_path s = Some p ->
  coercer_validate_type lib cfg (methods_at lib cfg depth) (VRef lx) (VStr k)
                        schema (VStr "null") s
  = Raise AttributeError.
Proof.
  intros Hlx Hk Hv Ho Hf Hp.
  assert (Hx : getitem (mem s) (VRef lx) (VStr k) = Found v)
    by (rewrite (getitem_key _ _ _ _ Hlx), Hk; reflexivity).
  assert (Hin : contains (mem s) (VStr k) (VRef lx) = inr true)
    by (rewrite (contains_key _ _ _ _ Hlx); unfold is_key; rewrite Hk;
        reflexivity).
  unfold coercer_validate_type.
  assert (Hn : validate_type_null (mem s) v = false)
    by (destruct v; try reflexivity; congruence).
  rewrite (coercer_check_fails _ lx (VStr k) schema "null" validate_type_null
             v p os fs s eq_refl Hx Hin Hn Ho Hf Hp).
  reflexivity.
Qed.
End MoreCoercion.

Lemma coercion_to_array_and_boolean_succeeds_witness :
  let cfg := make_config plain_lib SchemaCoercer in
  let s := field_example (VStr "no") [] in
  (* the string becomes a list of one string *)
  coercer_validate_type plain_lib cfg (methods_at plain_lib cfg 1) (VRef 0%nat)
                        (VStr "_data") VNone (VStr "array") s
  = Ok tt (Validator [] [] [VStr "_data"] [VRef 0%nat]
                     [ODict [("_data", VRef 1%nat)]; OList [VStr "no"]]) /\
  (* the string that is not empty becomes True *)
  coercer_validate_type plain_lib cfg (methods_at plain_lib cfg 1) (VRef 0%nat)
                        (VStr "_data") VNone (VStr "boolean") s
  = Ok tt (field_example (VBool true) []).
Proof.
  intros cfg s.
  pose proof (coercion_to_array_and_boolean_succeeds plain_lib cfg 1 VNone
                (VStr "no") VNone 0%nat "_data" [("_data", VStr "no")] [] [] s
                eq_refl eq_refl eq_refl eq_refl eq_refl) as [Harray Hbool].
  exact (conj (Harray eq_refl) (Hbool eq_refl)).
Defined.

Lemma coercion_to_null_raises_attribute_error_witness :
  let cfg := make_config plain_lib SchemaCoercer in
  coercer_validate_type plain_lib cfg (methods_at plain_lib cfg 1) (VRef 0%nat)
                        (VStr "_data") VNone (VStr "null")
                        (field_example (VInt 1) [])
  = Raise AttributeError.
Proof.
  intros cfg.
  refine (coercion_to_null_raises_attribute_error plain_lib cfg 1 VNone (VInt 1)
            VNone 0%nat "_data" [("_data", VInt 1)] [] []
            (field_example (VInt 1) []) eq_refl eq_refl _ eq_refl eq_refl eq_refl).
  discriminate.
Defined.

(** ** Coercion of a string to an integer *)

Lemma span_prefix p ds rest :
  forallb p ds = true -> starts_without p rest ->
  span p (ds ++ rest) = (ds, rest).
Proof.
  intros Hds Hrest. induction ds as [|c ds IH]; simpl in *.
  - destruct rest as [|c rest]; [reflexivity|]. simpl in *. rewrite Hrest.
    reflexivity.
  - apply andb_true_iff in Hds as [Hc Hds]. rewrite Hc, (IH Hds). reflexivity.
Qed.

Lemma digit_is_plain c :
  is_digit c = true ->
  is_space c = false /\ c <> "-"%char /\ c <> "+"%char.
Proof.
  destruct c as [[] [] [] [] [] [] [] []]; intros H; try discriminate H;
    repeat split; try reflexivity; discriminate.
Qed.

Lemma int_of_digits ds :
  ds <> [] -> forallb is_digit ds = true ->
  int_of_string (string_of_list_ascii ds) = Some (digits_value ds).
Proof.
  intros Hne Hds. unfold int_of_string.
  rewrite list_ascii_of_string_of_list_ascii.
  destruct ds as [|c ds]; [congruence|].
  pose proof Hds as Hall.
  simpl in Hds. apply andb_true_iff in Hds as [Hc Hds].
  destruct (digit_is_plain c Hc) as (Hs & Hm & Hp).
  cbn [span]. rewrite Hs. cbn [snd].
  assert (Hsign : match c :: ds with
                  | "-"%char :: r => (true, r)
                  | "+"%char :: r => (false, r)
                  | _ => (false, c :: ds)
                  end = (false, c :: ds)).
  { destruct c as [[] [] [] [] [] [] [] []]; try reflexivity;
      try discriminate Hc; congruence. }
  rewrite Hsign.
  rewrite <- (app_nil_r (c :: ds)) at 1.
  rewrite (span_prefix is_digit (c :: ds) [] Hall I). reflexivity.
Qed.

Lemma leading_digits ds rest :
  ds <> [] -> forallb is_digit ds = true -> starts_without is_digit rest ->
  let t := string_of_list_ascii (ds ++ rest) in
  int_of_string t = Some (digits_value ds) \/
  (int_of_string t = None /\
   match_integer t = Some (string_of_list_ascii ds)).
Proof.
  intros Hne Hds Hrest t. unfold t, int_of_string, match_integer.
  rewrite list_ascii_of_string_of_list_ascii.
  destruct ds as [|c ds]; [congruence|].
  pose proof Hds as Hall.
  simpl in Hds. apply andb_true_iff in Hds as [Hc Hds].
  destruct (digit_is_plain c Hc) as (Hs & Hm & Hp).
  cbn [app span]. rewrite Hs. cbn [snd].
  assert (Hsign : match c :: ds ++ rest with
                  | "-"%char :: r => (true, r)
                  | "+"%char :: r => (false, r)
                  | _ => (false, c :: ds ++ rest)
                  end = (false, c :: ds ++ rest)).
  { destruct c as [[] [] [] [] [] [] [] []]; try reflexivity;
      try discriminate Hc; congruence. }
  assert (Hminus : match c :: ds ++ rest with
                   | "-"%char :: r => (["-"%char], r)
                   | _ => ([], c :: ds ++ rest)
                   end = ([], c :: ds ++ rest)).
  { destruct c as [[] [] [] [] [] [] [] []]; try reflexivity;
      try discriminate Hc; congruence. }
  rewrite Hsign, Hminus.
  change (c :: ds ++ rest) with ((c :: ds) ++ rest).
  rewrite (span_prefix is_digit (c :: ds) rest Hall Hrest).
  cbn [app span]. rewrite Hs.
  change (c :: ds ++ rest) with ((c :: ds) ++ rest).
  rewrite (span_prefix is_digit (c :: ds) rest Hall Hrest).
  destruct (snd (span is_space rest)); [left|right; split]; reflexivity.
Qed.

Section IntegerCoercion.
Context (lib : PyLib) (cfg : config) (depth : nat).

(** X18.  In the coercing validators, a string held under a string key of a
    mapping, that begins with the digits [ds] followed by something that is
    not a digit, under the type integer: the entry of the mapping is
    replaced by the integer that [ds] denotes, the rest of the string is
    ignored, and no error is reported. *)
Theorem coercion_to_integer_reads_the_leading_digits
        (schema p : value) (lx : loc) (k : string)
        (kvs : list (string * value)) (os fs : list value) (s : validator)
        (ds rest : list ascii) :
  mem s !! lx = Some (ODict kvs) ->
  assoc k kvs = Some (VStr (string_of_list_ascii (ds ++ rest))) ->
  ds <> [] ->
  forallb is_digit ds = true ->
  starts_without is_digit rest ->
  current_object s = VRef lx :: os ->
  current_field s = VStr k :: fs ->
  field_path s = Some p ->
  coercer_validate_type lib cfg (methods_at lib cfg depth) (VRef lx) (VStr k)
                        schema (VStr "integer") s
  = Ok tt (with_mem s
             (<[lx := ODict (assoc_set k (VInt (digits_value ds)) kvs)]> (mem s))).
Proof.
  intros Hlx Hk Hne Hds Hrest Ho Hf Hp.
  set (t := string_of_list_ascii (ds ++ rest)) in *.
  assert (Hlt : (lx < length (mem s))%nat) by (eapply lookup_lt_Some; eauto).
  assert (Hx : getitem (mem s) (VRef lx) (VStr k) = Found (VStr t))
    by (rewrite (getitem_key _ _ _ _ Hlx), Hk; reflexivity).
  assert (Hin : contains (mem s) (VStr k) (VRef lx) = inr true)
    by (rewrite (contains_key _ _ _ _ Hlx); unfold is_key; rewrite Hk;
        reflexivity).
  set (h2 := <[lx := ODict (assoc_set k (VInt (digits_value ds)) kvs)]> (mem s)).
  assert (Hrun : coerce_integer (VRef lx) (VStr k) schema (opened s)
                 = Ok tt (with_mem (opened s) h2)).
  { unfold coerce_integer.
    rewrite (bind_run _ _ _ _ _ (get_found _ (VStr k) VNone _ (opened s) Hx)).
    rewrite (bind_run _ _ (opened s) (VInt (digits_value ds)) (opened s)).
    - rewrite (setitem_key lx kvs k); [reflexivity|exact Hlx].
    - cbn [py_int].
      destruct (leading_digits ds rest Hne Hds Hrest) as [E|[E1 E2]];
        fold t in E || fold t in E1, E2.
      + rewrite E. reflexivity.
      + rewrite E1, E2, (int_of_digits ds Hne Hds). reflexivity. }
  assert (Hx2 : getitem h2 (VRef lx) (VStr k) = Found (VInt (digits_value ds)))
    by (apply getitem_after_set; exact Hlt).
  exact (coercion_succeeds lib cfg depth lx (VStr k) schema "integer"
           validate_type_integer coerce_integer (VStr t) _ p os fs s
           (with_mem (opened s) h2)
           eq_refl eq_refl Hx Hin eq_refl Ho Hf Hp Hrun eq_refl eq_refl eq_refl
           Hx2 eq_refl).
Qed.
End IntegerCoercion.

Lemma coercion_to_integer_reads_the_leading_digits_witness :
  let cfg := make_config plain_lib SchemaCoercer in
  coercer_validate_type plain_lib cfg (methods_at plain_lib cfg 1) (VRef 0%nat)
                        (VStr "_data") VNone (VStr "integer")
                        (field_example (VStr "12abc") [])
  = Ok tt (field_example (VInt 12) []).
Proof.
  intros cfg.
  refine (coercion_to_integer_reads_the_leading_digits plain_lib cfg 1 VNone
            VNone 0%nat "_data" [("_data", VStr "12abc")] [] []
            (field_example (VStr "12abc") [])
            ["1"; "2"]%char ["a"; "b"; "c"]%char
            eq_refl eq_refl _ eq_refl eq_refl eq_refl eq_refl eq_refl).
  discriminate.
Defined.

(** ** Coercion and the elements of a list *)

Lemma mem_seq_strings h n strs :
  mem_seq h (VInt n) (map VStr strs) = inr false.
Proof.
  induction strs as [|t strs IH]; simpl; [reflexivity|].
  unfold equal. destruct (length h); simpl; exact IH.
Qed.

Section ListElements.
Context (lib : PyLib) (cfg : config) (depth : nat).

(** X27.  In the coercing validators an element of a list of strings is
    never coerced: under a named type that the string does not have, the
    check reports one impossible-coercion record, whatever the string, and
    leaves the list as it is.  The test [fieldname in x] that guards the
    coercion asks whether the index is an item of the list. *)
Theorem list_elements_are_not_coerced
        (schema p : value) (lx : loc) (strs : list string) (i : nat)
        (str name : string) (checker : heap -> value -> bool)
        (os fs : list value) (s : validator) :
  mem s !! lx = Some (OList (map VStr strs)) ->
  strs !! i = Some str ->
  type_checker (cls cfg) name = Some checker ->
  checker (mem s) (VStr str) = false ->
  current_object s = VRef lx :: os ->
  current_field s = field_label (VInt (Z.of_nat i)) :: fs ->
  field_path s = Some p ->
  coercer_validate_type lib cfg (methods_at lib cfg depth) (VRef lx)
                        (VInt (Z.of_nat i)) schema (VStr name) s
  = Ok tt (with_errors s [ErrorRecord "impossible-coercion" p (VStr name) VNone]).
Proof.
  intros Hlx Hi Hc Hv Ho Hf Hp.
  assert (Hx : getitem (mem s) (VRef lx) (VInt (Z.of_nat i)) = Found (VStr str)).
  { rewrite (getitem_index _ _ _ _ Hlx), list_lookup_fmap, Hi. reflexivity. }
  assert (Hin : contains (mem s) (VInt (Z.of_nat i)) (VRef lx) = inr false).
  { unfold contains. rewrite Hlx. apply mem_seq_strings. }
  set (s1 := with_errors (opened s)
               [ErrorRecord "incorrect-type" p (VStr name) (VStr str)]).
  assert (Hrun : wrapper (VRef lx) (VInt (Z.of_nat i))
                   (base_validate_type cfg (methods_at lib cfg depth) (VRef lx)
                                       (VInt (Z.of_nat i)) schema (VStr name))
                   (opened s)
                 = Ok tt s1).
  { rewrite (wrapper_same _ _ _ os fs (opened s) Ho (Nat.eqb_refl lx) Hf).
    rewrite (base_named_type cfg _ _ _ _ _ checker (VStr str) p (opened s)
               Hx Hc Hp).
    simpl mem. rewrite Hv. reflexivity. }
  unfold coercer_validate_type.
  rewrite (scoped_forward _ _ s tt s1 (safe_base_check lib cfg depth _ _ _ _) Hrun).
  assert (Hclosed : closed s s1 = s) by (destruct s; reflexivity).
  rewrite Hclosed. cbn [error_list s1 with_errors opened app nonempty].
  rewrite get_mem_run.
  assert (Ht : truthy (mem s) (VStr name) = true).
  { simpl. destruct (String.eqb_spec name "") as [E|E]; [|reflexivity].
    exfalso. exact (type_checker_named _ _ _ Hc E). }
  rewrite Ht. cbn [negb].
  rewrite (bind_run _ _ s true s).
  - apply error_run, Hp.
  - rewrite (bind_run _ _ _ _ _ (py_contains_run _ _ _ _ Hin)). reflexivity.
Qed.
End ListElements.

Lemma list_elements_are_not_coerced_witness :
  (* the list ['12'] whose element is declared an integer *)
  let cfg := make_config plain_lib SchemaCoercer in
  let s := Validator [] [] [VStr "[0]"; VStr "_data"] [VRef 0%nat]
             [OList [VStr "12"]] in
  coercer_validate_type plain_lib cfg (methods_at plain_lib cfg 1) (VRef 0%nat)
                        (VInt 0) VNone (VStr "integer") s
  = Ok tt (with_errors s [ErrorRecord "impossible-coercion" (VStr "[0]")
                                      (VStr "integer") VNone]).
Proof.
  intros cfg s.
  exact (list_elements_are_not_coerced plain_lib cfg 1 VNone (VStr "[0]") 0%nat
           ["12"] 0%nat "12" "integer" validate_type_integer [] [VStr "_data"] s
           eq_refl eq_refl eq_refl eq_refl eq_refl eq_refl eq_refl).
Defined.

(** ** Invariants of a validation *)

Create HintDb respect.

Section Invariants.
Context (lib : PyLib) (cfg : config).
Context (R : validator -> validator -> Prop) `{!PreOrder R}.
Context (R_new : forall o, respects R (new o)).
Context (R_append : forall x v, respects R (append x v)).
Context (R_extend : forall errs, respects R (extend_error_list errs)).
Context (R_wrapper : forall A x f (m : M A),
            respects R m -> respects R (wrapper x f m)).
Context (R_scoped : forall A B (m : M A) (k : list entry -> M B),
            respects R m -> (forall errs, respects R (k errs)) ->
            respects R (push_error_stack ;; m ;;
                        let* errs := pop_error_stack in k errs)).
Context (R_scoped_args : forall A B C (g : M A) (m : A -> M B)
                                (k : list entry -> M C),
            respects R g -> (forall v, respects R (m v)) ->
            (forall errs, respects R (k errs)) ->
            respects R (push_error_stack ;;
                        let* v := g in m v ;;
                        let* errs := pop_error_stack in k errs)).
Context (R_setitem : is_coercer (cls cfg) = true ->
                     forall x f v, respects R (setitem x f v)).
Context (R_delitem : is_coercer (cls cfg) = true ->
                     forall x k, respects R (delitem x k)).

Lemma respects_ret {A} (a : A) : respects R (ret a).
Proof using PreOrder0. intros s b s' H. injection H as _ <-. reflexivity. Qed.

Lemma respects_raise {A} (e : exn) : respects R (@raise A e).
Proof. intros s b s' H. discriminate. Qed.

Lemma respects_bind {A B} (m : M A) (k : A -> M B) :
  respects R m -> (forall a, respects R (k a)) -> respects R (bind m k).
Proof using PreOrder0.
  intros Hm Hk s b s' H. apply bind_ok in H as (a & s1 & H1 & H2).
  transitivity s1; [exact (Hm _ _ _ H1)|exact (Hk _ _ _ _ H2)].
Qed.

Lemma respects_get_state : respects R get_state.
Proof using PreOrder0. intros s a s' H. injection H as _ <-. reflexivity. Qed.

Lemma respects_get_mem : respects R get_mem.
Proof using PreOrder0. intros s a s' H. injection H as _ <-. reflexivity. Qed.

Lemma respects_lift {A} (r : res A) : respects R (lift r).
Proof using PreOrder0. destruct r; [apply respects_raise|apply respects_ret]. Qed.

Lemma respects_lift_opt {A} e (o : option A) : respects R (lift_opt e o).
Proof using PreOrder0. destruct o; [apply respects_ret|apply respects_raise]. Qed.

Lemma respects_when b m : respects R m -> respects R (when b m).
Proof using PreOrder0. destruct b; [trivial|intros; apply respects_ret]. Qed.

Lemma respects_for_each {A} (l : list A) body :
  (forall a, respects R (body a)) -> respects R (for_each l body).
Proof using PreOrder0.
  intros Hb. induction l as [|a l IH]; simpl.
  - apply respects_ret.
  - apply respects_bind; [apply Hb|]. intros [|]; [exact IH|apply respects_ret].
Qed.

Lemma respects_attempt {A} (m : M A) : respects R m -> respects R (attempt m).
Proof using PreOrder0.
  intros Hm s a s' H. unfold attempt in H.
  destruct (m s) as [b s1|e] eqn:E.
  - injection H as _ <-. exact (Hm _ _ _ E).
  - injection H as _ <-. reflexivity.
Qed.

Ltac respect_step :=
  match goal with
  | |- respects _ (bind push_error_stack _) =>
      first [apply R_scoped; [|intros]
            |apply R_scoped_args; [|intros|intros]]
  | |- respects _ (bind _ _) => apply respects_bind; [|intros]
  | |- respects _ (ret _) => apply respects_ret
  | |- respects _ (raise _) => apply respects_raise
  | |- respects _ (when _ _) => apply respects_when
  | |- respects _ (for_each _ _) => apply respects_for_each; intros
  | |- respects _ (attempt _) => apply respects_attempt
  | |- respects _ (lift _) => apply respects_lift
  | |- respects _ (lift_opt _ _) => apply respects_lift_opt
  | |- respects _ get_state => apply respects_get_state
  | |- respects _ get_mem => apply respects_get_mem
  | |- respects _ (new _) => apply R_new
  | |- respects _ (append _ _) => apply R_append
  | |- respects _ (extend_error_list _) => apply R_extend
  | |- respects _ (wrapper _ _ _) => apply R_wrapper
  | |- respects _ (if ?b then _ else _) => destruct b
  | |- respects _ (match ?x with _ => _ end) => destruct x eqn:?
  | |- respects _ (let '(_, _) := ?x in _) => destruct x
  | H : _ |- _ => solve [apply H]
  end.

Ltac respect := repeat respect_step; eauto with respect.

Lemma respects_current_field_name : respects R current_field_name.
Proof using PreOrder0. unfold current_field_name. respect. Qed.
Lemma respects_error code message suppl : respects R (_error code message suppl).
Proof using PreOrder0 R_extend.
  unfold _error. respect. apply respects_current_field_name.
Qed.
Lemma respects_get x field default : respects R (get x field default).
Proof using PreOrder0. unfold get. respect. Qed.
Lemma respects_py_contains a b : respects R (py_contains a b).
Proof using PreOrder0. unfold py_contains. respect. Qed.
Lemma respects_py_len v : respects R (py_len v).
Proof using PreOrder0. unfold py_len. respect. Qed.
Lemma respects_subscript x f : respects R (subscript x f).
Proof using PreOrder0. unfold subscript. respect. Qed.
Lemma respects_py_dict_get d k v : respects R (py_dict_get d k v).
Proof using PreOrder0. unfold py_dict_get. respect. Qed.
Lemma respects_slice_from v n : respects R (slice_from v n).
Proof using PreOrder0 R_new. unfold slice_from. respect. Qed.
Lemma respects_py_iterate v : respects R (py_iterate v).
Proof using PreOrder0. unfold py_iterate. respect. Qed.
Lemma respects_py_items v : respects R (py_items v).
Proof using PreOrder0. unfold py_items. respect. Qed.
Lemma respects_py_equal a b : respects R (py_equal a b).
Proof using PreOrder0. unfold py_equal. respect. Qed.

#[local] Hint Resolve respects_current_field_name respects_error respects_get
  respects_py_contains respects_py_len respects_subscript respects_py_dict_get
  respects_slice_from respects_py_iterate respects_py_items respects_py_equal
  : respect.

Section Evaluators.
Context (self : methods).
Context (Hinner : forall fieldname data schema,
            respects R (inner_validate self fieldname data schema)).
Context (Htype : forall x fieldname schema fieldtype,
            respects R (validate_type self x fieldname schema fieldtype)).

Lemma respects__validate data schema : respects R (_validate self data schema).
Proof using All. unfold _validate. respect. Qed.
#[local] Hint Resolve respects__validate : respect.

Lemma respects_validate data schema : respects R (validate self data schema).
Proof using All. unfold validate. respect. Qed.
#[local] Hint Resolve respects_validate : respect.

Lemma respects_validate_required x f sch r :
  respects R (validate_required x f sch r).
Proof using All. unfold validate_required. respect. Qed.
#[local] Hint Resolve respects_validate_required : respect.

Lemma respects_try_alternative x f t :
  respects R (try_alternative self x f t).
Proof using All. unfold try_alternative. respect. Qed.
#[local] Hint Resolve respects_try_alternative : respect.

Lemma respects_base_validate_type x f sch t :
  respects R (base_validate_type cfg self x f sch t).
Proof using All. unfold base_validate_type. respect. Qed.
#[local] Hint Resolve respects_base_validate_type : respect.

Lemma respects_validate_properties x f sch a :
  respects R (validate_properties self x f sch a).
Proof using All. unfold validate_properties. respect. Qed.
#[local] Hint Resolve respects_validate_properties : respect.

Lemma respects_validate_items x f sch a :
  respects R (validate_items self x f sch a).
Proof using All. unfold validate_items. respect. Qed.
#[local] Hint Resolve respects_validate_items : respect.

Lemma respects_validate_blank x f sch a : respects R (validate_blank x f sch a).
Proof using All. unfold validate_blank. respect. Qed.
#[local] Hint Resolve respects_validate_blank : respect.

Lemma respects_match_pattern p s : respects R (match_pattern lib p s).
Proof using All. unfold match_pattern. respect. Qed.
#[local] Hint Resolve respects_match_pattern : respect.

Lemma respects_validate_patternProperties x f sch a :
  respects R (validate_patternProperties lib self x f sch a).
Proof using All. unfold validate_patternProperties. respect. Qed.
#[local] Hint Resolve respects_validate_patternProperties : respect.

Lemma respects_validate_additionalItems x f sch a :
  respects R (validate_additionalItems self x f sch a).
Proof using All. unfold validate_additionalItems. respect. Qed.
#[local] Hint Resolve respects_validate_additionalItems : respect.

Lemma respects_property_is_known p pp k :
  respects R (property_is_known lib p pp k).
Proof using All. unfold property_is_known. respect. Qed.
#[local] Hint Resolve respects_property_is_known : respect.

Lemma respects_validate_additionalProperties x f sch a :
  respects R (validate_additionalProperties lib self x f sch a).
Proof using All. unfold validate_additionalProperties. respect. Qed.
#[local] Hint Resolve respects_validate_additionalProperties : respect.

Lemma respects_validate_dependencies x f sch a :
  respects R (validate_dependencies x f sch a).
Proof using All. unfold validate_dependencies. respect. Qed.
#[local] Hint Resolve respects_validate_dependencies : respect.

Lemma respects_validate_minimum x f sch a :
  respects R (validate_minimum lib x f sch a).
Proof using All. unfold validate_minimum. respect. Qed.
#[local] Hint Resolve respects_validate_minimum : respect.

Lemma respects_validate_maximum x f sch a :
  respects R (validate_maximum lib x f sch a).
Proof using All. unfold validate_maximum. respect. Qed.
#[local] Hint Resolve respects_validate_maximum : respect.

Lemma respects_validate_maxLength x f sch a :
  respects R (validate_maxLength lib x f sch a).
Proof using All. unfold validate_maxLength. respect. Qed.
#[local] Hint Resolve respects_validate_maxLength : respect.

Lemma respects_validate_minLength x f sch a :
  respects R (validate_minLength lib x f sch a).
Proof using All. unfold validate_minLength. respect. Qed.
#[local] Hint Resolve respects_validate_minLength : respect.

Lemma respects_validate_format x f sch a :
  respects R (validate_format cfg x f sch a).
Proof using All. unfold validate_format. respect. Qed.
#[local] Hint Resolve respects_validate_format : respect.

Lemma respects_validate_pattern x f sch a :
  respects R (validate_pattern lib x f sch a).
Proof using All. unfold validate_pattern. respect. Qed.
#[local] Hint Resolve respects_validate_pattern : respect.

Lemma respects_unique_scan vs hs us : respects R (unique_scan vs hs us).
Proof using All.
  revert hs us. induction vs as [|v vs IH]; intros hs us; simpl; respect.
Qed.
#[local] Hint Resolve respects_unique_scan : respect.

Lemma respects_validate_uniqueItems x f sch a :
  respects R (validate_uniqueItems x f sch a).
Proof using All. unfold validate_uniqueItems. respect. Qed.
#[local] Hint Resolve respects_validate_uniqueItems : respect.

Lemma respects_validate_enum x f sch a : respects R (validate_enum x f sch a).
Proof using All. unfold validate_enum. respect. Qed.
#[local] Hint Resolve respects_validate_enum : respect.

Lemma respects_validate_title x f sch a : respects R (validate_title x f sch a).
Proof using All. unfold validate_title. respect. Qed.
#[local] Hint Resolve respects_validate_title : respect.

Lemma respects_validate_description x f sch a :
  respects R (validate_description x f sch a).
Proof using All. unfold validate_description. respect. Qed.
#[local] Hint Resolve respects_validate_description : respect.

Lemma respects_validate_divisibleBy x f sch a :
  respects R (validate_divisibleBy lib x f sch a).
Proof using All. unfold validate_divisibleBy. respect. Qed.
#[local] Hint Resolve respects_validate_divisibleBy : respect.

Lemma respects_validate_extends x f sch a :
  respects R (validate_extends self x f sch a).
Proof using All. unfold validate_extends. respect. Qed.
#[local] Hint Resolve respects_validate_extends : respect.

Lemma respects_validate_disallow x f sch a :
  respects R (validate_disallow self x f sch a).
Proof using All. unfold validate_disallow. respect. Qed.
#[local] Hint Resolve respects_validate_disallow : respect.

Lemma respects_validate_minProperties x f sch a :
  respects R (validate_minProperties lib x f sch a).
Proof using All. unfold validate_minProperties. respect. Qed.
#[local] Hint Resolve respects_validate_minProperties : respect.

Lemma respects_validate_maxProperties x f sch a :
  respects R (validate_maxProperties lib x f sch a).
Proof using All. unfold validate_maxProperties. respect. Qed.
#[local] Hint Resolve respects_validate_maxProperties : respect.

Lemma respects_validate_requireEither x f sch a :
  respects R (validate_requireEither x f sch a).
Proof using All. unfold validate_requireEither. respect. Qed.
#[local] Hint Resolve respects_validate_requireEither : respect.

Section Coercing.
Context (Hcoercer : is_coercer (cls cfg) = true).

Lemma respects_coerce_integer x f sch : respects R (coerce_integer x f sch).
Proof using All. unfold coerce_integer. respect; apply R_setitem, Hcoercer. Qed.
Lemma respects_coerce_number x f sch : respects R (coerce_number lib x f sch).
Proof using All. unfold coerce_number. respect; apply R_setitem, Hcoercer. Qed.
Lemma respects_coerce_datetime x f sch : respects R (coerce_datetime lib x f sch).
Proof using All. unfold coerce_datetime. respect; apply R_setitem, Hcoercer. Qed.
Lemma respects_coerce_string x f sch : respects R (coerce_string lib x f sch).
Proof using All. unfold coerce_string. respect; apply R_setitem, Hcoercer. Qed.
Lemma respects_coerce_object x f sch : respects R (coerce_object x f sch).
Proof using All. unfold coerce_object. respect. Qed.
Lemma respects_coerce_array x f sch : respects R (coerce_array x f sch).
Proof using All. unfold coerce_array. respect; apply R_setitem, Hcoercer. Qed.
Lemma respects_coerce_boolean x f sch : respects R (coerce_boolean x f sch).
Proof using All. unfold coerce_boolean. respect; apply R_setitem, Hcoercer. Qed.

Lemma respects_coerce_method name coerce x f sch :
  coerce_method lib name = Some coerce -> respects R (coerce x f sch).
Proof using All.
  unfold coerce_method. intros H.
  repeat case_match; simplify_eq;
    auto using respects_coerce_integer, respects_coerce_number,
      respects_coerce_datetime, respects_coerce_string, respects_coerce_object,
      respects_coerce_array, respects_coerce_boolean.
Qed.

Lemma respects_coercer_validate_type x f sch t :
  respects R (coercer_validate_type lib cfg self x f sch t).
Proof using All.
  unfold coercer_validate_type. respect.
  all: try (eapply respects_coerce_method; eassumption).
Qed.

Lemma respects_props_to_delete p pp ap keys :
  respects R (props_to_delete lib p pp ap keys).
Proof using All. induction keys as [|kv keys IH]; simpl; respect. Qed.

Lemma respects_coercer_validate_additionalProperties x f sch a :
  respects R (coercer_validate_additionalProperties lib x f sch a).
Proof using All.
  unfold coercer_validate_additionalProperties. respect;
    solve [apply respects_props_to_delete|apply R_delitem, Hcoercer].
Qed.
End Coercing.

Lemma respects_find_evaluator name ev x f sch a :
  find_evaluator lib cfg self name = Some ev -> respects R (ev x f sch a).
Proof using All.
  assert (Hap : respects R
            ((if is_coercer (cls cfg)
              then coercer_validate_additionalProperties lib
              else validate_additionalProperties lib self) x f sch a)).
  { destruct (Bool.bool_dec (is_coercer (cls cfg)) true) as [E|E].
    - rewrite E. apply respects_coercer_validate_additionalProperties, E.
    - apply not_true_is_false in E. rewrite E.
      apply respects_validate_additionalProperties. }
  unfold find_evaluator, wrapped, validate_minItems, validate_maxItems.
  set (additional := if is_coercer (cls cfg) then _ else _) in *.
  intros H.
  repeat (case_match; simplify_eq; try discriminate);
    try apply R_wrapper;
    eauto using respects_raise with respect.
Qed.

Lemma respects_method_type x f sch t :
  respects R (wrapped (if is_coercer (cls cfg)
                       then coercer_validate_type lib cfg self
                       else base_validate_type cfg self) x f sch t).
Proof using All.
  unfold wrapped. apply R_wrapper.
  destruct (Bool.bool_dec (is_coercer (cls cfg)) true) as [E|E].
  - rewrite E. apply respects_coercer_validate_type, E.
  - apply not_true_is_false in E. rewrite E.
    apply respects_base_validate_type.
Qed.

Section Walker.
Context (R_setitem_any : forall x f v, respects R (setitem x f v)).
Context (R_dict_pop : forall d k v, respects R (dict_pop d k v)).

Lemma respects_walker fieldname data schema :
  respects R (walker lib cfg self fieldname data schema).
Proof using All.
  unfold walker, wrapped. respect.
  eapply respects_find_evaluator; eassumption.
Qed.
End Walker.
End Evaluators.
End Invariants.

(** The operations on containers change nothing but the store. *)
Lemma store_only_append x v s a s' :
  append x v s = Ok a s' -> exists h, s' = with_mem s h.
Proof.
  unfold append, bind, get_mem, set_mem, raise. intros H.
  repeat case_match; simplify_eq; eauto.
Qed.

Lemma store_only_setitem x f v s a s' :
  setitem x f v s = Ok a s' -> exists h, s' = with_mem s h.
Proof.
  unfold setitem, bind, get_mem, set_mem, raise. intros H.
  repeat case_match; simplify_eq; eauto.
Qed.

Lemma store_only_delitem x k s a s' :
  delitem x k s = Ok a s' -> exists h, s' = with_mem s h.
Proof.
  unfold delitem, bind, get_mem, set_mem, raise. intros H.
  repeat case_match; simplify_eq; eauto.
Qed.

Lemma store_only_dict_pop d k v s a s' :
  dict_pop d k v s = Ok a s' -> exists h, s' = with_mem s h.
Proof.
  unfold dict_pop, bind, get_mem, set_mem, raise, ret. intros H.
  repeat case_match; simplify_eq; eauto.
  exists (mem s'). symmetry. apply with_mem_same.
Qed.

Section BlindInvariants.
Context (lib : PyLib) (cfg : config).
Context (R : validator -> validator -> Prop) `{!PreOrder R}.
Context (R_mem : forall s h, R s (with_mem s h)).
Context (R_extend : forall errs, respects R (extend_error_list errs)).
Context (R_wrapper : forall A x f (m : M A),
            respects R m -> respects R (wrapper x f m)).
Context (R_scoped : forall A B (m : M A) (k : list entry -> M B),
            respects R m -> (forall errs, respects R (k errs)) ->
            respects R (push_error_stack ;; m ;;
                        let* errs := pop_error_stack in k errs)).
Context (R_scoped_args : forall A B C (g : M A) (m : A -> M B)
                                (k : list entry -> M C),
            respects R g -> (forall v, respects R (m v)) ->
            (forall errs, respects R (k errs)) ->
            respects R (push_error_stack ;;
                        let* v := g in m v ;;
                        let* errs := pop_error_stack in k errs)).

Lemma blind_new o : respects R (new o).
Proof using R_mem. intros s a s' H. injection H as _ <-. apply R_mem. Qed.

Lemma blind_append x v : respects R (append x v).
Proof using R_mem.
  intros s a s' H. apply store_only_append in H as [h ->]. apply R_mem.
Qed.

Lemma blind_setitem x f v : respects R (setitem x f v).
Proof using R_mem.
  intros s a s' H. apply store_only_setitem in H as [h ->]. apply R_mem.
Qed.

Lemma blind_delitem x k : respects R (delitem x k).
Proof using R_mem.
  intros s a s' H. apply store_only_delitem in H as [h ->]. apply R_mem.
Qed.

Lemma blind_dict_pop d k v : respects R (dict_pop d k v).
Proof using R_mem.
  intros s a s' H. apply store_only_dict_pop in H as [h ->]. apply R_mem.
Qed.

Lemma blind_methods_at depth :
  (forall fieldname data schema,
      respects R (inner_validate (methods_at lib cfg depth) fieldname data schema))
  /\
  (forall x fieldname schema fieldtype,
      respects R (validate_type (methods_at lib cfg depth) x fieldname schema
                                fieldtype)).
Proof using All.
  induction depth as [|d [IHinner IHtype]]; split; simpl; intros.
  - apply respects_raise.
  - apply respects_raise.
  - apply (respects_walker lib cfg R blind_new blind_append R_extend R_wrapper
             R_scoped R_scoped_args (fun _ => blind_setitem)
             (fun _ => blind_delitem) _ IHinner IHtype blind_setitem
             blind_dict_pop).
  - apply (respects_method_type lib cfg R blind_new blind_append R_extend
             R_wrapper R_scoped R_scoped_args (fun _ => blind_setitem)
             (fun _ => blind_delitem) _ IHinner IHtype).
Qed.
End BlindInvariants.

(** ** Errors accumulate *)

#[local] Instance accumulates_preorder : PreOrder accumulates.
Proof.
  split.
  - intros s. split; reflexivity.
  - intros s1 s2 s3 [E1 P1] [E2 P2]. split; [congruence|].
    etransitivity; eassumption.
Qed.

Lemma accumulates_mem s h : accumulates s (with_mem s h).
Proof. split; reflexivity. Qed.

Lemma accumulates_extend errs : respects accumulates (extend_error_list errs).
Proof.
  intros s a s' H. injection H as _ <-. split; [reflexivity|].
  apply prefix_app_r. reflexivity.
Qed.

Lemma accumulates_set_path f o : respects accumulates (set_path f o).
Proof. intros s a s' H. injection H as _ <-. split; reflexivity. Qed.

Lemma accumulates_wrapper A x f (m : M A) :
  respects accumulates m -> respects accumulates (wrapper x f m).
Proof.
  intros Hm s a s' H. unfold wrapper in H.
  rewrite (bind_run get_state _ s s s eq_refl) in H.
  destruct (match current_object s with
            | top :: _ => py_is top x
            | [] => false
            end).
  - apply bind_ok in H as (u & s1 & H1 & H2).
    destruct (current_field s); [discriminate|].
    apply accumulates_set_path in H1. apply Hm in H2.
    etransitivity; eassumption.
  - apply bind_ok in H as (u & s1 & H1 & H).
    apply bind_ok in H as (r & s2 & H2 & H).
    rewrite (bind_run get_state _ s2 s2 s2 eq_refl) in H.
    apply accumulates_set_path in H1. apply Hm in H2.
    destruct (current_field s2); [discriminate|].
    destruct (current_object s2); [discriminate|].
    apply bind_ok in H as (u' & s5 & H5 & H). injection H as _ <-.
    apply accumulates_set_path in H5.
    etransitivity; [eassumption|]. etransitivity; eassumption.
Qed.

Lemma accumulates_scoped A B (m : M A) (k : list entry -> M B) :
  respects accumulates m -> (forall errs, respects accumulates (k errs)) ->
  respects accumulates
    (push_error_stack ;; m ;; let* errs := pop_error_stack in k errs).
Proof.
  intros Hm Hk s b s' H.
  apply bind_ok in H as ([] & s0 & H0 & H). injection H0 as <-.
  apply bind_ok in H as (a & s1 & H1 & H).
  apply bind_ok in H as (errs & s2 & H2 & H).
  apply Hm in H1 as [E1 _]. apply Hk in H as [E P].
  unfold pop_error_stack in H2. rewrite E1 in H2. simpl in H2.
  injection H2 as _ <-. simpl in *. split; assumption.
Qed.

Lemma accumulates_scoped_args A B C (g : M A) (m : A -> M B)
      (k : list entry -> M C) :
  respects accumulates g -> (forall v, respects accumulates (m v)) ->
  (forall errs, respects accumulates (k errs)) ->
  respects accumulates
    (push_error_stack ;;
     let* v := g in m v ;; let* errs := pop_error_stack in k errs).
Proof.
  intros Hg Hm Hk s b s' H.
  apply bind_ok in H as ([] & s0 & H0 & H). injection H0 as <-.
  apply bind_ok in H as (v & s1 & H1 & H).
  apply bind_ok in H as (r & s2 & H2 & H).
  apply bind_ok in H as (errs & s3 & H3 & H).
  apply Hg in H1 as [E1 _]. apply Hm in H2 as [E2 _]. apply Hk in H as [E P].
  unfold pop_error_stack in H3. rewrite E2, E1 in H3. simpl in H3.
  injection H3 as _ <-. simpl in *. split; assumption.
Qed.

Lemma accumulates_methods_at lib cfg depth :
  (forall fieldname data schema,
      respects accumulates
        (inner_validate (methods_at lib cfg depth) fieldname data schema)) /\
  (forall x fieldname schema fieldtype,
      respects accumulates
        (validate_type (methods_at lib cfg depth) x fieldname schema fieldtype)).
Proof.
  apply (blind_methods_at lib cfg accumulates accumulates_mem accumulates_extend
           accumulates_wrapper accumulates_scoped accumulates_scoped_args).
Qed.

(** ** The field path is restored *)

#[local] Instance same_level_preorder : PreOrder same_level.
Proof.
  split.
  - intros s. repeat split; reflexivity.
  - intros s1 s2 s3 (O1 & T1 & L1) (O2 & T2 & L2). repeat split; congruence.
Qed.

Lemma same_level_mem s h : same_level s (with_mem s h).
Proof. repeat split; reflexivity. Qed.

Lemma same_level_extend errs : respects same_level (extend_error_list errs).
Proof. intros s a s' H. injection H as _ <-. repeat split; reflexivity. Qed.

Lemma same_level_wrapper A x f (m : M A) :
  respects same_level m -> respects same_level (wrapper x f m).
Proof.
  intros Hm s a s' H. unfold wrapper in H.
  rewrite (bind_run get_state _ s s s eq_refl) in H.
  destruct (match current_object s with
            | top :: _ => py_is top x
            | [] => false
            end).
  - apply bind_ok in H as (u & s1 & H1 & H2).
    destruct (current_field s) as [|c fields] eqn:Ef; [discriminate|].
    injection H1 as _ <-. apply Hm in H2 as (O & T & L). simpl in *.
    unfold same_level. rewrite Ef. simpl. repeat split; congruence.
  - apply bind_ok in H as (u & s1 & H1 & H).
    apply bind_ok in H as (r & s2 & H2 & H).
    rewrite (bind_run get_state _ s2 s2 s2 eq_refl) in H.
    injection H1 as _ <-. apply Hm in H2 as (O & T & L). simpl in *.
    destruct (current_field s2) as [|c fields]; [discriminate|].
    destruct (current_object s2) as [|o objects]; [discriminate|].
    apply bind_ok in H as (u' & s5 & H5 & H). injection H as _ <-.
    injection H5 as _ <-. simpl in *.
    injection O as _ ->. subst fields. unfold same_level. simpl.
    repeat split; reflexivity.
Qed.

Lemma same_level_scoped A B (m : M A) (k : list entry -> M B) :
  respects same_level m -> (forall errs, respects same_level (k errs)) ->
  respects same_level
    (push_error_stack ;; m ;; let* errs := pop_error_stack in k errs).
Proof.
  intros Hm Hk s b s' H.
  apply bind_ok in H as ([] & s0 & H0 & H). injection H0 as <-.
  apply bind_ok in H as (a & s1 & H1 & H).
  apply bind_ok in H as (errs & s2 & H2 & H).
  apply Hm in H1. apply Hk in H.
  unfold pop_error_stack in H2.
  destruct (error_stack s1); [discriminate|]. injection H2 as _ <-.
  etransitivity; [|exact H]. etransitivity; [|exact H1].
  repeat split; reflexivity.
Qed.

Lemma same_level_scoped_args A B C (g : M A) (m : A -> M B)
      (k : list entry -> M C) :
  respects same_level g -> (forall v, respects same_level (m v)) ->
  (forall errs, respects same_level (k errs)) ->
  respects same_level
    (push_error_stack ;;
     let* v := g in m v ;; let* errs := pop_error_stack in k errs).
Proof.
  intros Hg Hm Hk s b s' H.
  apply bind_ok in H as ([] & s0 & H0 & H). injection H0 as <-.
  apply bind_ok in H as (v & s1 & H1 & H).
  apply bind_ok in H as (r & s2 & H2 & H).
  apply bind_ok in H as (errs & s3 & H3 & H).
  apply Hg in H1. apply Hm in H2. apply Hk in H.
  unfold pop_error_stack in H3.
  destruct (error_stack s2); [discriminate|]. injection H3 as _ <-.
  etransitivity; [|exact H]. etransitivity; [|exact H2].
  etransitivity; [|exact H1].
  repeat split; reflexivity.
Qed.

Lemma same_level_methods_at lib cfg depth :
  (forall fieldname data schema,
      respects same_level
        (inner_validate (methods_at lib cfg depth) fieldname data schema)) /\
  (forall x fieldname schema fieldtype,
      respects same_level
        (validate_type (methods_at lib cfg depth) x fieldname schema fieldtype)).
Proof.
  apply (blind_methods_at lib cfg same_level same_level_mem same_level_extend
           same_level_wrapper same_level_scoped same_level_scoped_args).
Qed.

Lemma obj_extends_refl o : obj_extends o o.
Proof. destruct o; simpl; [auto|reflexivity|reflexivity]. Qed.

Lemma obj_extends_trans o1 o2 o3 :
  obj_extends o1 o2 -> obj_extends o2 o3 -> obj_extends o1 o3.
Proof.
  destruct o1, o2, o3; simpl; try tauto; try congruence.
  - auto.
  - intros; etransitivity; eassumption.
Qed.

Lemma assoc_set_other k k' v kvs :
  k' <> k -> assoc k' (assoc_set k v kvs) = assoc k' kvs.
Proof.
  intros Hne. induction kvs as [|[k0 v0] kvs IH]; simpl.
  - destruct (String.eqb_spec k' k); [contradiction|reflexivity].
  - destruct (String.eqb_spec k k0) as [->|Hk]; simpl.
    + destruct (String.eqb_spec k' k0); [contradiction|reflexivity].
    + rewrite IH. reflexivity.
Qed.

Lemma assoc_set_keeps k d kvs :
  assoc k kvs = None ->
  obj_extends (ODict kvs) (ODict (assoc_set k d kvs)).
Proof.
  intros Hk k' v Hv. rewrite assoc_set_other; [exact Hv|].
  intros ->. congruence.
Qed.

Lemma store_extends_refl n h : store_extends n h h.
Proof. split; [lia|]. intros l o _ H. eauto using obj_extends_refl. Qed.

Lemma store_extends_trans n h1 h2 h3 :
  store_extends n h1 h2 -> store_extends n h2 h3 -> store_extends n h1 h3.
Proof.
  intros [L1 E1] [L2 E2]. split; [lia|].
  intros l o Hl Ho. destruct (E1 l o Hl Ho) as (o2 & H2 & X2).
  destruct (E2 l o2 Hl H2) as (o3 & H3 & X3).
  eauto using obj_extends_trans.
Qed.

Lemma store_extends_le n n' h h' :
  (n' <= n)%nat -> store_extends n h h' -> store_extends n' h h'.
Proof. intros Hn [L E]. split; [exact L|]. intros l o Hl. apply E. lia. Qed.

Lemma store_extends_app n h g : store_extends n h (h ++ g).
Proof.
  split; [rewrite length_app; lia|].
  intros l o _ H. exists o. split; [|apply obj_extends_refl].
  apply lookup_app_l_Some. exact H.
Qed.

Lemma store_extends_insert n h l o o' :
  h !! l = Some o -> obj_extends o o' -> store_extends n h (<[l := o']> h).
Proof.
  intros Hl Hx. split; [rewrite length_insert; lia|].
  intros l' o1 _ H1. destruct (decide (l' = l)) as [->|Hne].
  - exists o'. split; [|congruence].
    apply list_lookup_insert_eq. eapply lookup_lt_Some; eauto.
  - exists o1. rewrite list_lookup_insert_ne by auto.
    split; [exact H1|apply obj_extends_refl].
Qed.

Lemma store_extends_insert_above n h l o :
  (n <= l)%nat -> store_extends n h (<[l := o]> h).
Proof.
  intros Hn. split; [rewrite length_insert; lia|].
  intros l' o1 Hl H1. exists o1.
  rewrite list_lookup_insert_ne by lia.
  split; [exact H1|apply obj_extends_refl].
Qed.

#[local] Instance grows_preorder : PreOrder grows.
Proof.
  split.
  - intros s. apply store_extends_refl.
  - intros s1 s2 s3 H1 H2. unfold grows in *.
    eapply store_extends_trans; [exact H1|].
    eapply store_extends_le; [|exact H2]. apply H1.
Qed.

Lemma grows_same_store s s' : mem s' = mem s -> grows s s'.
Proof. intros E. unfold grows. rewrite E. apply store_extends_refl. Qed.

Lemma grows_new o : respects grows (new o).
Proof. intros s a s' H. injection H as _ <-. apply store_extends_app. Qed.

Lemma grows_append x v : respects grows (append x v).
Proof.
  intros s a s' H. unfold append in H. rewrite get_mem_run in H.
  destruct x as [| | | | | |l]; try discriminate.
  destruct (mem s !! l) as [[| vs |]|] eqn:E; try discriminate.
  injection H as _ <-. apply (store_extends_insert _ _ _ _ _ E).
  simpl. apply prefix_app_r. reflexivity.
Qed.

Lemma grows_extend errs : respects grows (extend_error_list errs).
Proof. intros s a s' H. injection H as _ <-. apply grows_same_store. reflexivity. Qed.

Lemma grows_set_path f o : respects grows (set_path f o).
Proof. intros s a s' H. injection H as _ <-. apply grows_same_store. reflexivity. Qed.

Lemma grows_push : respects grows push_error_stack.
Proof. intros s a s' H. injection H as _ <-. apply grows_same_store. reflexivity. Qed.

Lemma grows_pop : respects grows pop_error_stack.
Proof.
  intros s a s' H. unfold pop_error_stack in H.
  destruct (error_stack s); [discriminate|]. injection H as _ <-.
  apply grows_same_store. reflexivity.
Qed.

Section Plumbing.
Context (R : validator -> validator -> Prop) `{!PreOrder R}.

Lemma wrapper_respects :
  (forall f o, respects R (set_path f o)) ->
  forall A x f (m : M A), respects R m -> respects R (wrapper x f m).
Proof.
  intros Hpath A x f m Hm. unfold wrapper.
  apply respects_bind; [exact _|apply respects_get_state; exact _|]. intros s.
  destruct (match current_object s with
            | top :: _ => py_is top x
            | [] => false
            end).
  - apply respects_bind; [exact _| |intros; exact Hm].
    destruct (current_field s); [apply respects_raise|apply Hpath].
  - apply respects_bind; [exact _|apply Hpath|]. intros _.
    apply respects_bind; [exact _|exact Hm|]. intros r.
    apply respects_bind; [exact _|apply respects_get_state; exact _|].
    intros s1.
    destruct (current_field s1); [apply respects_raise|].
    destruct (current_object s1); [apply respects_raise|].
    apply respects_bind; [exact _|apply Hpath|].
    intros _. apply respects_ret. exact _.
Qed.

Lemma scoped_respects :
  respects R push_error_stack -> respects R pop_error_stack ->
  forall A B (m : M A) (k : list entry -> M B),
    respects R m -> (forall errs, respects R (k errs)) ->
    respects R (push_error_stack ;; m ;; let* errs := pop_error_stack in k errs).
Proof.
  intros Hpush Hpop A B m k Hm Hk.
  apply respects_bind; [exact _|exact Hpush|]. intros _.
  apply respects_bind; [exact _|exact Hm|]. intros _.
  apply respects_bind; [exact _|exact Hpop|]. exact Hk.
Qed.

Lemma scoped_args_respects :
  respects R push_error_stack -> respects R pop_error_stack ->
  forall A B C (g : M A) (m : A -> M B) (k : list entry -> M C),
    respects R g -> (forall v, respects R (m v)) ->
    (forall errs, respects R (k errs)) ->
    respects R (push_error_stack ;;
                let* v := g in m v ;; let* errs := pop_error_stack in k errs).
Proof.
  intros Hpush Hpop A B C g m k Hg Hm Hk.
  apply respects_bind; [exact _|exact Hpush|]. intros _.
  apply respects_bind; [exact _|exact Hg|]. intros v.
  apply respects_bind; [exact _|apply Hm|]. intros _.
  apply respects_bind; [exact _|exact Hpop|]. exact Hk.
Qed.
End Plumbing.

(** ** The plain validators only extend the store *)

Lemma above_bind n {A B} (m : M A) (k : A -> M B) :
  above n m -> (forall a, above n (k a)) -> above n (bind m k).
Proof.
  intros Hm Hk s b s' Hn H. apply bind_ok in H as (a & s1 & H1 & H2).
  pose proof (Hm _ _ _ Hn H1) as E1.
  eapply store_extends_trans; [exact E1|].
  apply (Hk a s1 b s'); [|exact H2]. destruct E1. lia.
Qed.

Lemma above_grows n {A} (m : M A) : respects grows m -> above n m.
Proof.
  intros Hm s a s' Hn H. eapply store_extends_le; [exact Hn|].
  exact (Hm _ _ _ H).
Qed.

Lemma above_ret n {A} (a : A) : above n (ret a).
Proof. intros s b s' _ H. injection H as _ <-. apply store_extends_refl. Qed.

Lemma above_raise n {A} (e : exn) : above n (@raise A e).
Proof. intros s b s' _ H. discriminate. Qed.

Lemma above_setitem n l f v : (n <= l)%nat -> above n (setitem (VRef l) f v).
Proof.
  intros Hl s a s' _ H. unfold setitem, bind, get_mem, set_mem, raise in H.
  repeat case_match; simplify_eq; simpl;
    apply store_extends_insert_above; exact Hl.
Qed.

Lemma above_dict_pop n l k v : (n <= l)%nat -> above n (dict_pop (VRef l) k v).
Proof.
  intros Hl s a s' _ H. unfold dict_pop, bind, get_mem, set_mem, raise, ret in H.
  repeat case_match; simplify_eq; simpl;
    solve [apply store_extends_insert_above; exact Hl
          |apply store_extends_refl].
Qed.

Lemma returns_bind {A B} (P : B -> Prop) (m : M A) (k : A -> M B) :
  (forall a, returns P (k a)) -> returns P (bind m k).
Proof.
  intros Hk s b s' H. apply bind_ok in H as (a & s1 & _ & H2).
  exact (Hk _ _ _ _ H2).
Qed.

Lemma walker_returns_data lib cfg self fieldname data schema :
  returns (fun r => r = data) (walker lib cfg self fieldname data schema).
Proof.
  unfold walker. destruct (is_none schema).
  - intros s a s' H. injection H as <- _. reflexivity.
  - apply returns_bind. intros h.
    destruct (deref h schema) as [[entries| |]|];
      try (intros s a s' H; discriminate).
    repeat (apply returns_bind; intros).
    intros s0 r s1 H. injection H as <- _. reflexivity.
Qed.

Lemma py_contains_pure needle container s r s' :
  py_contains needle container s = Ok r s' ->
  s' = s /\ contains (mem s) needle container = inr r.
Proof.
  unfold py_contains. rewrite get_mem_run.
  destruct (contains (mem s) needle container); simpl; intros H;
    [discriminate|]. injection H as <- <-. auto.
Qed.

Lemma subscript_pure x field s v s' :
  subscript x field s = Ok v s' -> s' = s.
Proof.
  unfold subscript. rewrite get_mem_run.
  destruct (getitem (mem s) x field); simpl; intros H;
    try discriminate; injection H as _ <-; reflexivity.
Qed.

Section PlainStore.
Context (lib : PyLib) (cfg : config).
Context (Hplain : is_coercer (cls cfg) = false).

Lemma no_coercer {P : Prop} : is_coercer (cls cfg) = true -> P.
Proof using Hplain. congruence. Qed.

(** The insertion of the default that starts [__validate]. *)
Lemma fill_default_extends n fieldname data schema entries s s2 :
  (if is_dict (mem s) data then
     let* present := py_contains fieldname data in
     if present then ret tt
     else
       let* has_default := py_contains (VStr "default") schema in
       if has_default then
         let* d := subscript schema (VStr "default") in
         setitem data fieldname d
       else ret tt
   else ret tt) (with_mem s (mem s ++ [ODict entries])) = Ok tt s2 ->
  store_extends n (mem s ++ [ODict entries]) (mem s2).
Proof.
  set (s1 := with_mem s (mem s ++ [ODict entries])).
  intros H. destruct (is_dict (mem s) data) eqn:Hd.
  2:{ injection H as <-. apply store_extends_refl. }
  unfold is_dict in Hd.
  destruct data as [| | | | | |l]; try discriminate. simpl in Hd.
  destruct (mem s !! l) as [[kvs| |]|] eqn:El; try discriminate.
  assert (El1 : mem s1 !! l = Some (ODict kvs))
    by (apply lookup_app_l_Some; exact El).
  apply bind_ok in H as (present & s1' & H1 & H).
  apply py_contains_pure in H1 as [-> H1].
  destruct present.
  { injection H as <-. apply store_extends_refl. }
  apply bind_ok in H as (has_default & s1' & H2 & H).
  apply py_contains_pure in H2 as [-> H2].
  destruct has_default.
  2:{ injection H as <-. apply store_extends_refl. }
  apply bind_ok in H as (d & s1' & H3 & H).
  apply subscript_pure in H3 as ->.
  unfold setitem in H. rewrite get_mem_run, El1 in H.
  destruct fieldname as [| | | |k| |]; try discriminate.
  injection H as <-. simpl.
  apply (store_extends_insert _ _ _ _ _ El1). simpl.
  assert (Hk : assoc k kvs = None).
  { unfold contains in H1. rewrite El1 in H1.
    destruct (assoc k kvs); [discriminate|reflexivity]. }
  apply assoc_set_keeps, Hk.
Qed.

Lemma grows_wrapper A x f (m : M A) :
  respects grows m -> respects grows (wrapper x f m).
Proof. apply (wrapper_respects grows grows_set_path). Qed.

Lemma grows_scoped A B (m : M A) (k : list entry -> M B) :
  respects grows m -> (forall errs, respects grows (k errs)) ->
  respects grows (push_error_stack ;; m ;; let* errs := pop_error_stack in k errs).
Proof. apply (scoped_respects grows grows_push grows_pop). Qed.

Lemma grows_scoped_args A B C (g : M A) (m : A -> M B) (k : list entry -> M C) :
  respects grows g -> (forall v, respects grows (m v)) ->
  (forall errs, respects grows (k errs)) ->
  respects grows (push_error_stack ;;
                  let* v := g in m v ;; let* errs := pop_error_stack in k errs).
Proof. apply (scoped_args_respects grows grows_push grows_pop). Qed.

Section Walk.
Context (self : methods).
Context (Hinner : forall fieldname data schema,
            respects grows (inner_validate self fieldname data schema)).
Context (Htype : forall x fieldname schema fieldtype,
            respects grows (validate_type self x fieldname schema fieldtype)).

Lemma grows_find_evaluator name ev x f sch a :
  find_evaluator lib cfg self name = Some ev -> respects grows (ev x f sch a).
Proof using Hplain Hinner Htype.
  apply (respects_find_evaluator lib cfg grows grows_new grows_append
           grows_extend grows_wrapper grows_scoped grows_scoped_args
           no_coercer no_coercer self Hinner Htype).
Qed.

(** The steps of [__validate] on a schema that is a mapping: the copy of
    the schema, the insertion of the default, and the checks, which keep
    every object that existed before the call. *)
Lemma walker_steps fieldname data schema s a s' :
  walker lib cfg self fieldname data schema s = Ok a s' ->
  is_none schema = false ->
  exists entries s2,
    deref (mem s) schema = Some (ODict entries) /\
    (if is_dict (mem s) data then
       let* present := py_contains fieldname data in
       if present then ret tt
       else
         let* has_default := py_contains (VStr "default") schema in
         if has_default then
           let* d := subscript schema (VStr "default") in
           setitem data fieldname d
         else ret tt
     else ret tt) (with_mem s (mem s ++ [ODict entries])) = Ok tt s2 /\
    (length (mem s) < length (mem s2))%nat /\
    store_extends (length (mem s)) (mem s2) (mem s').
Proof using Hplain Hinner Htype.
  intros H Hns. unfold walker in H. rewrite Hns, get_mem_run in H.
  destruct (deref (mem s) schema) as [[entries| |]|]; try discriminate.
  rewrite (bind_run _ _ _ _ _ (new_run _ s)) in H.
  apply bind_ok in H as ([] & s2 & HB & H).
  exists entries, s2. split; [reflexivity|]. split; [exact HB|].
  pose proof (fill_default_extends 0 _ _ _ _ _ _ HB) as [Hlen _].
  rewrite length_app in Hlen. simpl in Hlen.
  split; [lia|].
  set (n := length (mem s)) in *.
  match type of H with
  | ?m s2 = _ => assert (Habove : above n m)
  end.
  { repeat match goal with
           | |- above _ (bind _ _) => apply above_bind; [|intros]
           | |- above _ (if ?b then _ else _) => destruct b
           | |- above _ (ret _) => apply above_ret
           | |- above _ (raise _) => apply above_raise
           | |- above _ (setitem (VRef _) _ _) => apply above_setitem; lia
           | |- above _ (dict_pop (VRef _) _ _) => apply above_dict_pop; lia
           | |- above _ _ => apply above_grows
           end;
      try (apply respects_py_contains; exact _);
      try (apply respects_py_items; exact _);
      try apply Htype.
    - unfold wrapped. apply grows_wrapper.
      apply (respects_validate_required lib cfg grows grows_new grows_append
               grows_extend grows_wrapper grows_scoped grows_scoped_args
               no_coercer no_coercer self Hinner Htype).
    - apply respects_for_each; [exact _|]. intros kv.
      destruct (find_evaluator lib cfg self (fst kv)) as [ev|] eqn:Ev.
      + apply respects_bind; [exact _|apply respects_py_dict_get; exact _|].
        intros arg.
        apply respects_bind; [exact _|exact (grows_find_evaluator _ _ _ _ _ _ Ev)|].
        intros _. apply respects_ret. exact _. 
      + apply respects_ret. exact _. }
  apply (Habove s2 a s'); [lia|exact H].
Qed.

Lemma grows_walker fieldname data schema :
  respects grows (walker lib cfg self fieldname data schema).
Proof using Hplain Hinner Htype.
  intros s a s' H.
  destruct (is_none schema) eqn:Hns.
  - unfold walker in H. rewrite Hns in H. injection H as _ <-. reflexivity.
  - destruct (walker_steps _ _ _ _ _ _ H Hns)
      as (entries & s2 & _ & HB & _ & Hrest).
    unfold grows.
    eapply store_extends_trans; [apply (store_extends_app _ _ [ODict entries])|].
    eapply store_extends_trans; [|exact Hrest].
    exact (fill_default_extends _ _ _ _ _ _ _ HB).
Qed.
End Walk.

Lemma grows_methods_at depth :
  (forall fieldname data schema,
      respects grows
        (inner_validate (methods_at lib cfg depth) fieldname data schema)) /\
  (forall x fieldname schema fieldtype,
      respects grows
        (validate_type (methods_at lib cfg depth) x fieldname schema fieldtype)).
Proof using Hplain.
  induction depth as [|d [IHinner IHtype]]; split; simpl; intros.
  - apply respects_raise.
  - apply respects_raise.
  - apply grows_walker; assumption.
  - apply (respects_method_type lib cfg grows grows_new grows_append
             grows_extend grows_wrapper grows_scoped grows_scoped_args
             no_coercer no_coercer _ IHinner IHtype).
Qed.
End PlainStore.

(** X19.  Whenever [_validate] returns, for every class, schema and depth of
    recursion: the stack of suspended error lists is as it was, and the
    current error list is the one it started with followed by new records;
    no record reported earlier is removed or reordered. *)
Theorem errors_accumulate
        (lib : PyLib) (cfg : config) (depth : nat) (data schema r : value)
        (s s' : validator) :
  _validate (methods_at lib cfg depth) data schema s = Ok r s' ->
  error_stack s' = error_stack s /\
  exists more, error_list s' = error_list s ++ more.
Proof.
  intros H.
  destruct (accumulates_methods_at lib cfg depth) as [Hinner Htype].
  assert (Hv : respects accumulates (_validate (methods_at lib cfg depth) data schema)).
  { apply (respects__validate lib cfg accumulates (blind_new accumulates accumulates_mem)
             (blind_append accumulates accumulates_mem) accumulates_extend
             accumulates_wrapper accumulates_scoped accumulates_scoped_args
             (fun _ => blind_setitem accumulates accumulates_mem)
             (fun _ => blind_delitem accumulates accumulates_mem)
             _ Hinner Htype). }
  destruct (Hv _ _ _ H) as [E P]. split; [exact E|exact P].
Qed.

(** X20.  Whenever [__validate] returns, for every class, schema and depth
    of recursion: the stack of enclosing objects is as it was, and the stack
    of field names has its length and everything below its top as they
    were.  The segments pushed for nested fields are all popped. *)
Theorem field_path_is_restored
        (lib : PyLib) (cfg : config) (depth : nat)
        (fieldname data schema r : value) (s s' : validator) :
  inner_validate (methods_at lib cfg depth) fieldname data schema s = Ok r s' ->
  current_object s' = current_object s /\
  tl (current_field s') = tl (current_field s) /\
  length (current_field s') = length (current_field s).
Proof.
  intros H.
  exact (proj1 (same_level_methods_at lib cfg depth) _ _ _ _ _ _ H).
Qed.

Section PlainValidation.
Context (lib : PyLib) (cfg : config) (depth : nat).
Context (Hplain : is_coercer (cls cfg) = false).

Lemma grows__validate data schema :
  respects grows (_validate (methods_at lib cfg depth) data schema).
Proof using Hplain.
  destruct (grows_methods_at lib cfg Hplain depth) as [Hinner Htype].
  apply (respects__validate lib cfg grows grows_new grows_append grows_extend
           grows_wrapper grows_scoped grows_scoped_args
           (no_coercer cfg Hplain) (no_coercer cfg Hplain) _ Hinner Htype).
Qed.

(** X21.  When [validate] of a plain (not coercing) validator returns,
    every object that existed before the call still exists: a mapping has
    every key it had, with the same value, and possibly new keys (the
    defaults that were filled in); a list has the items it had, in order,
    possibly followed by new ones; a tuple is unchanged.  Plain validation
    never removes or overwrites data. *)
Theorem plain_validate_only_extends_the_store
        (data schema r : value) (s s' : validator) :
  validate (methods_at lib cfg depth) data schema s = Ok r s' ->
  forall l o,
    mem s !! l = Some o ->
    exists o', mem s' !! l = Some o' /\ obj_extends o o'.
Proof using Hplain.
  intros H l o Hl. rewrite validate_boundary in H.
  destruct (_validate (methods_at lib cfg depth) data schema s)
    as [r0 s1|e] eqn:E; [|discriminate].
  destruct (error_list s1); [|discriminate]. injection H as _ <-.
  apply (grows__validate data schema) in E as [_ E].
  apply E; [|exact Hl]. eapply lookup_lt_Some; eauto.
Qed.

Lemma inner_returns_data fieldname data schema s r s' :
  inner_validate (methods_at lib cfg depth) fieldname data schema s = Ok r s' ->
  r = data.
Proof.
  destruct depth as [|d]; simpl; [discriminate|].
  apply walker_returns_data.
Qed.

(** X22.  When [validate] of a plain validator returns, it returns its
    argument [data] itself, and the error list is empty. *)
Theorem plain_validate_returns_its_argument
        (data schema r : value) (s s' : validator) :
  validate (methods_at lib cfg depth) data schema s = Ok r s' ->
  r = data /\ error_list s' = [].
Proof using Hplain.
  intros H. rewrite validate_boundary in H.
  destruct (_validate (methods_at lib cfg depth) data schema s)
    as [r0 s1|e] eqn:E; [|discriminate].
  destruct (error_list s1) eqn:El; [|discriminate].
  injection H as <- <-. split; [|exact El].
  unfold _validate in E.
  rewrite (bind_run _ _ _ _ _ (new_run _ s)) in E.
  set (s0 := with_mem s (mem s ++ [ODict [("_data", data)]])) in *.
  apply bind_ok in E as (r1 & s2 & H1 & H2).
  pose proof (inner_returns_data _ _ _ _ _ _ H1) as ->.
  apply (proj1 (grows_methods_at lib cfg Hplain depth)) in H1 as [_ H1].
  destruct (H1 (length (mem s)) (ODict [("_data", data)])) as (o' & Ho & Hx).
  { simpl. rewrite length_app. simpl. lia. }
  { simpl. rewrite lookup_app_r by lia. rewrite Nat.sub_diag. reflexivity. }
  destruct o' as [kvs| |]; simpl in Hx; try contradiction.
  specialize (Hx "_data" data eq_refl).
  unfold py_dict_get in H2. rewrite get_mem_run in H2.
  unfold dict_get, deref in H2. rewrite Ho, Hx in H2.
  injection H2 as <- _. reflexivity.
Qed.

(** X23.  In a plain validator, when the field [k] is missing from the
    object and its schema has a default [d]: if [__validate] returns, the
    object then holds [d] under [k] and every key it had with the same
    value; the object is modified in place and is the value returned. *)
Theorem default_is_stored_in_the_object
        (k : string) (ld : loc) (kvs entries : list (string * value))
        (schema d r : value) (s s' : validator) :
  mem s !! ld = Some (ODict kvs) ->
  assoc k kvs = None ->
  deref (mem s) schema = Some (ODict entries) ->
  assoc "default" entries = Some d ->
  inner_validate (methods_at lib cfg (S depth)) (VStr k) (VRef ld) schema s
  = Ok r s' ->
  r = VRef ld /\
  exists kvs',
    mem s' !! ld = Some (ODict kvs') /\
    assoc k kvs' = Some d /\
    forall k' v, assoc k' kvs = Some v -> assoc k' kvs' = Some v.
Proof using Hplain.
  intros Hld Hk Hsch Hd H.
  split; [exact (walker_returns_data _ _ _ _ _ _ _ _ _ H)|].
  destruct (grows_methods_at lib cfg Hplain depth) as [Hinner Htype].
  assert (Hns : is_none schema = false)
    by (destruct schema; try reflexivity; discriminate).
  destruct (walker_steps lib cfg Hplain _ Hinner Htype _ _ _ _ _ _ H Hns)
    as (entries' & s2 & Hsch' & HB & _ & [_ Hrest]).
  rewrite Hsch in Hsch'. injection Hsch' as <-.
  set (s1 := with_mem s (mem s ++ [ODict entries])) in *.
  assert (Hld1 : mem s1 !! ld = Some (ODict kvs))
    by (apply lookup_app_l_Some; exact Hld).
  assert (Hd1 : is_dict (mem s) (VRef ld) = true)
    by (unfold is_dict, deref; rewrite Hld; reflexivity).
  rewrite Hd1 in HB.
  rewrite (bind_run _ _ s1 false s1) in HB.
  2:{ apply py_contains_run. rewrite (contains_key _ _ _ _ Hld1).
      unfold is_key. rewrite Hk. reflexivity. }
  destruct schema as [| | | | | |ls]; try discriminate. simpl in Hsch.
  assert (Hls1 : mem s1 !! ls = Some (ODict entries))
    by (apply lookup_app_l_Some; exact Hsch).
  rewrite (bind_run _ _ s1 true s1) in HB.
  2:{ apply py_contains_run. rewrite (contains_key _ _ _ _ Hls1).
      unfold is_key. rewrite Hd. reflexivity. }
  rewrite (bind_run _ _ s1 d s1) in HB.
  2:{ apply subscript_run. rewrite (getitem_key _ _ _ _ Hls1), Hd.
      reflexivity. }
  rewrite (setitem_key _ _ _ _ _ Hld1) in HB. injection HB as <-.
  assert (Hlt : (ld < length (mem s))%nat) by (eapply lookup_lt_Some; eauto).
  destruct (Hrest ld (ODict (assoc_set k d kvs)) Hlt) as (o' & Ho & Hx).
  { simpl. apply list_lookup_insert_eq. rewrite length_app. lia. }
  destruct o' as [kvs'| |]; simpl in Hx; try contradiction.
  exists kvs'. split; [exact Ho|]. split.
  - apply Hx, assoc_set_found.
  - intros k' v Hv. apply Hx. rewrite assoc_set_other; [exact Hv|].
    intros ->. congruence.
Qed.
End PlainValidation.

Lemma errors_accumulate_witness :
  (* the string "abc" against an integer of minimal length 5, after an
     earlier error *)
  let cfg := make_config plain_lib SchemaValidator in
  let earlier := ErrorRecord "earlier" VNone VNone VNone in
  let s := Validator [earlier] [] [] []
             [ODict [("type", VStr "integer"); ("minLength", VInt 5)]] in
  let s' := Validator
              [earlier;
               ErrorRecord "incorrect-type" VNone (VStr "integer") (VStr "abc");
               ErrorRecord "too-short" VNone (VInt 5) (VInt 3)]
              [] [] []
              [ODict [("type", VStr "integer"); ("minLength", VInt 5)];
               ODict [("_data", VStr "abc")];
               ODict [("minLength", VInt 5); ("blank", VBool false)]] in
  _validate (methods_at plain_lib cfg 3) (VStr "abc") (VRef 0%nat) s
  = Ok (VStr "abc") s' /\
  error_stack s' = error_stack s /\
  exists more, error_list s' = error_list s ++ more.
Proof.
  intros cfg earlier s s'.
  assert (H : _validate (methods_at plain_lib cfg 3) (VStr "abc") (VRef 0%nat) s
              = Ok (VStr "abc") s') by (vm_compute; reflexivity).
  exact (conj H (errors_accumulate plain_lib cfg 3 (VStr "abc") (VRef 0%nat)
                   (VStr "abc") s s' H)).
Defined.

Lemma field_path_is_restored_witness :
  let cfg := make_config plain_lib SchemaValidator in
  let s := Validator [] [] [VStr "_data"] [VRef 9%nat]
             [ODict [("a", VStr "abc")]; ODict [("type", VStr "integer")]] in
  let s' := Validator
              [ErrorRecord "incorrect-type" (VStr "a") (VStr "integer")
                           (VStr "abc")]
              [] [VStr "_data"] [VRef 9%nat]
              [ODict [("a", VStr "abc")]; ODict [("type", VStr "integer")];
               ODict [("blank", VBool false)]] in
  inner_validate (methods_at plain_lib cfg 3) (VStr "a") (VRef 0%nat)
                 (VRef 1%nat) s = Ok (VRef 0%nat) s' /\
  current_object s' = current_object s /\
  tl (current_field s') = tl (current_field s) /\
  length (current_field s') = length (current_field s).
Proof.
  intros cfg s s'.
  assert (H : inner_validate (methods_at plain_lib cfg 3) (VStr "a") (VRef 0%nat)
                             (VRef 1%nat) s = Ok (VRef 0%nat) s')
    by (vm_compute; reflexivity).
  exact (conj H (field_path_is_restored plain_lib cfg 3 (VStr "a") (VRef 0%nat)
                   (VRef 1%nat) (VRef 0%nat) s s' H)).
Defined.

Lemma plain_validate_only_extends_the_store_witness :
  (* the object {'a': 1} keeps its key while the default of b is filled in *)
  let cfg := make_config plain_lib SchemaValidator in
  exists s',
    validate (methods_at plain_lib cfg 4) (VRef 0%nat) (VRef 3%nat)
             (fresh default_example_store)
    = Ok (VRef 0%nat) s' /\
    exists o', mem s' !! 0%nat = Some o' /\
               obj_extends (ODict [("a", VInt 1)]) o'.
Proof.
  intros cfg.
  assert (H : validate (methods_at plain_lib cfg 4) (VRef 0%nat) (VRef 3%nat)
                       (fresh default_example_store)
              = Ok (VRef 0%nat) default_example_result)
    by (vm_compute; reflexivity).
  exists default_example_result.
  exact (conj H (plain_validate_only_extends_the_store plain_lib cfg 4 eq_refl
                   (VRef 0%nat) (VRef 3%nat) (VRef 0%nat)
                   (fresh default_example_store) default_example_result
                   H 0%nat (ODict [("a", VInt 1)]) eq_refl)).
Defined.

Lemma plain_validate_returns_its_argument_witness :
  (* the string "abc" against a minimal length of 2 *)
  let cfg := make_config plain_lib SchemaValidator in
  let data := VStr "abc" in
  let s := fresh [ODict [("minLength", VInt 2)]] in
  let s' := fresh [ODict [("minLength", VInt 2)]; ODict [("_data", VStr "abc")];
                   ODict [("minLength", VInt 2); ("blank", VBool false)]] in
  validate (methods_at plain_lib cfg 3) data (VRef 0%nat) s = Ok data s' /\
  data = data /\ error_list s' = [].
Proof.
  intros cfg data s s'.
  assert (H : validate (methods_at plain_lib cfg 3) data (VRef 0%nat) s
              = Ok data s') by (vm_compute; reflexivity).
  exact (conj H (plain_validate_returns_its_argument plain_lib cfg 3 eq_refl
                   data (VRef 0%nat) data s s' H)).
Defined.

Lemma default_is_stored_in_the_object_witness :
  (* the object {'a': 1} and the field b, whose schema has the default 7 *)
  let cfg := make_config plain_lib SchemaValidator in
  let s := fresh [ODict [("a", VInt 1)]; ODict [("default", VInt 7)]] in
  exists s',
    inner_validate (methods_at plain_lib cfg 2) (VStr "b") (VRef 0%nat)
                   (VRef 1%nat) s = Ok (VRef 0%nat) s' /\
    exists kvs',
      mem s' !! 0%nat = Some (ODict kvs') /\
      assoc "b" kvs' = Some (VInt 7) /\
      forall k' v, assoc k' [("a", VInt 1)] = Some v -> assoc k' kvs' = Some v.
Proof.
  intros cfg s.
  pose (s' := fresh [ODict [("a", VInt 1); ("b", VInt 7)];
                     ODict [("default", VInt 7)];
                     ODict [("default", VInt 7); ("blank", VBool false)]]).
  assert (H : inner_validate (methods_at plain_lib cfg 2) (VStr "b") (VRef 0%nat)
                             (VRef 1%nat) s = Ok (VRef 0%nat) s')
    by (vm_compute; reflexivity).
  exists s'.
  exact (conj H (proj2 (default_is_stored_in_the_object plain_lib cfg 1 eq_refl
                          "b" 0%nat [("a", VInt 1)] [("default", VInt 7)]
                          (VRef 1%nat) (VInt 7) (VRef 0%nat) s s'
                          eq_refl eq_refl eq_refl eq_refl H))).
Defined.

(** ** Registered formats *)

Lemma find_set_format name f l name' :
  find_format name' (set_format name f l)
  = if String.eqb name' name then Some f else find_format name' l.
Proof.
  induction l as [|[k g] l IH]; simpl.
  - destruct (String.eqb name' name); reflexivity.
  - destruct (String.eqb_spec name k) as [->|Hne]; simpl.
    + destruct (String.eqb name' k); reflexivity.
    + rewrite IH. destruct (String.eqb_spec name' k) as [->|Hne'].
      * destruct (String.eqb_spec k name); [congruence|reflexivity].
      * reflexivity.
Qed.

(** X24.  After [register_format_validator name f], [validate_format] with
    the format [name] calls [f] on every truthy value, appending the errors
    [f] reports, whether or not a validator was registered under that name
    before; every other format behaves as before the registration. *)
Theorem registered_format_validator_is_used
        (cfg : config) (name name' : string) (f : format_validator)
        (x fieldname schema : value) (s : validator) :
  validate_format (register_format_validator cfg name f) x fieldname schema
                  (VStr name') s =
  if String.eqb name' name then
    match get x fieldname VNone s with
    | Ok v _ =>
        if truthy (mem s) v then
          match f (mem s) fieldname v (VStr name) with
          | inr errs => Ok tt (with_errors s errs)
          | inl e => Raise e
          end
        else Ok tt s
    | Raise e => Raise e
    end
  else validate_format cfg x fieldname schema (VStr name') s.
Proof.
  unfold validate_format, register_format_validator, bind, get_mem, ret.
  cbn [format_validators]. rewrite find_set_format.
  destruct (get x fieldname VNone s) as [v s0|e] eqn:G.
  - apply get_pure in G as ->.
    destruct (String.eqb_spec name' name) as [->|Hne]; [|reflexivity].
    destruct (truthy (mem s) v); [|reflexivity].
    unfold lift, raise, ret.
    destruct (f (mem s) fieldname v (VStr name)); reflexivity.
  - destruct (String.eqb name' name); reflexivity.
Qed.

(** ** Alternatives of required fields *)

Lemma join_names_snoc l n t :
  join_names l = Some t -> exists t', join_names (l ++ [VStr n]) = Some t'.
Proof.
  revert t. induction l as [|a l IH]; intros t H; simpl.
  - eauto.
  - destruct a as [| | | |a| |]; try discriminate.
    destruct l as [|b l].
    + simpl. eauto.
    + change (join_names (VStr a :: b :: l))
        with (option_map (fun t => String.append a (String.append "." t))
                         (join_names (b :: l))) in H.
      destruct (join_names (b :: l)) as [t0|] eqn:E; [|discriminate].
      destruct (IH t0 eq_refl) as [t' Ht'].
      change ((b :: l) ++ [VStr n]) with (b :: l ++ [VStr n]) in *.
      change (join_names (VStr a :: b :: l ++ [VStr n]))
        with (option_map (fun t => String.append a (String.append "." t))
                         (join_names (b :: l ++ [VStr n]))).
      rewrite Ht'. simpl. eauto.
Qed.

Lemma field_path_nested s p n e st o h :
  field_path s = Some p ->
  exists p', field_path (Validator e st (VStr n :: current_field s) o h) = Some p'.
Proof.
  unfold field_path. simpl. intros H.
  destruct (rev (current_field s)) as [|a l] eqn:E; simpl.
  - eauto.
  - simpl in H. destruct (join_names l) as [t|] eqn:J; [|discriminate].
    destruct (join_names_snoc l n t J) as [t' ->].
    destruct t'; eauto.
Qed.

Lemma wrapper_other {A} x fieldname (m : M A) s a s1 c fields o objects :
  match current_object s with top :: _ => py_is top x | [] => false end = false ->
  m (Validator (error_list s) (error_stack s)
               (field_label fieldname :: current_field s) (x :: current_object s)
               (mem s)) = Ok a s1 ->
  current_field s1 = c :: fields ->
  current_object s1 = o :: objects ->
  wrapper x fieldname m s
  = Ok a (Validator (error_list s1) (error_stack s1) fields objects (mem s1)).
Proof.
  intros Hsame Hm Hf Ho. unfold wrapper.
  rewrite (bind_run get_state _ s s s eq_refl). rewrite Hsame.
  unfold bind at 1. unfold set_path at 1.
  unfold bind at 1. rewrite Hm.
  rewrite (bind_run get_state _ s1 s1 s1 eq_refl). rewrite Hf, Ho.
  reflexivity.
Qed.

Lemma requireEither_loop schema lx lv k p inner os names s :
  getitem (mem s) (VRef lx) (VStr k) = Found (VRef lv) ->
  lv <> lx ->
  mem s !! lv = Some (ODict inner) ->
  current_object s = VRef lx :: os ->
  field_path s = Some p ->
  for_each (map VStr names)
    (fun prop =>
       push_error_stack ;;
       let* inner := get (VRef lx) (VStr k) VNone in
       wrapper inner prop (validate_required inner prop schema (VBool true)) ;;
       let* errs := pop_error_stack in
       ret (nonempty errs)) s
  = Ok (negb (existsb (fun n => is_key n inner) names)) s.
Proof.
  intros Hx Hne Hlv Ho Hp.
  induction names as [|n names IH]; simpl; [reflexivity|].
  assert (Hstep :
    (push_error_stack ;;
     let* inner := get (VRef lx) (VStr k) VNone in
     wrapper inner (VStr n)
             (validate_required inner (VStr n) schema (VBool true)) ;;
     let* errs := pop_error_stack in
     ret (nonempty errs)) s = Ok (negb (is_key n inner)) s).
  { destruct (field_path_nested s p n [] (error_list s :: error_stack s)
                (VRef lv :: current_object s) (mem s) Hp) as [p' Hp'].
    set (errs := if is_key n inner then []
                 else [ErrorRecord "missing-required" p' VNone VNone]).
    assert (Hw : wrapper (VRef lv) (VStr n)
                   (validate_required (VRef lv) (VStr n) schema (VBool true))
                   (opened s)
                 = Ok tt (with_errors (opened s) errs)).
    { rewrite (wrapper_other _ _ _ (opened s) tt
                 (Validator errs (error_list s :: error_stack s)
                            (VStr n :: current_field s)
                            (VRef lv :: current_object s) (mem s))
                 (VStr n) (current_field s) (VRef lv) (current_object s));
        try reflexivity.
      - simpl. rewrite Ho. simpl. apply Nat.eqb_neq. congruence.
      - unfold validate_required. simpl.
        match goal with
        | |- _ ?st = _ =>
            rewrite (bind_run _ _ st (is_key n inner) st
                       (py_contains_run _ _ st _ (contains_key _ _ _ _ Hlv)))
        end.
        rewrite get_mem_run. unfold errs.
        destruct (is_key n inner); simpl; [reflexivity|].
        change (field_label (VStr n)) with (VStr n).
        exact (error_run _ _ _ p' _ Hp'). }
    unfold bind at 1. unfold push_error_stack.
    rewrite (bind_run _ _ _ _ _ (get_found _ (VStr k) VNone _ (opened s) Hx)).
    rewrite (bind_run _ _ _ _ _ Hw).
    unfold bind, pop_error_stack, ret. simpl. unfold errs.
    destruct (is_key n inner); destruct s; reflexivity. }
  unfold bind at 1. rewrite Hstep.
  destruct (is_key n inner); simpl; [reflexivity|exact IH].
Qed.

(** X25.  [validate_requireEither] on a field that holds an object, with a
    list or a tuple of names: none-of-required is reported exactly when none
    of the names is a key of the object the field holds; the records of the
    alternatives that failed are dropped with their scopes. *)
Theorem requireEither_looks_inside_the_field
        (schema p : value) (lx lv lo : loc) (k : string)
        (kvs inner : list (string * value)) (names : list string)
        (os : list value) (s : validator) :
  mem s !! lx = Some (ODict kvs) ->
  assoc k kvs = Some (VRef lv) ->
  lv <> lx ->
  mem s !! lv = Some (ODict inner) ->
  mem s !! lo = Some (OList (map VStr names)) \/
  mem s !! lo = Some (OTuple (map VStr names)) ->
  current_object s = VRef lx :: os ->
  field_path s = Some p ->
  validate_requireEither (VRef lx) (VStr k) schema (VRef lo) s =
  Ok tt (if existsb (fun n => is_key n inner) names then s
         else with_errors s [ErrorRecord "none-of-required" p (VRef lo) VNone]).
Proof.
  intros Hlx Hk Hne Hlv Hlo Ho Hp.
  assert (Hx : getitem (mem s) (VRef lx) (VStr k) = Found (VRef lv))
    by (rewrite (getitem_key _ _ _ _ Hlx), Hk; reflexivity).
  unfold validate_requireEither.
  rewrite (bind_run _ _ s true s).
  2:{ apply py_contains_run. rewrite (contains_key _ _ _ _ Hlx).
      unfold is_key. rewrite Hk. reflexivity. }
  cbn [negb].
  rewrite (bind_run _ _ s (map VStr names) s).
  2:{ apply py_iterate_run. unfold iterate.
      destruct Hlo as [-> | ->]; reflexivity. }
  rewrite (bind_run _ _ _ _ _
             (requireEither_loop schema lx lv k p inner os names s
                Hx Hne Hlv Ho Hp)).
  destruct (existsb _ names); simpl; [reflexivity|apply error_run, Hp].
Qed.

Lemma requireEither_looks_inside_the_field_witness :
  (* the field holds {'b': 1}; one of a or c is required in it *)
  let s := field_example (VRef 1%nat)
             [ODict [("b", VInt 1)]; OList [VStr "a"; VStr "c"]] in
  validate_requireEither (VRef 0%nat) (VStr "_data") VNone (VRef 2%nat) s
  = Ok tt (with_errors s [ErrorRecord "none-of-required" VNone (VRef 2%nat) VNone]).
Proof.
  intros s.
  refine (requireEither_looks_inside_the_field VNone VNone 0%nat 1%nat 2%nat
            "_data" [("_data", VRef 1%nat)] [("b", VInt 1)] ["a"; "c"] [] s
            eq_refl eq_refl _ eq_refl (or_introl eq_refl) eq_refl eq_refl).
  discriminate.
Defined.

(** ** Keywords of earlier drafts *)

(** The insertion of the default that starts [__validate], for a field
    named by a string and a schema that is another object than the data:
    it returns, and the schema is as it was. *)
Lemma fill_default_runs k data ls entries s :
  mem s !! ls = Some (ODict entries) ->
  data <> VRef ls ->
  exists s2,
    (if is_dict (mem s) data then
       let* present := py_contains (VStr k) data in
       if present then ret tt
       else
         let* has_default := py_contains (VStr "default") (VRef ls) in
         if has_default then
           let* d := subscript (VRef ls) (VStr "default") in
           setitem data (VStr k) d
         else ret tt
     else ret tt) (with_mem s (mem s ++ [ODict entries])) = Ok tt s2 /\
    mem s2 !! ls = Some (ODict entries).
Proof.
  intros Hls Hne.
  set (s1 := with_mem s (mem s ++ [ODict entries])).
  assert (Hls1 : mem s1 !! ls = Some (ODict entries))
    by (apply lookup_app_l_Some; exact Hls).
  destruct (is_dict (mem s) data) eqn:Hd; [|exists s1; auto].
  unfold is_dict in Hd.
  destruct data as [| | | | | |l]; try discriminate. simpl in Hd.
  destruct (mem s !! l) as [[kvs| |]|] eqn:El; try discriminate.
  assert (El1 : mem s1 !! l = Some (ODict kvs))
    by (apply lookup_app_l_Some; exact El).
  rewrite (bind_run _ _ s1 (is_key k kvs) s1)
    by (apply py_contains_run, contains_key, El1).
  destruct (is_key k kvs); [exists s1; auto|].
  rewrite (bind_run _ _ s1 (is_key "default" entries) s1)
    by (apply py_contains_run, contains_key, Hls1).
  unfold is_key. destruct (assoc "default" entries) as [d|] eqn:Ed;
    [|exists s1; auto].
  rewrite (bind_run _ _ s1 d s1).
  2:{ apply subscript_run. rewrite (getitem_key _ _ _ _ Hls1), Ed.
      reflexivity. }
  rewrite (setitem_key _ _ _ _ _ El1). eexists. split; [reflexivity|].
  simpl. rewrite list_lookup_insert_ne by congruence. exact Hls1.
Qed.

(** X26.  A schema that has the key [optional] makes [__validate] raise a
    schema error, whatever the data, the class and the other keys of the
    schema; so does the key [requires] in a schema without [optional].  The
    schema is here an object other than the data. *)
Theorem legacy_keywords_are_schema_errors
        (lib : PyLib) (cfg : config) (self : methods) (k : string)
        (data : value) (ls : loc) (entries : list (string * value))
        (s : validator) :
  mem s !! ls = Some (ODict entries) ->
  data <> VRef ls ->
  (is_key "optional" entries = true ->
   walker lib cfg self (VStr k) data (VRef ls) s
   = Raise (SchemaError
              "The 'optional' attribute has been replaced by 'required'")) /\
  (is_key "optional" entries = false ->
   is_key "requires" entries = true ->
   walker lib cfg self (VStr k) data (VRef ls) s
   = Raise (SchemaError
              "The 'requires' attribute has been replaced by 'dependencies'")).
Proof.
  intros Hls Hne.
  destruct (fill_default_runs k data ls entries s Hls Hne) as (s2 & Hfill & Hls2).
  split.
  - intros Hopt. unfold walker. cbn [is_none].
    rewrite get_mem_run.
    change (deref (mem s) (VRef ls)) with (mem s !! ls). rewrite Hls.
    rewrite (bind_run _ _ _ _ _ (new_run _ s)).
    rewrite (bind_run _ _ _ _ _ Hfill).
    rewrite (bind_run _ _ s2 true s2).
    2:{ apply py_contains_run. rewrite (contains_key _ _ _ _ Hls2).
        exact (f_equal inr Hopt). }
    reflexivity.
  - intros Hopt Hreq. unfold walker. cbn [is_none].
    rewrite get_mem_run.
    change (deref (mem s) (VRef ls)) with (mem s !! ls). rewrite Hls.
    rewrite (bind_run _ _ _ _ _ (new_run _ s)).
    rewrite (bind_run _ _ _ _ _ Hfill).
    rewrite (bind_run _ _ s2 false s2).
    2:{ apply py_contains_run. rewrite (contains_key _ _ _ _ Hls2).
        exact (f_equal inr Hopt). }
    unfold bind at 1, ret at 1.
    rewrite (bind_run _ _ s2 true s2).
    2:{ apply py_contains_run. rewrite (contains_key _ _ _ _ Hls2).
        exact (f_equal inr Hreq). }
    reflexivity.
Qed.

Lemma legacy_keywords_are_schema_errors_witness :
  let cfg := make_config plain_lib SchemaValidator in
  walker plain_lib cfg (methods_at plain_lib cfg 1) (VStr "_data") (VRef 0%nat)
         (VRef 1%nat)
         (fresh [ODict [("_data", VInt 1)]; ODict [("optional", VBool true)]])
  = Raise (SchemaError
             "The 'optional' attribute has been replaced by 'required'").
Proof.
  intros cfg.
  refine (proj1 (legacy_keywords_are_schema_errors plain_lib cfg
                   (methods_at plain_lib cfg 1) "_data" (VRef 0%nat) 1%nat
                   [("optional", VBool true)]
                   (fresh [ODict [("_data", VInt 1)];
                           ODict [("optional", VBool true)]])
                   eq_refl _) eq_refl).
  discriminate.
Defined.
